(** * DA-Bubble backend: registration, login, posts and the relational store

    A shallow embedding of the Django application (user_auth_app and
    messenger_app).  The application code is mostly declarative: the model
    classes declare columns and [on_delete] policies, the serializer classes
    declare fields and [Meta] options, and the views call into Django and the
    REST framework.  The embedding therefore has two layers:

    - the framework layer ([Py], [Orm], [Drf]): the behaviour of Python's
      string methods, of Django's object deletion and of the REST framework's
      field validation that the application relies on;
    - the application layer: one definition per class or method of the
      repository, named after it, which instantiates the framework layer with
      the options the source declares.

    The services of the specification (registration, authentication, post
    and chat resources) take the request data through the serializer fields:
    the values a service compares and stores are the validated ones, for
    text the trimmed ones.  Randomness and time are inputs: the key drawn for
    a new token and the current time are arguments of the operations.

    Text is modelled as ASCII strings: a string stands for the Python string
    of the same characters, all below 128, and the string methods of [Py] are
    Python's on such strings.  A statement whose truth depends on what
    [str.title] and [str.split] do to a name says that the name is ASCII
    ([Py.isascii]).  JSON numbers are integers. *)

From Stdlib Require Import ZArith String Ascii List Bool Lia DecimalString.
From stdpp Require Import base option list strings gmap.

Local Open Scope Z_scope.
Local Open Scope string_scope.

(** ** Python string methods (ASCII) *)

Module Py.

(** [str.isspace] on one ASCII character: TAB..CR, FS..US and SPACE. *)
Definition isspace (c : ascii) : bool :=
  let n := N_of_ascii c in
  ((9 <=? n) && (n <=? 13) || (28 <=? n) && (n <=? 32))%N.

Definition isupper (c : ascii) : bool :=
  let n := N_of_ascii c in ((65 <=? n) && (n <=? 90))%N.

Definition islower (c : ascii) : bool :=
  let n := N_of_ascii c in ((97 <=? n) && (n <=? 122))%N.

Definition iscased (c : ascii) : bool := isupper c || islower c.

Definition toupper (c : ascii) : ascii :=
  if islower c then ascii_of_N (N_of_ascii c - 32) else c.

Definition tolower (c : ascii) : ascii :=
  if isupper c then ascii_of_N (N_of_ascii c + 32) else c.

(** [str.title()]: a character that follows a cased character is
    lower-cased, any other character is upper-cased (CPython's
    [do_title]). *)
Definition title_char (previous_is_cased : bool) (c : ascii) : ascii :=
  if previous_is_cased then tolower c else toupper c.

Fixpoint title_from (previous_is_cased : bool) (s : string) : string :=
  match s with
  | EmptyString => EmptyString
  | String c s' => String (title_char previous_is_cased c) (title_from (iscased c) s')
  end.

Definition title (s : string) : string := title_from false s.

(** [str.lstrip()], [str.rstrip()] and [str.strip()] without argument. *)
Fixpoint lstrip (s : string) : string :=
  match s with
  | EmptyString => EmptyString
  | String c s' => if isspace c then lstrip s' else s
  end.

Fixpoint rstrip (s : string) : string :=
  match s with
  | EmptyString => EmptyString
  | String c s' =>
      match rstrip s' with
      | EmptyString => if isspace c then EmptyString else String c EmptyString
      | r => String c r
      end
  end.

Definition strip (s : string) : string := rstrip (lstrip s).

(** [str.split()] without argument: the maximal runs of characters that
    are not whitespace, in order. *)
Fixpoint split (s : string) : list string :=
  match s with
  | EmptyString => []
  | String c s' =>
      if isspace c then split s'
      else match s' with
           | EmptyString => [String c EmptyString]
           | String c' _ =>
               if isspace c' then String c EmptyString :: split s'
               else match split s' with
                    | t :: ts => String c t :: ts
                    | [] => [String c EmptyString]
                    end
           end
  end.

(** [sep.join(l)]. *)
Fixpoint join (sep : string) (l : list string) : string :=
  match l with
  | [] => EmptyString
  | [x] => x
  | x :: rest => x ++ sep ++ join sep rest
  end.

(** [str(n)] for an integer. *)
Definition str_of_int (n : Z) : string := NilZero.string_of_int (Z.to_int n).

(** [c in s] for a character. *)
Fixpoint has_char (c : ascii) (s : string) : bool :=
  match s with
  | EmptyString => false
  | String c' s' => Ascii.eqb c c' || has_char c s'
  end.

(** [len(s)]. *)
Definition len (s : string) : nat := String.length s.






(** The one-character string holding a double quote. *)
Definition dquote : string := String (ascii_of_N 34) EmptyString.

(** The whitespace that [int] skips around a number (C's [isspace], as
    [PyLong_FromString] uses it): TAB..CR and SPACE.  The separators FS..US,
    which [str.strip] removes, are not among it. *)
Definition isspace_c (c : ascii) : bool :=
  let n := N_of_ascii c in
  ((9 <=? n) && (n <=? 13) || (n =? 32))%N.

Fixpoint lstrip_c (s : string) : string :=
  match s with
  | EmptyString => EmptyString
  | String c s' => if isspace_c c then lstrip_c s' else s
  end.

Fixpoint rstrip_c (s : string) : string :=
  match s with
  | EmptyString => EmptyString
  | String c s' =>
      match rstrip_c s' with
      | EmptyString => if isspace_c c then EmptyString else String c EmptyString
      | r => String c r
      end
  end.

(** [int(s)] in base ten: surrounding whitespace, an optional sign, then
    digits, where single underscores may separate digits.  [None] stands
    for [ValueError]. *)
Definition digit_value (c : ascii) : option Z :=
  let n := N_of_ascii c in
  if ((48 <=? n) && (n <=? 57))%N then Some (Z.of_N n - 48) else None.

Fixpoint digits_from (acc : Z) (after_digit : bool) (s : string) : option Z :=
  match s with
  | EmptyString => if after_digit then Some acc else None
  | String c s' =>
      match digit_value c with
      | Some d => digits_from (10 * acc + d) true s'
      | None =>
          if bool_decide (c = "_"%char) && after_digit
          then digits_from acc false s'
          else None
      end
  end.

Definition int (s : string) : option Z :=
  match rstrip_c (lstrip_c s) with
  | String "-" s' => Z.opp <$> digits_from 0 false s'
  | String "+" s' => digits_from 0 false s'
  | s' => digits_from 0 false s'
  end.

End Py.


(** ** Data model

    One record per model class, with the columns the source declares.  For
    Django's own [User] and the REST framework's [Token] the columns the
    application reads or writes are kept. *)

(** [make_password] and [check_password]: the stored hash is modelled as an
    ideal one, which verifies exactly the raw password it was made from. *)
Inductive password_hash : Type := Hashed (raw : string).

Definition make_password (raw : string) : password_hash := Hashed raw.

Definition check_password (raw : string) (h : password_hash) : bool :=
  match h with Hashed raw' => bool_decide (raw = raw') end.

Module User.
Record t : Type := mk {
  id : Z;
  username : string;
  email : string;
  password : password_hash;
  first_name : string;
  last_name : string;
  is_active : bool }.
End User.

Module UserProfile.
Record t : Type := mk {
  id : Z;
  user : Z;
  email : string;
  tel : option string;
  file : option string;
  created_at : Z }.
End UserProfile.

Module Token.
Record t : Type := mk {
  key : string;
  user : Z;
  created : Z }.
End Token.

Module Chat.
Record t : Type := mk {
  id : Z;
  members : list Z;
  title : string }.
End Chat.

Module Message.
Record t : Type := mk {
  id : Z;
  chat : option Z;
  author : option Z;
  text : string }.

Definition set_chat (v : option Z) (m : t) : t := mk (id m) v (author m) (text m).
Definition set_author (v : option Z) (m : t) : t := mk (id m) (chat m) v (text m).
End Message.

Module Post.
Record t : Type := mk {
  id : Z;
  chat : option Z;
  author : Z;
  title : string;
  content : string;
  created_at : Z }.

Definition set_chat (v : option Z) (p : t) : t :=
  mk (id p) v (author p) (title p) (content p) (created_at p).
Definition set_title (v : string) (p : t) : t :=
  mk (id p) (chat p) (author p) v (content p) (created_at p).
Definition set_content (v : string) (p : t) : t :=
  mk (id p) (chat p) (author p) (title p) v (created_at p).
End Post.

(** The relational store: one table per model, and for every table with an
    automatic primary key the next value of its sequence. *)
Record Store : Type := mkStore {
  users : list User.t;
  users_seq : Z;
  profiles : list UserProfile.t;
  profiles_seq : Z;
  tokens : list Token.t;
  chats : list Chat.t;
  chats_seq : Z;
  messages : list Message.t;
  messages_seq : Z;
  posts : list Post.t;
  posts_seq : Z }.

Definition empty_store : Store := mkStore [] 1 [] 1 [] [] 1 [] 1 [] 1.

Definition insert_user (u : User.t) (s : Store) : Store :=
  mkStore (users s ++ [u]) (users_seq s + 1) (profiles s) (profiles_seq s) (tokens s)
          (chats s) (chats_seq s) (messages s) (messages_seq s) (posts s) (posts_seq s).

Definition insert_profile (p : UserProfile.t) (s : Store) : Store :=
  mkStore (users s) (users_seq s) (profiles s ++ [p]) (profiles_seq s + 1) (tokens s)
          (chats s) (chats_seq s) (messages s) (messages_seq s) (posts s) (posts_seq s).

Definition insert_token (t : Token.t) (s : Store) : Store :=
  mkStore (users s) (users_seq s) (profiles s) (profiles_seq s) (tokens s ++ [t])
          (chats s) (chats_seq s) (messages s) (messages_seq s) (posts s) (posts_seq s).

Definition insert_chat (c : Chat.t) (s : Store) : Store :=
  mkStore (users s) (users_seq s) (profiles s) (profiles_seq s) (tokens s)
          (chats s ++ [c]) (chats_seq s + 1) (messages s) (messages_seq s)
          (posts s) (posts_seq s).

Definition insert_message (m : Message.t) (s : Store) : Store :=
  mkStore (users s) (users_seq s) (profiles s) (profiles_seq s) (tokens s)
          (chats s) (chats_seq s) (messages s ++ [m]) (messages_seq s + 1)
          (posts s) (posts_seq s).

Definition insert_post (p : Post.t) (s : Store) : Store :=
  mkStore (users s) (users_seq s) (profiles s) (profiles_seq s) (tokens s)
          (chats s) (chats_seq s) (messages s) (messages_seq s)
          (posts s ++ [p]) (posts_seq s + 1).

Definition set_posts (ps : list Post.t) (s : Store) : Store :=
  mkStore (users s) (users_seq s) (profiles s) (profiles_seq s) (tokens s)
          (chats s) (chats_seq s) (messages s) (messages_seq s) ps (posts_seq s).

(** ** Django's object-relational layer *)

Module Orm.

(** The [on_delete] policies the models use. *)
Inductive on_delete : Type := CASCADE | SET_NULL.

(** A foreign-key declaration: [ForeignKey(..., on_delete=, null=, blank=)]. *)
Record ForeignKey : Type := mkForeignKey {
  fk_on_delete : on_delete;
  fk_null : bool;
  fk_blank : bool }.

(** A text column declaration: [CharField], or [TextField] when
    [text_field] is set, with [max_length=], [null=], [blank=] and whether a
    [default=] is given. *)
Record CharField : Type := mkCharField {
  text_field : bool;
  max_length : option nat;
  null : bool;
  blank : bool;
  has_default : bool }.

(** What deleting the row [target] of the referenced table does to the rows
    of a referencing table, by the policy of the referencing column:
    [CASCADE] deletes the referencing rows, [SET_NULL] clears the column. *)
Definition collect {A : Type} (fk : ForeignKey) (ref : A → option Z)
    (clear : A → A) (target : Z) (rows : list A) : list A :=
  match fk_on_delete fk with
  | CASCADE => filter (λ r, ref r ≠ Some target) rows
  | SET_NULL => (λ r, if decide (ref r = Some target) then clear r else r) <$> rows
  end.

(** [QuerySet.filter(column=value).exists()] and [.count()]. *)
Definition exists_where {A : Type} (P : A → Prop) `{∀ x, Decision (P x)}
    (rows : list A) : bool := bool_decide (Exists P rows).

Definition count_where {A : Type} (P : A → Prop) `{∀ x, Decision (P x)}
    (rows : list A) : nat := length (filter P rows).

(** [QuerySet.filter(column=value).first()]. *)
Definition first_where {A : Type} (P : A → Prop) `{∀ x, Decision (P x)}
    (rows : list A) : option A := head (filter P rows).

(** [Field.clean] of a text column on a string value, as [full_clean]
    applies it: the blank check, then the length validator, which only a
    [CharField] carries. *)
Definition clean_text (f : CharField) (value : string) : bool :=
  (blank f || negb (bool_decide (value = "")))
  && (text_field f
      || match max_length f with
         | Some n => (Py.len value <=? n)%nat
         | None => true
         end).

End Orm.

(** *** messenger_app/models.py and user_auth_app/models.py

    The declarations of the columns, in the order [text_field], [max_length],
    [null], [blank], [has_default] for text and [on_delete], [null], [blank]
    for relations.  [Chat.title] is
    [CharField(max_length=100, null=False, blank=False)], [Message.chat] is
    [ForeignKey(Chat, on_delete=SET_NULL, null=True)], [Post.chat] is
    [ForeignKey(Chat, on_delete=CASCADE, null=True, blank=True)], and so on. *)

Definition Chat_title : Orm.CharField :=
  Orm.mkCharField false (Some 100%nat) false false false.

Definition Message_chat : Orm.ForeignKey := Orm.mkForeignKey Orm.SET_NULL true false.
Definition Message_author : Orm.ForeignKey := Orm.mkForeignKey Orm.SET_NULL true false.
Definition Message_text : Orm.CharField :=
  Orm.mkCharField true (Some 1000%nat) false true true.

Definition Post_chat : Orm.ForeignKey := Orm.mkForeignKey Orm.CASCADE true true.
Definition Post_author : Orm.ForeignKey := Orm.mkForeignKey Orm.CASCADE false false.
Definition Post_title : Orm.CharField :=
  Orm.mkCharField false (Some 200%nat) false false false.
Definition Post_content : Orm.CharField := Orm.mkCharField true None false false false.

Definition UserProfile_user : Orm.ForeignKey := Orm.mkForeignKey Orm.CASCADE false false.
Definition UserProfile_email : Orm.CharField :=
  Orm.mkCharField false (Some 254%nat) false false false.

(** [rest_framework.authtoken.models.Token.user] and
    [django.contrib.auth.models.User.password]. *)
Definition Token_user : Orm.ForeignKey := Orm.mkForeignKey Orm.CASCADE false false.
Definition User_password : Orm.CharField :=
  Orm.mkCharField false (Some 128%nat) false false false.

(** [Chat.delete()]: the row goes, with its membership rows; the rows of the
    tables that reference it are treated by their [on_delete] policy. *)
Definition Chat_delete (pk : Z) (s : Store) : Store :=
  mkStore (users s) (users_seq s) (profiles s) (profiles_seq s) (tokens s)
          (filter (λ c, Chat.id c ≠ pk) (chats s)) (chats_seq s)
          (Orm.collect Message_chat Message.chat (Message.set_chat None) pk (messages s))
          (messages_seq s)
          (Orm.collect Post_chat Post.chat (Post.set_chat None) pk (posts s))
          (posts_seq s).

(** [User.delete()]. *)
Definition User_delete (pk : Z) (s : Store) : Store :=
  mkStore (filter (λ u, User.id u ≠ pk) (users s)) (users_seq s)
          (Orm.collect UserProfile_user (λ p, Some (UserProfile.user p)) (λ p, p) pk
             (profiles s))
          (profiles_seq s)
          (Orm.collect Token_user (λ t, Some (Token.user t)) (λ t, t) pk (tokens s))
          ((λ c, Chat.mk (Chat.id c) (filter (λ m, m ≠ pk) (Chat.members c)) (Chat.title c))
             <$> chats s)
          (chats_seq s)
          (Orm.collect Message_author Message.author (Message.set_author None) pk
             (messages s))
          (messages_seq s)
          (Orm.collect Post_author (λ p, Some (Post.author p)) (λ p, p) pk (posts s))
          (posts_seq s).

(** [Post.delete()]: no table references posts. *)
Definition Post_delete (pk : Z) (s : Store) : Store :=
  set_posts (filter (λ p, Post.id p ≠ pk) (posts s)) s.

(** ** Values, exceptions and responses *)

(** JSON request data. *)
#[warnings="-register-all"]
Inductive json : Type :=
| JNull
| JBool (b : bool)
| JInt (n : Z)
| JStr (s : string)
| JList (items : list json)
| JDict (items : list (string * json)).

(** Python values as they occur in validated data, as model attributes and
    in response data. *)
Inductive pyval : Type :=
| VNone
| VInt (n : Z)
| VStr (s : string)
| VInts (l : list Z)
| VStrs (l : list string).

#[global] Instance pyval_eq_dec : EqDecision pyval.
Proof. solve_decision. Defined.

Inductive exn : Type :=
| ValidationError (detail : gmap string pyval)
| TypeError (msg : string)
| AssertionError
| ImproperlyConfigured
| KeyError (key : string)
| IntegrityError
| Http404 (msg : string)
| NotAuthenticated
| AuthenticationFailed (msg : string).

Inductive result (A : Type) : Type :=
| Ok (a : A)
| Raise (e : exn).
Arguments Ok {A} a.
Arguments Raise {A} e.

#[global] Instance result_ret : MRet result := λ A a, Ok a.
#[global] Instance result_bind : MBind result :=
  λ A B f r, match r with Ok a => f a | Raise e => Raise e end.
#[global] Instance result_fmap : FMap result :=
  λ A B f r, match r with Ok a => Ok (f a) | Raise e => Raise e end.

Definition assoc {A : Type} (name : string) (l : list (string * A)) : option A :=
  snd <$> head (filter (λ kv, kv.1 = name) l).

Inductive status : Type :=
| HTTP_200_OK
| HTTP_201_CREATED
| HTTP_204_NO_CONTENT
| HTTP_400_BAD_REQUEST
| HTTP_401_UNAUTHORIZED
| HTTP_404_NOT_FOUND
| HTTP_500_INTERNAL_SERVER_ERROR.

Inductive rdata : Type :=
| RDict (d : gmap string pyval)
| RList (l : list (gmap string pyval))
| RNone.

Record Response : Type := mkResponse {
  status_code : status;
  data : rdata }.

(** [APIView.handle_exception]: API exceptions become responses, anything
    else is a server error.  The message of an [Http404] and of a failed
    authentication is passed on as the detail of the response. *)
Definition handle_exception (e : exn) : Response :=
  match e with
  | ValidationError detail => mkResponse HTTP_400_BAD_REQUEST (RDict detail)
  | Http404 msg => mkResponse HTTP_404_NOT_FOUND (RDict {[ "detail" := VStr msg ]})
  | NotAuthenticated =>
      mkResponse HTTP_401_UNAUTHORIZED
        (RDict {[ "detail" := VStr "Authentication credentials were not provided." ]})
  | AuthenticationFailed msg =>
      mkResponse HTTP_401_UNAUTHORIZED (RDict {[ "detail" := VStr msg ]})
  | _ => mkResponse HTTP_500_INTERNAL_SERVER_ERROR RNone
  end.

(** ** The REST framework's serializer fields *)

Module Drf.

(** Outcome of [Field.run_validation]: the field is left out of the
    validated data ([SkipField]), yields a value, or fails with messages. *)
Inductive outcome : Type :=
| Skip
| Value (v : pyval)
| Invalid (detail : list string).

Definition validator : Type := string → option string.

Definition MaxLengthValidator (n : nat) : validator := λ value,
  if (Py.len value <=? n)%nat then None
  else Some ("Ensure this field has no more than " ++ Py.str_of_int (Z.of_nat n)
             ++ " characters.").

Definition ProhibitNullCharactersValidator : validator := λ value,
  if Py.has_char "000"%char value then Some "Null characters are not allowed." else None.

(** [EmailValidator], given the predicate that recognises addresses. *)
Definition EmailValidator (is_email : string → bool) : validator := λ value,
  if is_email value then None else Some "Enter a valid email address.".

(** [Field.run_validators]: the messages of all failing validators. *)
Definition run_validators (vs : list validator) (value : string) : list string :=
  omap (λ v : validator, v value) vs.

(** A [CharField]: its options, its validators, and the message of its
    [invalid] error, which a subclass may replace. *)
Record CharField : Type := mkCharField {
  required : bool;
  allow_blank : bool;
  trim_whitespace : bool;
  validators : list validator;
  invalid : string }.

Definition invalid_message : string := "Not a valid string.".
Definition invalid_email_message : string := "Enter a valid email address.".

(** The constructor of [CharField] with the defaults of the class. *)
Definition new_CharField (required allow_blank trim_whitespace : bool)
    (max_length : option nat) : CharField :=
  mkCharField required allow_blank trim_whitespace
    (match max_length with Some n => [MaxLengthValidator n] | None => [] end
     ++ [ProhibitNullCharactersValidator])
    invalid_message.

(** The constructor of [EmailField]: a [CharField] with the address
    validator, whose [invalid] error has the validator's message. *)
Definition new_EmailField (is_email : string → bool) (required : bool) : CharField :=
  let f := new_CharField required false true None in
  mkCharField (Drf.required f) (Drf.allow_blank f) (Drf.trim_whitespace f)
    (Drf.validators f ++ [EmailValidator is_email])
    invalid_email_message.

Record PrimaryKeyRelatedField : Type := mkPrimaryKeyRelatedField {
  pk_required : bool;
  pk_allow_null : bool;
  pk_queryset : list Z }.

Inductive field : Type :=
| ReadOnly
| Char (write_only : bool) (f : CharField)
| Related (f : PrimaryKeyRelatedField)
| ManyRelated (f : PrimaryKeyRelatedField).

Definition required_message : string := "This field is required.".
Definition null_message : string := "This field may not be null.".
Definition blank_message : string := "This field may not be blank.".

Definition does_not_exist (pk_value : string) : string :=
  "Invalid pk " ++ Py.dquote ++ pk_value ++ Py.dquote ++ " - object does not exist.".

Definition incorrect_type (data_type : string) : string :=
  "Incorrect type. Expected pk value, received " ++ data_type ++ ".".

(** [Field.validate_empty_values] for input that is absent. *)
Definition on_absent (partial required : bool) : outcome :=
  if partial then Skip
  else if required then Invalid [required_message] else Skip.

(** [CharField.run_validation]. *)
Definition CharField_run_validation (f : CharField) (partial : bool)
    (data : option json) : outcome :=
  match data with
  | None => on_absent partial (required f)
  | Some JNull => Invalid [null_message]
  | Some (JStr _ as d) | Some (JInt _ as d) =>
      let raw := match d with JStr s => s | JInt n => Py.str_of_int n | _ => "" end in
      if bool_decide (raw = "")
         || (trim_whitespace f && bool_decide (Py.strip raw = ""))
      then if allow_blank f then Value (VStr "") else Invalid [blank_message]
      else
        let value := if trim_whitespace f then Py.strip raw else raw in
        match run_validators (validators f) value with
        | [] => Value (VStr value)
        | errors => Invalid errors
        end
  | Some _ => Invalid [invalid f]
  end.

(** [PrimaryKeyRelatedField.to_internal_value]: the object with that
    primary key, looked up in the queryset. *)
Definition pk_to_internal_value (queryset : list Z) (data : json) : list string + Z :=
  match data with
  | JInt n =>
      if bool_decide (n ∈ queryset) then inr n
      else inl [does_not_exist (Py.str_of_int n)]
  | JStr s =>
      match Py.int s with
      | Some n => if bool_decide (n ∈ queryset) then inr n else inl [does_not_exist s]
      | None => inl [incorrect_type "str"]
      end
  | JBool _ => inl [incorrect_type "bool"]
  | JList _ => inl [incorrect_type "list"]
  | JDict _ => inl [incorrect_type "dict"]
  | JNull => inl [incorrect_type "NoneType"]
  end.

(** [RelatedField.run_validation]: the empty string counts as null. *)
Definition Related_run_validation (f : PrimaryKeyRelatedField) (partial : bool)
    (data : option json) : outcome :=
  match data with
  | None => on_absent partial (pk_required f)
  | Some JNull | Some (JStr "") =>
      if pk_allow_null f then Value VNone else Invalid [null_message]
  | Some d =>
      match pk_to_internal_value (pk_queryset f) d with
      | inr n => Value (VInt n)
      | inl errors => Invalid errors
      end
  end.

(** [ManyRelatedField.run_validation]: a list of primary keys, the first
    failing item decides the error. *)
Fixpoint many_to_internal_value (queryset : list Z) (items : list json)
    : list string + list Z :=
  match items with
  | [] => inr []
  | d :: rest =>
      match pk_to_internal_value queryset d with
      | inl errors => inl errors
      | inr n =>
          match many_to_internal_value queryset rest with
          | inl errors => inl errors
          | inr ns => inr (n :: ns)
          end
      end
  end.

Definition ManyRelated_run_validation (f : PrimaryKeyRelatedField) (partial : bool)
    (data : option json) : outcome :=
  match data with
  | None => on_absent partial (pk_required f)
  | Some JNull => Invalid [null_message]
  | Some (JList items) =>
      match many_to_internal_value (pk_queryset f) items with
      | inr ns => Value (VInts ns)
      | inl errors => Invalid errors
      end
  | Some _ => Invalid ["Expected a list of items but got another type."]
  end.

Definition run_validation (f : field) (partial : bool) (data : option json) : outcome :=
  match f with
  | ReadOnly => Skip
  | Char _ c => CharField_run_validation c partial data
  | Related r => Related_run_validation r partial data
  | ManyRelated r => ManyRelated_run_validation r partial data
  end.

(** [Serializer.to_internal_value]: every writable field reads its own key
    of the request data; the validated values and the errors are collected
    under the field names. *)
Fixpoint to_internal_value (fields : list (string * field)) (partial : bool)
    (data : gmap string json) : gmap string pyval * gmap string pyval :=
  match fields with
  | [] => (∅, ∅)
  | (name, f) :: rest =>
      let '(ret, errors) := to_internal_value rest partial data in
      match run_validation f partial (data !! name) with
      | Skip => (ret, errors)
      | Value v => (<[name := v]> ret, errors)
      | Invalid detail => (ret, <[name := VStrs detail]> errors)
      end
  end.

(** [Serializer.is_valid(raise_exception=True)], returning the validated
    data. *)
Definition run_validation_all (fields : list (string * field)) (partial : bool)
    (data : gmap string json) : result (gmap string pyval) :=
  let '(ret, errors) := to_internal_value fields partial data in
  if bool_decide (errors = ∅) then Ok ret else Raise (ValidationError errors).

(** [Serializer.to_representation]: the attributes of the instance under
    the names of the fields that are not write-only. *)
Definition to_representation (fields : list (string * field))
    (getattr : string → pyval) : gmap string pyval :=
  foldr (λ '(name, f) repr,
           match f with
           | Char true _ => repr
           | _ => <[name := getattr name]> repr
           end) ∅ fields.

(** *** ModelSerializer *)

(** The value of a [Meta] option that names fields: a string, a list or a
    tuple. *)
Inductive names : Type :=
| NStr (s : string)
| NList (l : list string)
| NTuple (l : list string).

Definition truthy (o : option names) : bool :=
  match o with
  | None | Some (NStr "") | Some (NList []) | Some (NTuple []) => false
  | Some _ => true
  end.

Definition is_list_or_tuple (o : option names) : bool :=
  match o with Some (NList _) | Some (NTuple _) => true | _ => false end.

Definition items (n : names) : list string :=
  match n with NStr _ => [] | NList l | NTuple l => l end.

Definition ALL_FIELDS : names := NStr "__all__".

Definition is_all_fields (o : option names) : bool :=
  match o with Some (NStr s) => bool_decide (s = "__all__") | _ => false end.

Record Meta : Type := mkMeta {
  fields : option names;
  exclude : option names;
  read_only_fields : list string;
  write_only_kwargs : list string }.

(** The columns of a model as the serializer sees them. *)
Inductive model_field : Type :=
| AutoField
| TextColumn (f : Orm.CharField)
| ForeignKeyColumn (fk : Orm.ForeignKey) (queryset : list Z)
| ManyToManyColumn (blank : bool) (queryset : list Z)
| AutoNowAddColumn.

Record ModelSerializer : Type := mkModelSerializer {
  meta : Meta;
  model_fields : list (string * model_field);
  declared_fields : list (string * field) }.

(** [ModelSerializer.get_field_names]. *)
Definition get_field_names (c : ModelSerializer) : result (list string) :=
  let fields := fields (meta c) in
  let exclude := exclude (meta c) in
  if truthy fields && negb (is_all_fields fields) && negb (is_list_or_tuple fields)
  then Raise (TypeError ("The `fields` option must be a list or tuple or "
                         ++ Py.dquote ++ "__all__" ++ Py.dquote ++ ". Got str."))
  else if truthy exclude && negb (is_list_or_tuple exclude)
  then Raise (TypeError "The `exclude` option must be a list or tuple. Got str.")
  else if truthy fields && truthy exclude then Raise AssertionError
  else if bool_decide (fields = None) && bool_decide (exclude = None)
  then Raise AssertionError
  else
    match (if is_all_fields fields then None else fields) with
    | Some named =>
        if bool_decide (Forall (λ d, d ∈ items named) (declared_fields c).*1)
        then Ok (items named) else Raise AssertionError
    | None =>
        let all_names :=
          match (model_fields c).*1 with
          | pk :: rest => pk :: ((declared_fields c).*1 ++ rest)%list
          | [] => (declared_fields c).*1
          end in
        match exclude with
        | Some excluded =>
            if bool_decide (Forall (λ x, (x ∉ (declared_fields c).*1) ∧ (x ∈ all_names))
                              (items excluded))
            then Ok (filter (λ x, x ∉ items excluded) all_names)
            else Raise AssertionError
        | None => Ok all_names
        end
    end.

(** [ModelSerializer.build_field] with [include_extra_kwargs]. *)
Definition build_field (mf : model_field) (read_only write_only : bool) : field :=
  match mf with
  | AutoField | AutoNowAddColumn => ReadOnly
  | TextColumn f =>
      if read_only then ReadOnly
      else Char write_only
             (new_CharField (negb (Orm.has_default f || Orm.blank f || Orm.null f))
                (Orm.blank f) true (Orm.max_length f))
  | ForeignKeyColumn fk queryset =>
      if read_only then ReadOnly
      else Related (mkPrimaryKeyRelatedField
                      (negb (Orm.fk_blank fk || Orm.fk_null fk)) (Orm.fk_null fk) queryset)
  | ManyToManyColumn blank queryset =>
      if read_only then ReadOnly
      else ManyRelated (mkPrimaryKeyRelatedField (negb blank) false queryset)
  end.

(** [ModelSerializer.get_fields]. *)
Definition get_fields (c : ModelSerializer) : result (list (string * field)) :=
  field_names ← get_field_names c;
  foldr (λ name acc,
           rest ← acc;
           match assoc name (declared_fields c) with
           | Some f => Ok ((name, f) :: rest)
           | None =>
               match assoc name (model_fields c) with
               | Some mf =>
                   Ok ((name, build_field mf
                                (bool_decide (name ∈ read_only_fields (meta c)))
                                (bool_decide (name ∈ write_only_kwargs (meta c))))
                         :: rest)
               | None => Raise ImproperlyConfigured
               end
           end) (Ok []) field_names.

End Drf.

(** ** user_auth_app/api/serializers.py *)

(** Reading validated data: [d.pop(key)] or [d[key]], and the use of a value
    as a string. *)
Definition pop (key : string) (d : gmap string pyval) : result pyval :=
  match d !! key with
  | Some v => Ok v
  | None => Raise (KeyError key)
  end.

Definition as_str (v : pyval) : result string :=
  match v with
  | VStr s => Ok s
  | _ => Raise (TypeError "expected str")
  end.

(** The columns of [django.contrib.auth.models.User] the serializer can
    name. *)
Definition User_model_fields : list (string * Drf.model_field) :=
  [ ("id", Drf.AutoField);
    ("password", Drf.TextColumn User_password);
    ("username", Drf.TextColumn (Orm.mkCharField false (Some 150%nat) false false false));
    ("first_name", Drf.TextColumn (Orm.mkCharField false (Some 150%nat) false true false));
    ("last_name", Drf.TextColumn (Orm.mkCharField false (Some 150%nat) false true false));
    ("email", Drf.TextColumn (Orm.mkCharField false (Some 254%nat) false true false)) ].

Section Registration.

(** Django's [EmailValidator], as the predicate it decides. *)
Variable is_email : string → bool.

(** [RegistrationSerializer] (serializers.py, lines 12 to 38): [Meta.fields]
    names five fields, [extra_kwargs] makes the password write-only, and
    [email], [repeated_password] and [username] are declared on the
    class. *)
Definition RegistrationSerializer : Drf.ModelSerializer :=
  Drf.mkModelSerializer
    (Drf.mkMeta
       (Some (Drf.NList ["id"; "username"; "email"; "password"; "repeated_password"]))
       None [] ["password"])
    User_model_fields
    [ ("email", Drf.Char false (Drf.new_EmailField is_email true));
      ("repeated_password", Drf.Char true (Drf.new_CharField true false true None));
      ("username", Drf.Char true (Drf.new_CharField true false true None)) ].

(** [names[0] if len(names) > 0 else ""] and
    [" ".join(names[1:]) if len(names) > 1 else ""]. *)
Definition first_name_of (names : list string) : string :=
  if bool_decide (0 < length names)%nat then default "" (names !! 0%nat) else "".

Definition last_name_of (names : list string) : string :=
  if bool_decide (1 < length names)%nat then Py.join " " (drop 1 names) else "".

(** [RegistrationSerializer.create] (serializers.py, lines 40 to 81).  The
    profile is created from the user alone: its email takes the default of
    the column, the empty string, and [tel] and [file] are null. *)
Definition RegistrationSerializer_create (validated_data : gmap string pyval)
    (now : Z) (s : Store) : result (Store * User.t) :=
  pw ← pop "password" validated_data;
  repeated_pw ← pop "repeated_password" validated_data;
  username ← Py.title <$> (pop "username" validated_data ≫= as_str);
  if bool_decide (pw ≠ repeated_pw)
  then Raise (ValidationError {[ "error" := VStr "Passwords do not match" ]})
  else
    email ← pop "email" validated_data ≫= as_str;
    if Orm.exists_where (λ u, User.email u = email) (users s)
    then Raise (ValidationError {[ "error" := VStr "This email is already taken" ]})
    else if Orm.exists_where (λ u, User.username u = username) (users s)
    then Raise (ValidationError {[ "error" := VStr "This username is already taken" ]})
    else
      let names := Py.split username in
      let first_name := first_name_of names in
      let last_name := last_name_of names in
      raw ← as_str pw;
      let account :=
        User.mk (users_seq s) username email (make_password raw)
                first_name last_name true in
      let s1 := insert_user account s in
      let profile :=
        UserProfile.mk (profiles_seq s1) (User.id account) "" None None now in
      Ok (insert_profile profile s1, account).

(** [UsernameAuthTokenSerializer] (serializers.py, lines 84 to 116): a
    plain serializer with two declared fields; the password is not
    trimmed. *)
Definition UsernameAuthTokenSerializer_fields : list (string * Drf.field) :=
  [ ("username", Drf.Char true (Drf.new_CharField true false true None));
    ("password", Drf.Char false (Drf.new_CharField true false false None)) ].

(** [django.contrib.auth.authenticate] with the model backend: the user
    of exactly that username, if the password verifies and the user is
    active. *)
Definition authenticate (username password : string) (s : Store) : option User.t :=
  u ← Orm.first_where (λ u, User.username u = username) (users s);
  if check_password password (User.password u) && User.is_active u
  then Some u else None.

(** [UsernameAuthTokenSerializer.validate]. *)
Definition UsernameAuthTokenSerializer_validate (attrs : gmap string pyval)
    (s : Store) : result User.t :=
  match attrs !! "username", attrs !! "password" with
  | Some (VStr username), Some (VStr password) =>
      if bool_decide (username = "") || bool_decide (password = "")
      then Raise (ValidationError
                    {[ "non_field_errors" := VStrs ["Must include 'username' and 'password'."] ]})
      else
        match authenticate username password s with
        | Some user => Ok user
        | None => Raise (ValidationError
                           {[ "non_field_errors" := VStrs ["Invalid username or password."] ]})
        end
  | _, _ => Raise (ValidationError
                     {[ "non_field_errors" := VStrs ["Must include 'username' and 'password'."] ]})
  end.

(** ** user_auth_app/api/views.py *)

(** [Token.objects.get_or_create(user=...)]; [key] is the value that
    [Token.generate_key] draws when a row has to be created. *)
Definition Token_get_or_create (user : Z) (key : string) (now : Z) (s : Store)
    : result (Store * Token.t) :=
  match Orm.first_where (λ t, Token.user t = user) (tokens s) with
  | Some t => Ok (s, t)
  | None =>
      if Orm.exists_where (λ t, Token.key t = key) (tokens s)
      then Raise IntegrityError
      else let t := Token.mk key user now in Ok (insert_token t s, t)
  end.

(** The response data of both views. *)
Definition auth_data (token : Token.t) (u : User.t) : rdata :=
  RDict {[ "token" := VStr (Token.key token);
           "username" := VStr (Py.strip (User.first_name u ++ " " ++ User.last_name u));
           "email" := VStr (User.email u);
           "user_id" := VInt (User.id u) ]}.

(** [RegistrationView.post] (views.py, lines 24 to 40).  [create] raises
    before it writes; a failure to store the token leaves the account
    written. *)
Definition RegistrationView_post (request_data : gmap string json) (key : string)
    (now : Z) (s : Store) : Store * Response :=
  match Drf.get_fields RegistrationSerializer with
  | Raise e => (s, handle_exception e)
  | Ok fields =>
      match Drf.run_validation_all fields false request_data with
      | Raise (ValidationError errors) =>
          (s, mkResponse HTTP_400_BAD_REQUEST (RDict errors))
      | Raise e => (s, handle_exception e)
      | Ok validated_data =>
          match RegistrationSerializer_create validated_data now s with
          | Raise e => (s, handle_exception e)
          | Ok (s1, saved_account) =>
              match Token_get_or_create (User.id saved_account) key now s1 with
              | Raise e => (s1, handle_exception e)
              | Ok (s2, token) =>
                  (s2, mkResponse HTTP_201_CREATED (auth_data token saved_account))
              end
          end
      end
  end.

(** [CustomLogInView.post] (views.py, lines 56 to 80): an absent entry of
    the request data is passed on as [None]. *)
Definition CustomLogInView_post (request_data : gmap string json) (key : string)
    (now : Z) (s : Store) : Store * Response :=
  let data : gmap string json :=
    {[ "username" := default JNull (request_data !! "username");
       "password" := default JNull (request_data !! "password") ]} in
  match Drf.run_validation_all UsernameAuthTokenSerializer_fields false data
        ≫= (λ attrs, UsernameAuthTokenSerializer_validate attrs s) with
  | Ok user =>
      match Token_get_or_create (User.id user) key now s with
      | Raise e => (s, handle_exception e)
      | Ok (s1, token) => (s1, mkResponse HTTP_200_OK (auth_data token user))
      end
  | Raise _ =>
      (s, mkResponse HTTP_400_BAD_REQUEST
            (RDict {[ "error" := VStr "Invalid username or password" ]}))
  end.

End Registration.

(** ** messenger_app/api/serializers.py *)

(** The columns of [Chat] and [Post] as the serializers see them: the primary
    key, the plain columns, then the relations; a relation brings the
    primary keys of the table it points to. *)
Definition Chat_model_fields (s : Store) : list (string * Drf.model_field) :=
  [ ("id", Drf.AutoField);
    ("title", Drf.TextColumn Chat_title);
    ("members", Drf.ManyToManyColumn true (User.id <$> users s)) ].

Definition Post_model_fields (s : Store) : list (string * Drf.model_field) :=
  [ ("id", Drf.AutoField);
    ("title", Drf.TextColumn Post_title);
    ("content", Drf.TextColumn Post_content);
    ("created_at", Drf.AutoNowAddColumn);
    ("chat", Drf.ForeignKeyColumn Post_chat (Chat.id <$> chats s));
    ("author", Drf.ForeignKeyColumn Post_author (User.id <$> users s)) ].

(** [ChatSerializer.Meta] (serializers.py, lines 6 to 11):
    [exclude = ("id")] is a parenthesised string, not a tuple. *)
Definition ChatSerializer_Meta : Drf.Meta :=
  Drf.mkMeta None (Some (Drf.NStr "id")) ["author"] [].

Definition ChatSerializer (s : Store) : Drf.ModelSerializer :=
  Drf.mkModelSerializer ChatSerializer_Meta (Chat_model_fields s) [].

(** The same class with [exclude = ("id",)], the one-element tuple that the
    comment in the repository's serializer tests names. *)
Definition ChatSerializer_tuple_exclude (s : Store) : Drf.ModelSerializer :=
  Drf.mkModelSerializer (Drf.mkMeta None (Some (Drf.NTuple ["id"])) ["author"] [])
    (Chat_model_fields s) [].

(** [PostSerializer.Meta] (serializers.py, lines 14 to 17):
    [fields = '__all__'], [read_only_fields = ['author']]. *)
Definition PostSerializer_Meta : Drf.Meta :=
  Drf.mkMeta (Some Drf.ALL_FIELDS) None ["author"] [].

Definition PostSerializer (s : Store) : Drf.ModelSerializer :=
  Drf.mkModelSerializer PostSerializer_Meta (Post_model_fields s) [].

Definition pk_value (o : option Z) : pyval :=
  match o with Some n => VInt n | None => VNone end.

(** Attribute access on model instances. *)
Definition Chat_getattr (c : Chat.t) (name : string) : pyval :=
  if bool_decide (name = "id") then VInt (Chat.id c)
  else if bool_decide (name = "title") then VStr (Chat.title c)
  else if bool_decide (name = "members") then VInts (Chat.members c)
  else VNone.

Definition Post_getattr (p : Post.t) (name : string) : pyval :=
  if bool_decide (name = "id") then VInt (Post.id p)
  else if bool_decide (name = "chat") then pk_value (Post.chat p)
  else if bool_decide (name = "author") then VInt (Post.author p)
  else if bool_decide (name = "title") then VStr (Post.title p)
  else if bool_decide (name = "content") then VStr (Post.content p)
  else if bool_decide (name = "created_at") then VInt (Post.created_at p)
  else VNone.

(** [setattr(instance, attr, value)] for the values validation produces. *)
Definition Post_setattr (name : string) (v : pyval) (p : Post.t) : Post.t :=
  match v with
  | VStr x =>
      if bool_decide (name = "title") then Post.set_title x p
      else if bool_decide (name = "content") then Post.set_content x p
      else p
  | VInt n =>
      if bool_decide (name = "chat") then Post.set_chat (Some n) p
      else if bool_decide (name = "author")
      then Post.mk (Post.id p) (Post.chat p) n (Post.title p) (Post.content p)
                   (Post.created_at p)
      else p
  | VNone => if bool_decide (name = "chat") then Post.set_chat None p else p
  | _ => p
  end.

(** [for attr, value in validated_data.items(): setattr(instance, attr, value)],
    the items taken in the order of the names. *)
Definition assign_attributes (validated_data : gmap string pyval) (names : list string)
    (instance : Post.t) : Post.t :=
  foldl (λ p name,
           match validated_data !! name with
           | Some v => Post_setattr name v p
           | None => p
           end) instance names.

(** [ModelSerializer.update]: the validated values are assigned in field
    order, then the instance is saved over the rows with its primary key. *)
Definition ModelSerializer_update (fields : list (string * Drf.field))
    (validated_data : gmap string pyval) (instance : Post.t) : Post.t :=
  assign_attributes validated_data fields.*1 instance.

Definition Post_save (instance : Post.t) (s : Store) : Store :=
  set_posts ((λ q, if decide (Post.id q = Post.id instance) then instance else q)
               <$> posts s) s.

(** [Post.objects.create] with keyword arguments: the row gets the next
    primary key and the current time; a column that is not given takes its
    default, and the author column has none. *)
Definition Post_objects_create (kwargs : gmap string pyval) (now : Z) (s : Store)
    : result (Store * Post.t) :=
  match kwargs !! "author" with
  | Some (VInt author) =>
      let blank := Post.mk (posts_seq s) None author "" "" now in
      let p := assign_attributes kwargs ["title"; "content"; "chat"] blank in
      Ok (insert_post p s, p)
  | _ => Raise IntegrityError
  end.

(** [Chat.objects.create] with keyword arguments, followed by setting the
    members, as [ModelSerializer.create] does. *)
Definition Chat_objects_create (kwargs : gmap string pyval) (s : Store)
    : Store * Chat.t :=
  let c := Chat.mk (chats_seq s)
             (match kwargs !! "members" with Some (VInts l) => l | _ => [] end)
             (match kwargs !! "title" with Some (VStr x) => x | _ => "" end) in
  (insert_chat c s, c).

(** [ChatSerializer(instance=c).data] and
    [ChatSerializer(data=d).is_valid(); .save()], for either declaration of
    the class. *)
Definition Chat_serializer_data (cls : Drf.ModelSerializer) (c : Chat.t)
    : result (gmap string pyval) :=
  fields ← Drf.get_fields cls;
  Ok (Drf.to_representation fields (Chat_getattr c)).

Definition Chat_serializer_save (cls : Drf.ModelSerializer)
    (request_data : gmap string json) (s : Store) : result (Store * Chat.t) :=
  fields ← Drf.get_fields cls;
  validated_data ← Drf.run_validation_all fields false request_data;
  Ok (Chat_objects_create validated_data s).

(** ** Project settings *)

Inductive permission : Type := AllowAny | IsAuthenticated.

(** Modelled from the spec: the project settings module, which sets the
    REST framework's default permission and authentication classes, is not
    among the sources.  The specification requires authentication on every
    Post endpoint ("requires authentication else 401") by a bearer token in
    the Authorization header (scheme Token): the defaults are
    [IsAuthenticated] and [TokenAuthentication]. *)
Definition DEFAULT_PERMISSION_CLASSES : list permission := [IsAuthenticated].

(** ** messenger_app/api/views.py *)

Record Request : Type := mkRequest {
  HTTP_AUTHORIZATION : option string;
  request_data : gmap string json }.

(** Modelled from the spec: [TokenAuthentication.authenticate], selected by
    the project settings.  Without the header the request is anonymous; a
    token is looked up by its key together with its user
    ([select_related('user')]), so a key that is no token's, or whose user is
    gone, fails with "Invalid token."; a token of an inactive user fails with
    "User inactive or deleted.". *)
Definition perform_authentication (request : Request) (s : Store)
    : result (option User.t) :=
  match HTTP_AUTHORIZATION request with
  | None => Ok None
  | Some key =>
      match Orm.first_where (λ t, Token.key t = key) (tokens s) with
      | None => Raise (AuthenticationFailed "Invalid token.")
      | Some t =>
          match Orm.first_where (λ u, User.id u = Token.user t) (users s) with
          | Some u =>
              if User.is_active u then Ok (Some u)
              else Raise (AuthenticationFailed "User inactive or deleted.")
          | None => Raise (AuthenticationFailed "Invalid token.")
          end
      end
  end.

Definition has_permission (user : option User.t) (p : permission) : bool :=
  match p with
  | AllowAny => true
  | IsAuthenticated => bool_decide (is_Some user)
  end.

(** [APIView.initial]: authentication, then the permission checks. *)
Definition initial (permission_classes : list permission) (request : Request)
    (s : Store) : result (option User.t) :=
  user ← perform_authentication request s;
  if forallb (has_permission user) permission_classes
  then Ok user else Raise NotAuthenticated.

(** The actions of a [ModelViewSet] as the router exposes them; [pk] is the
    primary key named by the URL. *)
Inductive action : Type :=
| list_action
| retrieve (pk : Z)
| create
| update (pk : Z)
| partial_update (pk : Z)
| destroy (pk : Z).

(** [PostViewSet.permission_classes] (views.py, lines 8 to 10): the class
    sets none of its own. *)
Definition PostViewSet_permission_classes : list permission :=
  DEFAULT_PERMISSION_CLASSES.

(** [GenericAPIView.get_object] on [Post.objects.all()]:
    [get_object_or_404], whose [Http404] names the model. *)
Definition get_object (pk : Z) (s : Store) : result Post.t :=
  match Orm.first_where (λ p, Post.id p = pk) (posts s) with
  | Some p => Ok p
  | None => Raise (Http404 "No Post matches the given query.")
  end.

(** [PostViewSet.perform_create] (views.py, lines 12 and 13):
    [serializer.save(author=self.request.user)]. *)
Definition PostViewSet_perform_create (validated_data : gmap string pyval)
    (user : option User.t) (now : Z) (s : Store) : result (Store * Post.t) :=
  match user with
  | Some u => Post_objects_create (<["author" := VInt (User.id u)]> validated_data) now s
  | None => Raise (TypeError "author must be a User instance")
  end.

(** [UpdateModelMixin.update], for PUT ([partial = false]) and PATCH. *)
Definition PostViewSet_update (partial : bool) (pk : Z) (request : Request)
    (s : Store) : result (Store * Response) :=
  instance ← get_object pk s;
  fields ← Drf.get_fields (PostSerializer s);
  validated_data ← Drf.run_validation_all fields partial (request_data request);
  let instance' := ModelSerializer_update fields validated_data instance in
  Ok (Post_save instance' s,
      mkResponse HTTP_200_OK
        (RDict (Drf.to_representation fields (Post_getattr instance')))).

(** The actions of [PostViewSet], run once [initial] has let the request
    through. *)
Definition PostViewSet_action (a : action) (user : option User.t) (request : Request)
    (now : Z) (s : Store) : result (Store * Response) :=
  match a with
  | list_action =>
      fields ← Drf.get_fields (PostSerializer s);
      Ok (s, mkResponse HTTP_200_OK
               (RList ((λ p, Drf.to_representation fields (Post_getattr p)) <$> posts s)))
  | retrieve pk =>
      instance ← get_object pk s;
      fields ← Drf.get_fields (PostSerializer s);
      Ok (s, mkResponse HTTP_200_OK
               (RDict (Drf.to_representation fields (Post_getattr instance))))
  | create =>
      fields ← Drf.get_fields (PostSerializer s);
      validated_data ← Drf.run_validation_all fields false (request_data request);
      '(s1, p) ← PostViewSet_perform_create validated_data user now s;
      Ok (s1, mkResponse HTTP_201_CREATED
                (RDict (Drf.to_representation fields (Post_getattr p))))
  | update pk => PostViewSet_update false pk request s
  | partial_update pk => PostViewSet_update true pk request s
  | destroy pk =>
      instance ← get_object pk s;
      Ok (Post_delete (Post.id instance) s, mkResponse HTTP_204_NO_CONTENT RNone)
  end.

(** [APIView.dispatch] for [PostViewSet]. *)
Definition PostViewSet (a : action) (request : Request) (now : Z) (s : Store)
    : Store * Response :=
  match initial PostViewSet_permission_classes request s
        ≫= (λ user, PostViewSet_action a user request now s) with
  | Ok r => r
  | Raise e => (s, handle_exception e)
  end.

(** ** Histories of the store *)

(** What can happen to the store: the three views of the application, and
    the operations the application leaves to Django itself (its admin site or
    shell, as the tests of the application do).  Users and chats are deleted
    there; chats and messages are created there with [objects.create], which
    runs no validation of the model: the row is written as given, under the
    foreign-key constraints of the schema only.  [SaveChat] is
    [ChatSerializer(data=d)] validated and saved. *)
Inductive event : Type :=
| RegisterUser (request_data : gmap string json) (key : string)
| LogIn (request_data : gmap string json) (key : string)
| PostRequest (a : action) (request : Request)
| SaveChat (request_data : gmap string json)
| DeleteUser (pk : Z)
| DeleteChat (pk : Z)
| CreateChat (title : string) (members : list Z)
| CreateMessage (chat author : option Z) (text : string).

Definition refers_to (ids : list Z) (ref : option Z) : bool :=
  match ref with
  | Some n => bool_decide (n ∈ ids)
  | None => true
  end.

Section Histories.

Variable is_email : string → bool.

(** One event at time [now]; [None] when the store refuses it. *)
Definition apply (ev : event) (now : Z) (s : Store) : option Store :=
  match ev with
  | RegisterUser d key => Some (RegistrationView_post is_email d key now s).1
  | LogIn d key => Some (CustomLogInView_post d key now s).1
  | PostRequest a request => Some (PostViewSet a request now s).1
  | SaveChat d =>
      match Chat_serializer_save (ChatSerializer s) d s with
      | Ok (s', _) => Some s'
      | Raise _ => Some s
      end
  | DeleteUser pk => Some (User_delete pk s)
  | DeleteChat pk => Some (Chat_delete pk s)
  | CreateChat title members =>
      if forallb (λ m, bool_decide (m ∈ User.id <$> users s)) members
      then Some (insert_chat (Chat.mk (chats_seq s) members title) s)
      else None
  | CreateMessage chat author text =>
      if refers_to (Chat.id <$> chats s) chat
         && refers_to (User.id <$> users s) author
      then Some (insert_message (Message.mk (messages_seq s) chat author text) s)
      else None
  end.

(** A history: events with their times, oldest first. *)
Fixpoint run (history : list (event * Z)) (s : Store) : option Store :=
  match history with
  | [] => Some s
  | (ev, now) :: rest => apply ev now s ≫= run rest
  end.

(** The stores the service can be in: those some history produces from the
    empty store. *)
Definition reachable (s : Store) : Prop :=
  ∃ history, run history empty_store = Some s.

End Histories.

(** ** Properties of stores *)

(** Schema facts the sequences guarantee: every primary key of a user, and
    every reference to a user from a profile or a token, lies below the next
    value of the user sequence; the primary keys of the posts lie below the
    next value of theirs and are distinct. *)
Record wf_store (s : Store) : Prop := mk_wf_store {
  wf_users : Forall (λ u, User.id u < users_seq s) (users s);
  wf_profiles : Forall (λ p, UserProfile.user p < users_seq s) (profiles s);
  wf_tokens : Forall (λ t, Token.user t < users_seq s) (tokens s);
  wf_posts : Forall (λ p, Post.id p < posts_seq s) (posts s);
  wf_post_ids : NoDup (Post.id <$> posts s) }.


(** The invariant the code maintains: as stated for posts and users.  The
    title of a chat is whatever [Chat.objects.create] was given, and the email
    column of a profile is never written, so it holds the empty string. *)
Record store_invariant (s : Store) : Prop := mk_store_invariant {
  inv_post_titles : Forall (λ p, Post.title p ≠ "") (posts s);
  inv_usernames : Forall (λ u, User.username u ≠ "") (users s);
  inv_user_emails : Forall (λ u, User.email u ≠ "") (users s);
  inv_profile_emails : Forall (λ p, UserProfile.email p = "") (profiles s);
  inv_unique_usernames : NoDup (User.username <$> users s);
  inv_unique_emails : NoDup (User.email <$> users s) }.

(** The value a field of the registration request has after field
    validation, if it has one. *)
Definition validated (is_email : string → bool) (request_data : gmap string json)
    (name : string) : option pyval :=
  match Drf.get_fields (RegistrationSerializer is_email) with
  | Ok fields => (Drf.to_internal_value fields false request_data).1 !! name
  | Raise _ => None
  end.

(** The fields the serializers of the application end up with. *)
Definition registration_fields (is_email : string → bool) : list (string * Drf.field) :=
  [ ("id", Drf.ReadOnly);
    ("username", Drf.Char true (Drf.new_CharField true false true None));
    ("email", Drf.Char false (Drf.new_EmailField is_email true));
    ("password", Drf.Char true (Drf.new_CharField true false true (Some 128%nat)));
    ("repeated_password", Drf.Char true (Drf.new_CharField true false true None)) ].

Definition Post_fields (s : Store) : list (string * Drf.field) :=
  [ ("id", Drf.ReadOnly);
    ("title", Drf.Char false (Drf.new_CharField true false true (Some 200%nat)));
    ("content", Drf.Char false (Drf.new_CharField true false true None));
    ("created_at", Drf.ReadOnly);
    ("chat", Drf.Related (Drf.mkPrimaryKeyRelatedField false true (Chat.id <$> chats s)));
    ("author", Drf.ReadOnly) ].

(** The account and the store that [RegistrationSerializer.create] builds
    from a validated username, email and password. *)
Definition new_account (username email password : string) (s : Store) : User.t :=
  User.mk (users_seq s) (Py.title username) email (make_password password)
          (first_name_of (Py.split (Py.title username)))
          (last_name_of (Py.split (Py.title username))) true.

Definition store_with_account (account : User.t) (now : Z) (s : Store) : Store :=
  insert_profile (UserProfile.mk (profiles_seq s) (User.id account) "" None None now)
                 (insert_user account s).



(** The entry of a response's data under a name. *)
Definition response_field (resp : Response) (name : string) : option pyval :=
  match data resp with
  | RDict d => d !! name
  | _ => None
  end.

(** What field validation of a registration request guarantees when it
    reports no error. *)
Record accepted_registration (is_email : string → bool)
    (request_data : gmap string json) (username email password : string) : Prop :=
  mk_accepted_registration {
    acc_username : validated is_email request_data "username" = Some (VStr username);
    acc_email : validated is_email request_data "email" = Some (VStr email);
    acc_password : validated is_email request_data "password" = Some (VStr password);
    acc_username_not_blank : username ≠ "";
    acc_username_trimmed : Py.strip username = username;
    acc_username_null_free : Py.has_char "000"%char username = false;
    acc_email_not_blank : email ≠ "";
    acc_password_not_blank : password ≠ "";
    acc_password_null_free : Py.has_char "000"%char password = false }.

(** The outcomes of [RegistrationView.post]: rejection by field validation,
    the three rejections of [create], success, and the failure to store a
    token whose key is already in use. *)
Inductive registration_outcome (is_email : string → bool)
    (request_data : gmap string json) (key : string) (now : Z) (s : Store)
    : Store * Response → Prop :=
| reg_invalid errors :
    errors = (Drf.to_internal_value (registration_fields is_email) false request_data).2 →
    errors ≠ ∅ →
    registration_outcome is_email request_data key now s
      (s, mkResponse HTTP_400_BAD_REQUEST (RDict errors))
| reg_mismatch u e p r :
    accepted_registration is_email request_data u e p →
    validated is_email request_data "repeated_password" = Some (VStr r) →
    p ≠ r →
    registration_outcome is_email request_data key now s
      (s, mkResponse HTTP_400_BAD_REQUEST
            (RDict {[ "error" := VStr "Passwords do not match" ]}))
| reg_email_taken u e p :
    accepted_registration is_email request_data u e p →
    validated is_email request_data "repeated_password" = Some (VStr p) →
    Exists (λ x, User.email x = e) (users s) →
    registration_outcome is_email request_data key now s
      (s, mkResponse HTTP_400_BAD_REQUEST
            (RDict {[ "error" := VStr "This email is already taken" ]}))
| reg_username_taken u e p :
    accepted_registration is_email request_data u e p →
    validated is_email request_data "repeated_password" = Some (VStr p) →
    Forall (λ x, ¬ User.email x = e) (users s) →
    Exists (λ x, User.username x = Py.title u) (users s) →
    registration_outcome is_email request_data key now s
      (s, mkResponse HTTP_400_BAD_REQUEST
            (RDict {[ "error" := VStr "This username is already taken" ]}))
| reg_created u e p s2 token :
    accepted_registration is_email request_data u e p →
    validated is_email request_data "repeated_password" = Some (VStr p) →
    Forall (λ x, ¬ User.email x = e) (users s) →
    Forall (λ x, ¬ User.username x = Py.title u) (users s) →
    Token_get_or_create (users_seq s) key now
      (store_with_account (new_account u e p s) now s) = Ok (s2, token) →
    registration_outcome is_email request_data key now s
      (s2, mkResponse HTTP_201_CREATED (auth_data token (new_account u e p s)))
| reg_token_failed u e p ex :
    accepted_registration is_email request_data u e p →
    validated is_email request_data "repeated_password" = Some (VStr p) →
    Forall (λ x, ¬ User.email x = e) (users s) →
    Forall (λ x, ¬ User.username x = Py.title u) (users s) →
    Token_get_or_create (users_seq s) key now
      (store_with_account (new_account u e p s) now s) = Raise ex →
    registration_outcome is_email request_data key now s
      (store_with_account (new_account u e p s) now s, handle_exception ex).

(** Two posts with the same key, author and creation time. *)
Definition same_author_and_time (p p' : Post.t) : Prop :=
  Post.id p' = Post.id p
  ∧ Post.author p' = Post.author p
  ∧ Post.created_at p' = Post.created_at p.


(** Examples of request data and stores, used to exercise the statements. *)
Module Examples.

(** A stand-in for the address check in examples. *)
Definition is_email (s : string) : bool := Py.has_char "@"%char s.

Definition alice : gmap string json :=
  {[ "username" := JStr "alice"; "email" := JStr "a@x.com";
     "password" := JStr "p1"; "repeated_password" := JStr "p1" ]}.

(** Alice's request with whitespace around the first password only. *)
Definition alice_padded : gmap string json :=
  <["password" := JStr " p1 "]> alice.


Definition alice_login : gmap string json :=
  {[ "username" := JStr "alice"; "password" := JStr "p1" ]}.

Definition alice_stored_login : gmap string json :=
  {[ "username" := JStr "Alice"; "password" := JStr "p1" ]}.

Definition store_alice : Store :=
  (RegistrationView_post is_email alice "k1" 100 empty_store).1.

Definition store_chat : Store :=
  insert_chat (Chat.mk 1 [1] "General") store_alice.


Definition as_alice (d : gmap string json) : Request := mkRequest (Some "k1") d.

Definition store_post : Store :=
  (PostViewSet create
     (as_alice {[ "title" := JStr "T"; "content" := JStr "C"; "chat" := JInt 1 ]})
     200 store_chat).1.

Definition alice_account : User.t := new_account "alice" "a@x.com" "p1" empty_store.


Definition anonymous_patch : Request := mkRequest None {[ "title" := JStr "Anon" ]}.

Definition title_patch : Request := as_alice {[ "title" := JStr "New" ]}.

Definition forged_author_request : Request :=
  as_alice {[ "title" := JStr "T2"; "content" := JStr "C2"; "author" := JInt 77;
              "created_at" := JStr "2020-01-01T00:00:00Z" ]}.

End Examples.

(** ** Further properties of stores *)

(** A string without whitespace characters. *)
Fixpoint no_space (s : string) : bool :=
  match s with
  | "" => true
  | String c rest => negb (Py.isspace c) && no_space rest
  end.


(** Every reference held in a row points to a row that exists: the user of
    a profile and of a token, the author and the chat of a post, the chat
    and the author of a message, the members of a chat. *)
Record referential_integrity (s : Store) : Prop := mk_referential_integrity {
  ri_profiles : Forall (λ p, UserProfile.user p ∈ User.id <$> users s) (profiles s);
  ri_tokens : Forall (λ t, Token.user t ∈ User.id <$> users s) (tokens s);
  ri_post_authors : Forall (λ p, Post.author p ∈ User.id <$> users s) (posts s);
  ri_post_chats :
    Forall (λ p, refers_to (Chat.id <$> chats s) (Post.chat p) = true) (posts s);
  ri_message_chats :
    Forall (λ m, refers_to (Chat.id <$> chats s) (Message.chat m) = true) (messages s);
  ri_message_authors :
    Forall (λ m, refers_to (User.id <$> users s) (Message.author m) = true) (messages s);
  ri_members :
    Forall (λ c, Forall (λ m, m ∈ User.id <$> users s) (Chat.members c)) (chats s) }.

(** The one-to-one relations: primary keys of users are distinct, every
    user has exactly one profile, at most one token, and no two tokens share
    a key. *)
Record one_to_one (s : Store) : Prop := mk_one_to_one {
  oo_user_ids : NoDup (User.id <$> users s);
  oo_profile_users : NoDup (UserProfile.user <$> profiles s);
  oo_has_profile : Forall (λ u, User.id u ∈ UserProfile.user <$> profiles s) (users s);
  oo_token_users : NoDup (Token.user <$> tokens s);
  oo_token_keys : NoDup (Token.key <$> tokens s) }.

(** [UserProfile.__str__] (user_auth_app/models.py, lines 12 and 13):
    the username of the profile's user; [None] when the user row is
    missing, where Django raises. *)
Definition UserProfile_str (p : UserProfile.t) (s : Store) : option string :=
  User.username <$> Orm.first_where (λ u, User.id u = UserProfile.user p) (users s).

(** The representation [PostSerializer] gives of a post: its six columns
    under their names. *)
Definition Post_data (p : Post.t) : gmap string pyval :=
  {[ "id" := VInt (Post.id p);
     "title" := VStr (Post.title p);
     "content" := VStr (Post.content p);
     "created_at" := VInt (Post.created_at p);
     "chat" := pk_value (Post.chat p);
     "author" := VInt (Post.author p) ]}.


(** A second account beside the one of [Examples], to exercise statements
    about two callers. *)
Module Scenario.

Definition bob : gmap string json :=
  {[ "username" := JStr "bob"; "email" := JStr "b@x.com";
     "password" := JStr "p2"; "repeated_password" := JStr "p2" ]}.

Definition store_two : Store :=
  (RegistrationView_post Examples.is_email bob "k2" 250 Examples.store_post).1.

Definition as_bob (d : gmap string json) : Request := mkRequest (Some "k2") d.

Definition the_post : Post.t := Post.mk 1 (Some 1) 1 "T" "C" 200.

End Scenario.

(** The elementary changes of the store: what one step of an event does.
    A registration stores an account with its profile and then a token; a
    login stores at most a token; a request to the Post endpoints stores,
    saves or deletes one post; the remaining changes are those of the events
    themselves. *)
Inductive store_change (now : Z) (s : Store) : Store → Prop :=
| unchanged : store_change now s s
| account_stored u e p :
    u ≠ "" → Py.strip u = u →
    store_change now s (store_with_account (new_account u e p s) now s)
| token_stored user key :
    user ∈ User.id <$> users s →
    Forall (λ t, Token.user t ≠ user) (tokens s) →
    Forall (λ t, Token.key t ≠ key) (tokens s) →
    store_change now s (insert_token (Token.mk key user now) s)
| post_stored p :
    Post.id p = posts_seq s →
    Post.author p ∈ User.id <$> users s →
    refers_to (Chat.id <$> chats s) (Post.chat p) = true →
    store_change now s (insert_post p s)
| post_saved p p' :
    p ∈ posts s →
    Post.id p' = Post.id p →
    Post.author p' = Post.author p →
    Post.chat p' = Post.chat p ∨ refers_to (Chat.id <$> chats s) (Post.chat p') = true →
    store_change now s (Post_save p' s)
| post_deleted pk : store_change now s (Post_delete pk s)
| user_deleted pk : store_change now s (User_delete pk s)
| chat_deleted pk : store_change now s (Chat_delete pk s)
| chat_stored title members :
    Forall (λ m, m ∈ User.id <$> users s) members →
    store_change now s (insert_chat (Chat.mk (chats_seq s) members title) s)
| message_stored chat author text :
    refers_to (Chat.id <$> chats s) chat = true →
    refers_to (User.id <$> users s) author = true →
    store_change now s (insert_message (Message.mk (messages_seq s) chat author text) s).

(** A user as registration makes it: the username is [name.title()] for the
    trimmed, non-empty name that was validated, and is trimmed itself; the
    first and the last name are computed from the username, the first name
    is a single token, the account is active. *)
Record registered_user (u : User.t) : Prop := mk_registered_user {
  ru_title : ∃ name, name ≠ "" ∧ Py.strip name = name ∧ User.username u = Py.title name;
  ru_trimmed : Py.strip (User.username u) = User.username u;
  ru_first : User.first_name u = first_name_of (Py.split (User.username u));
  ru_last : User.last_name u = last_name_of (Py.split (User.username u));
  ru_first_not_empty : User.first_name u ≠ "";
  ru_first_token : no_space (User.first_name u) = true;
  ru_active : User.is_active u = true }.

(** * Verification *)

(** ** Facts about the string methods *)

Module PyFacts.
Import Py.

Lemma isspace_not_cased c : isspace c = true → iscased c = false.
Proof. destruct c as [[] [] [] [] [] [] [] []]; vm_compute; congruence. Qed.

Lemma isspace_toupper c : isspace (toupper c) = isspace c.
Proof. destruct c as [[] [] [] [] [] [] [] []]; reflexivity. Qed.

Lemma isspace_tolower c : isspace (tolower c) = isspace c.
Proof. destruct c as [[] [] [] [] [] [] [] []]; reflexivity. Qed.

Lemma isspace_title_char b c : isspace (title_char b c) = isspace c.
Proof. destruct b; [apply isspace_tolower | apply isspace_toupper]. Qed.

Lemma title_char_null b c :
  Ascii.eqb "000"%char (title_char b c) = Ascii.eqb "000"%char c.
Proof. destruct b, c as [[] [] [] [] [] [] [] []]; reflexivity. Qed.

Lemma title_from_eq b c s :
  title_from b (String c s) = String (title_char b c) (title_from (iscased c) s).
Proof. reflexivity. Qed.

Lemma title_from_empty b s : title_from b s = "" ↔ s = "".
Proof. destruct s; simpl; split; congruence. Qed.

Lemma title_empty s : title s = "" ↔ s = "".
Proof. apply title_from_empty. Qed.

Lemma has_null_title_from b s :
  has_char "000"%char (title_from b s) = has_char "000"%char s.
Proof.
  revert b; induction s as [|c s IH]; intros b; [reflexivity|].
  rewrite title_from_eq. cbn [has_char]. by rewrite title_char_null, IH.
Qed.

Lemma rstrip_title_from b s : rstrip (title_from b s) = title_from b (rstrip s).
Proof.
  revert b; induction s as [|c s IH]; intros b; [reflexivity|].
  rewrite title_from_eq. cbn [rstrip]. rewrite IH.
  destruct (rstrip s) as [|c' r] eqn:E; cbn [title_from].
  - rewrite isspace_title_char. destruct (isspace c); reflexivity.
  - reflexivity.
Qed.

Lemma lstrip_title s : lstrip (title_from false s) = title_from false (lstrip s).
Proof.
  induction s as [|c s IH]; [reflexivity|].
  rewrite title_from_eq. cbn [lstrip]. rewrite isspace_title_char.
  destruct (isspace c) eqn:E.
  - by rewrite (isspace_not_cased c E).
  - reflexivity.
Qed.

Lemma strip_title s : strip (title s) = title (strip s).
Proof. unfold strip, title. by rewrite lstrip_title, rstrip_title_from. Qed.

Lemma lstrip_head s :
  lstrip s = "" ∨ ∃ c r, lstrip s = String c r ∧ isspace c = false.
Proof.
  induction s as [|c s IH]; [by left|]. simpl.
  destruct (isspace c) eqn:E; [exact IH|]. right; eauto.
Qed.

Lemma rstrip_rstrip s : rstrip (rstrip s) = rstrip s.
Proof.
  induction s as [|c s IH]; [reflexivity|]. simpl.
  destruct (rstrip s) as [|c' r] eqn:E.
  - destruct (isspace c) eqn:Ec; simpl; [reflexivity|]. by rewrite Ec.
  - simpl in *. rewrite IH. reflexivity.
Qed.

Lemma lstrip_rstrip_head c r :
  isspace c = false → lstrip (rstrip (String c r)) = rstrip (String c r).
Proof.
  intros E. cbn [rstrip]. destruct (rstrip r); rewrite ?E; cbn [lstrip]; by rewrite E.
Qed.

Lemma strip_strip s : strip (strip s) = strip s.
Proof.
  unfold strip.
  destruct (lstrip_head s) as [->|(c & r & -> & E)]; [reflexivity|].
  by rewrite (lstrip_rstrip_head c r E), rstrip_rstrip.
Qed.

(** A title-cased, trimmed name stays as it is when trimmed again. *)
Lemma strip_title_strip s : strip (title (strip s)) = title (strip s).
Proof. by rewrite strip_title, strip_strip. Qed.

End PyFacts.

(** ** Facts about queries *)

Module OrmFacts.
Import Orm.

Section Queries.
Context {A : Type} (P : A → Prop) `{∀ x, Decision (P x)}.

Lemma exists_where_false rows : exists_where P rows = false ↔ Forall (λ x, ¬ P x) rows.
Proof.
  unfold exists_where. rewrite bool_decide_eq_false.
  by rewrite <- Forall_Exists_neg.
Qed.

Lemma exists_where_true rows : exists_where P rows = true ↔ Exists P rows.
Proof. unfold exists_where. by rewrite bool_decide_eq_true. Qed.

Lemma filter_none rows : Forall (λ x, ¬ P x) rows → filter P rows = [].
Proof.
  induction 1 as [|x l Hx _ IH]; [done|].
  by rewrite filter_cons_False.
Qed.

Lemma first_where_snoc_new rows x :
  Forall (λ y, ¬ P y) rows → P x → first_where P (rows ++ [x]) = Some x.
Proof.
  intros Hn Hx. unfold first_where.
  by rewrite filter_app, (filter_none rows Hn), filter_cons_True.
Qed.

Lemma first_where_None rows : first_where P rows = None ↔ Forall (λ x, ¬ P x) rows.
Proof.
  unfold first_where. split.
  - intros Hh. apply head_None in Hh.
    apply Forall_forall. intros x Hx HP.
    assert (x ∈ filter P rows) as Hin by by apply list_elem_of_filter.
    rewrite Hh in Hin. by apply elem_of_nil in Hin.
  - intros Hn. by rewrite (filter_none rows Hn).
Qed.

Lemma first_where_Some rows x : first_where P rows = Some x → x ∈ rows ∧ P x.
Proof.
  unfold first_where. intros Hh.
  assert (x ∈ filter P rows) as Hin.
  { destruct (filter P rows); [done|]. injection Hh as ->. by left. }
  apply list_elem_of_filter in Hin. tauto.
Qed.

Lemma count_where_snoc_new rows x :
  Forall (λ y, ¬ P y) rows → P x → count_where P (rows ++ [x]) = 1%nat.
Proof.
  intros Hn Hx. unfold count_where.
  by rewrite filter_app, (filter_none rows Hn), filter_cons_True.
Qed.
End Queries.

End OrmFacts.

(** ** Facts about serializer fields *)

Module DrfFacts.
Import Drf.

Lemma to_internal_value_cons name f rest partial (data : gmap string json) :
  to_internal_value ((name, f) :: rest) partial data =
    match run_validation f partial (data !! name) with
    | Skip => to_internal_value rest partial data
    | Value v => (<[name := v]> (to_internal_value rest partial data).1,
                  (to_internal_value rest partial data).2)
    | Invalid detail => ((to_internal_value rest partial data).1,
                         <[name := VStrs detail]> (to_internal_value rest partial data).2)
    end.
Proof.
  cbn [to_internal_value].
  destruct (to_internal_value rest partial data) as [ret errors].
  by destruct (run_validation f partial (data !! name)).
Qed.

(** A validated value comes from a field of that name that accepted the
    input under its key. *)
Lemma validated_value_origin fields partial (data : gmap string json) name v :
  (to_internal_value fields partial data).1 !! name = Some v →
  ∃ f, (name, f) ∈ fields ∧ run_validation f partial (data !! name) = Value v.
Proof.
  induction fields as [|[n f] rest IH]; [by cbn; rewrite lookup_empty|].
  rewrite to_internal_value_cons.
  destruct (run_validation f partial (data !! n)) eqn:E; cbn [fst].
  - intros (f' & ? & ?)%IH. exists f'. split; [by right|done].
  - destruct (decide (n = name)) as [->|Hne].
    + rewrite lookup_insert_eq. intros [= <-]. exists f. split; [by left|done].
    + rewrite lookup_insert_ne by done.
      intros (f' & ? & ?)%IH. exists f'. split; [by right|done].
  - intros (f' & ? & ?)%IH. exists f'. split; [by right|done].
Qed.

Lemma validated_value_present fields partial (data : gmap string json) name f v :
  NoDup fields.*1 → (name, f) ∈ fields →
  run_validation f partial (data !! name) = Value v →
  (to_internal_value fields partial data).1 !! name = Some v.
Proof.
  induction fields as [|[n g] rest IH]; [by intros _ ?%elem_of_nil|].
  rewrite fmap_cons, NoDup_cons. cbn [fst]. intros [Hn Hnd] Hin Hv.
  rewrite to_internal_value_cons.
  apply elem_of_cons in Hin as [[= <- <-]|Hin].
  - rewrite Hv. cbn [fst]. by rewrite lookup_insert_eq.
  - assert (n ≠ name) as Hne.
    { intros ->. apply Hn. apply list_elem_of_fmap. by exists (name, f). }
    destruct (run_validation g partial (data !! n)); cbn [fst];
      rewrite ?lookup_insert_ne by done; by apply IH.
Qed.

Lemma validated_value_absent fields partial (data : gmap string json) name :
  (∀ f v, (name, f) ∈ fields → run_validation f partial (data !! name) ≠ Value v) →
  (to_internal_value fields partial data).1 !! name = None.
Proof.
  intros H.
  destruct ((to_internal_value fields partial data).1 !! name) as [v|] eqn:E; [|done].
  apply validated_value_origin in E as (f & Hin & Hv). by destruct (H f v Hin).
Qed.

(** The errors are empty exactly when no field rejects its input. *)
Lemma no_errors_iff fields partial (data : gmap string json) :
  (to_internal_value fields partial data).2 = ∅ ↔
  ∀ name f detail, (name, f) ∈ fields →
                   run_validation f partial (data !! name) ≠ Invalid detail.
Proof.
  induction fields as [|[n f] rest IH].
  { split; [by intros _ ??? ?%elem_of_nil|done]. }
  rewrite to_internal_value_cons. split.
  - intros He name g detail [[= -> ->]|Hin]%elem_of_cons.
    + destruct (run_validation f partial (data !! n)); try done.
      cbn [snd] in He. by apply insert_non_empty in He.
    + destruct (run_validation f partial (data !! n)); cbn [snd] in He.
      * by apply IH.
      * by apply IH.
      * by apply insert_non_empty in He.
  - intros H.
    assert ((to_internal_value rest partial data).2 = ∅) as Hrest.
    { apply IH. intros name g detail Hin. apply H. by right. }
    destruct (run_validation f partial (data !! n)) eqn:E; cbn [snd]; try done.
    exfalso. eapply (H n f); [by left|done].
Qed.

Lemma error_present fields partial (data : gmap string json) name f detail :
  NoDup fields.*1 → (name, f) ∈ fields →
  run_validation f partial (data !! name) = Invalid detail →
  (to_internal_value fields partial data).2 !! name = Some (VStrs detail).
Proof.
  induction fields as [|[n g] rest IH]; [by intros _ ?%elem_of_nil|].
  rewrite fmap_cons, NoDup_cons. cbn [fst]. intros [Hn Hnd] Hin Hv.
  rewrite to_internal_value_cons.
  apply elem_of_cons in Hin as [[= <- <-]|Hin].
  - rewrite Hv. cbn [snd]. by rewrite lookup_insert_eq.
  - assert (n ≠ name) as Hne.
    { intros ->. apply Hn. apply list_elem_of_fmap. by exists (name, f). }
    destruct (run_validation g partial (data !! n)); cbn [snd];
      rewrite ?lookup_insert_ne by done; by apply IH.
Qed.

(** Input under a key whose fields are all read-only is never read. *)
Lemma read_only_input_ignored fields partial (data : gmap string json) k d :
  (∀ f, (k, f) ∈ fields → f = ReadOnly) →
  to_internal_value fields partial (<[k := d]> data)
  = to_internal_value fields partial data.
Proof.
  induction fields as [|[n f] rest IH]; [done|]. intros H.
  rewrite !to_internal_value_cons, IH by (intros g ?; apply H; by right).
  destruct (decide (k = n)) as [->|Hne].
  - rewrite (H f) by by left. done.
  - by rewrite lookup_insert_ne.
Qed.

(** What a text field accepts. *)
Lemma CharField_value f partial d v :
  CharField_run_validation f partial d = Value v →
  ∃ x, v = VStr x
       ∧ (allow_blank f = false → x ≠ "")
       ∧ (trim_whitespace f = true → Py.strip x = x)
       ∧ (x ≠ "" → run_validators (validators f) x = []).
Proof.
  unfold CharField_run_validation, on_absent.
  destruct d as [[| | n | s | |]|]; try done;
    try (repeat case_match; done).
  - set (raw := Py.str_of_int n).
    destruct (bool_decide (raw = "") || _) eqn:Hb.
    + destruct (allow_blank f) eqn:Ha; [|done]. intros [= <-].
      exists "". by repeat split.
    + apply orb_false_iff in Hb as [Hr Ht]. apply bool_decide_eq_false in Hr.
      destruct (run_validators _ _) eqn:Hv; [|done]. intros [= <-].
      eexists; split; [done|]. destruct (trim_whitespace f) eqn:Htr.
      * simpl in Ht. apply bool_decide_eq_false in Ht.
        repeat split; auto using PyFacts.strip_strip.
      * by repeat split.
  - set (raw := s).
    destruct (bool_decide (raw = "") || _) eqn:Hb.
    + destruct (allow_blank f) eqn:Ha; [|done]. intros [= <-].
      exists "". by repeat split.
    + apply orb_false_iff in Hb as [Hr Ht]. apply bool_decide_eq_false in Hr.
      destruct (run_validators _ _) eqn:Hv; [|done]. intros [= <-].
      eexists; split; [done|]. destruct (trim_whitespace f) eqn:Htr.
      * simpl in Ht. apply bool_decide_eq_false in Ht.
        repeat split; auto using PyFacts.strip_strip.
      * by repeat split.
Qed.

(** A required text field of a full (not partial) validation never leaves
    its key out. *)
Lemma CharField_required f d :
  required f = true → CharField_run_validation f false d ≠ Skip.
Proof.
  intros Hr. unfold CharField_run_validation, on_absent. rewrite Hr.
  destruct d as [[| | n | s | |]|]; try done; repeat case_match; done.
Qed.

(** Absent input is skipped by every field of a partial validation. *)
Lemma run_validation_absent_partial f : run_validation f true None = Skip.
Proof. by destruct f. Qed.

(** What a relation field accepts: null, or a key of the queryset. *)
Lemma Related_value f partial d v :
  Related_run_validation f partial d = Value v →
  v = VNone ∨ ∃ n, v = VInt n ∧ n ∈ pk_queryset f.
Proof.
  unfold Related_run_validation, on_absent, pk_to_internal_value.
  intros H. repeat case_match; simplify_eq; auto;
    right; eexists; split; try done; by eapply bool_decide_eq_true.
Qed.

Lemma run_validators_nil vs x :
  run_validators vs x = [] ↔ Forall (λ v : validator, v x = None) vs.
Proof.
  unfold run_validators. induction vs as [|v vs IH]; [done|].
  cbn. destruct (v x) eqn:E; cbn.
  - split; [done|]. intros Hf. apply Forall_cons in Hf as [? _]. congruence.
  - rewrite IH. split; [by constructor|]. by intros [_ ?]%Forall_cons.
Qed.


(** A text value that is not blank, is trimmed where the field trims, and
    passes the validators is accepted as it is. *)
Lemma CharField_accepts f partial x :
  x ≠ "" → (trim_whitespace f = true → Py.strip x = x) →
  run_validators (validators f) x = [] →
  CharField_run_validation f partial (Some (JStr x)) = Value (VStr x).
Proof.
  intros Hx Ht Hv. unfold CharField_run_validation.
  rewrite (bool_decide_eq_false_2 _ Hx).
  destruct (trim_whitespace f) eqn:E; cbn [orb andb].
  - rewrite Ht by done. rewrite (bool_decide_eq_false_2 _ Hx). by rewrite Hv.
  - by rewrite Hv.
Qed.

End DrfFacts.

(** ** Registration and login *)

Section RegistrationFacts.

Context (is_email : string → bool).

Lemma RegistrationSerializer_fields :
  Drf.get_fields (RegistrationSerializer is_email) = Ok (registration_fields is_email).
Proof. reflexivity. Qed.

Lemma registration_fields_NoDup : NoDup (registration_fields is_email).*1.
Proof. apply (bool_decide_unpack _). by vm_compute. Qed.

Lemma validated_eq request_data name :
  validated is_email request_data name
  = (Drf.to_internal_value (registration_fields is_email) false request_data).1 !! name.
Proof. reflexivity. Qed.

Lemma null_free_validated x n :
  Drf.run_validators (Drf.validators (Drf.new_CharField true false true n)) x = [] →
  Py.has_char "000"%char x = false.
Proof.
  rewrite DrfFacts.run_validators_nil. cbn. rewrite Forall_app. intros [_ Hn].
  apply Forall_cons in Hn as [Hn _]. unfold Drf.ProhibitNullCharactersValidator in Hn.
  by destruct (Py.has_char _ x).
Qed.

Lemma required_text_validated name w n (data : gmap string json) :
  (name, Drf.Char w (Drf.new_CharField true false true n)) ∈ registration_fields is_email →
  (Drf.to_internal_value (registration_fields is_email) false data).2 = ∅ →
  ∃ x, validated is_email data name = Some (VStr x) ∧ x ≠ "" ∧ Py.strip x = x
       ∧ Py.has_char "000"%char x = false.
Proof.
  intros Hin He.
  pose proof (λ d, proj1 (DrfFacts.no_errors_iff _ _ _) He name _ d Hin) as Hne.
  cbn [Drf.run_validation] in Hne.
  destruct (Drf.CharField_run_validation (Drf.new_CharField true false true n) false
              (data !! name)) as [|v|d] eqn:E.
  - by apply DrfFacts.CharField_required in E.
  - destruct (DrfFacts.CharField_value _ _ _ _ E) as (x & -> & Hb & Ht & Hv).
    exists x. rewrite validated_eq.
    rewrite (DrfFacts.validated_value_present _ _ _ name _ (VStr x)
               registration_fields_NoDup Hin E).
    repeat split; auto. apply (null_free_validated x n). auto.
  - by destruct (Hne d).
Qed.

Lemma email_validated (data : gmap string json) :
  (Drf.to_internal_value (registration_fields is_email) false data).2 = ∅ →
  ∃ x, validated is_email data "email" = Some (VStr x) ∧ x ≠ "".
Proof.
  intros He.
  assert (("email", Drf.Char false (Drf.new_EmailField is_email true))
            ∈ registration_fields is_email) as Hin by set_solver.
  pose proof (λ d, proj1 (DrfFacts.no_errors_iff _ _ _) He "email" _ d Hin) as Hne.
  cbn [Drf.run_validation] in Hne.
  destruct (Drf.CharField_run_validation (Drf.new_EmailField is_email true) false
              (data !! "email")) as [|v|d] eqn:E.
  - by apply DrfFacts.CharField_required in E.
  - destruct (DrfFacts.CharField_value _ _ _ _ E) as (x & -> & Hb & Ht & Hv).
    exists x. rewrite validated_eq.
    rewrite (DrfFacts.validated_value_present _ _ _ "email" _ (VStr x)
               registration_fields_NoDup Hin E).
    split; auto.
  - by destruct (Hne d).
Qed.

Lemma accepted_of_no_errors (data : gmap string json) :
  (Drf.to_internal_value (registration_fields is_email) false data).2 = ∅ →
  ∃ u e p r, accepted_registration is_email data u e p
             ∧ validated is_email data "repeated_password" = Some (VStr r).
Proof.
  intros He.
  destruct (required_text_validated "username" true None data) as (u & ? & ? & ? & ?);
    [set_solver|done|].
  destruct (email_validated data He) as (e & ? & ?).
  destruct (required_text_validated "password" true (Some 128%nat) data)
    as (p & ? & ? & ? & ?); [set_solver|done|].
  destruct (required_text_validated "repeated_password" true None data)
    as (r & ? & ? & ? & ?); [set_solver|done|].
  exists u, e, p, r. by repeat split.
Qed.

(** [RegistrationSerializer.create] on accepted data, branch by branch. *)
Lemma create_on_accepted ret now s u e p r :
  ret !! "username" = Some (VStr u) → ret !! "email" = Some (VStr e) →
  ret !! "password" = Some (VStr p) → ret !! "repeated_password" = Some (VStr r) →
  RegistrationSerializer_create ret now s =
    if bool_decide (p ≠ r)
    then Raise (ValidationError {[ "error" := VStr "Passwords do not match" ]})
    else if Orm.exists_where (λ x, User.email x = e) (users s)
    then Raise (ValidationError {[ "error" := VStr "This email is already taken" ]})
    else if Orm.exists_where (λ x, User.username x = Py.title u) (users s)
    then Raise (ValidationError {[ "error" := VStr "This username is already taken" ]})
    else Ok (store_with_account (new_account u e p s) now s, new_account u e p s).
Proof.
  intros Hu He Hp Hr. unfold RegistrationSerializer_create, pop.
  rewrite Hu, He, Hp, Hr. cbn.
  destruct (decide (p = r)) as [->|Hne].
  - rewrite !bool_decide_eq_false_2 by (intros Hn; by apply Hn).
    by repeat case_match.
  - rewrite !bool_decide_eq_true_2 by congruence. done.
Qed.

Lemma RegistrationView_post_outcome request_data key now s :
  registration_outcome is_email request_data key now s
    (RegistrationView_post is_email request_data key now s).
Proof.
  unfold RegistrationView_post. rewrite RegistrationSerializer_fields.
  unfold Drf.run_validation_all.
  destruct (Drf.to_internal_value (registration_fields is_email) false request_data)
    as [ret errors] eqn:Ht.
  assert (∀ name, validated is_email request_data name = ret !! name) as Hval.
  { intros name. by rewrite validated_eq, Ht. }
  case_bool_decide as He.
  2:{ apply reg_invalid; [by rewrite Ht|done]. }
  destruct (accepted_of_no_errors request_data) as (u & e & p & r & Hacc & Hr).
  { by rewrite Ht. }
  pose proof Hacc as [Hu Hem Hp _ _ _ _ _ _].
  rewrite Hval in Hu, Hem, Hp, Hr.
  rewrite (create_on_accepted ret now s u e p r Hu Hem Hp Hr).
  case_bool_decide as Hpr.
  { eapply reg_mismatch; [exact Hacc|by rewrite Hval|].
    intros ->. by apply Hpr. }
  assert (p = r) as <- by (destruct (decide (p = r)); [done|by destruct Hpr]).
  assert (validated is_email request_data "repeated_password" = Some (VStr p)) as Hr'
    by by rewrite Hval.
  destruct (Orm.exists_where _ (users s)) eqn:Hee.
  { apply OrmFacts.exists_where_true in Hee. by eapply reg_email_taken. }
  apply OrmFacts.exists_where_false in Hee.
  destruct (Orm.exists_where (λ x, User.username x = Py.title u) (users s)) eqn:Heu.
  { apply OrmFacts.exists_where_true in Heu. by eapply reg_username_taken. }
  apply OrmFacts.exists_where_false in Heu.
  destruct (Token_get_or_create _ key now _) as [[s2 token]|ex] eqn:Htok.
  - by eapply reg_created.
  - by eapply reg_token_failed.
Qed.

End RegistrationFacts.

Section TokenFacts.

Lemma Token_get_or_create_existing user key now s token :
  Orm.first_where (λ t, Token.user t = user) (tokens s) = Some token →
  Token_get_or_create user key now s = Ok (s, token).
Proof. unfold Token_get_or_create. by intros ->. Qed.

(** Either the user's token is found and nothing is written, or a token
    with the drawn key is appended, which then is the user's only one. *)
Lemma Token_get_or_create_Ok user key now s s2 token :
  Token_get_or_create user key now s = Ok (s2, token) →
  Orm.first_where (λ t, Token.user t = user) (tokens s2) = Some token
  ∧ (s2 = s
     ∨ (s2 = insert_token token s ∧ token = Token.mk key user now
        ∧ Forall (λ t, ¬ Token.user t = user) (tokens s)
        ∧ Forall (λ t, ¬ Token.key t = key) (tokens s))).
Proof.
  unfold Token_get_or_create.
  destruct (Orm.first_where _ (tokens s)) as [t|] eqn:Hf.
  - intros [= <- <-]. auto.
  - destruct (Orm.exists_where _ (tokens s)) eqn:He; [done|].
    intros [= <- <-]. apply OrmFacts.first_where_None in Hf.
    apply OrmFacts.exists_where_false in He. split.
    + cbn. by apply OrmFacts.first_where_snoc_new.
    + right. auto.
Qed.

Lemma Token_get_or_create_users user key now s s2 token :
  Token_get_or_create user key now s = Ok (s2, token) →
  users s2 = users s ∧ profiles s2 = profiles s ∧ users_seq s2 = users_seq s.
Proof. intros [_ [->|[-> _]]]%Token_get_or_create_Ok; auto. Qed.

End TokenFacts.

Section LoginFacts.

(** Logging in with the stored username and the password the hash was made
    from returns the user's token and writes nothing. *)
Lemma login_with_stored_credentials (login_data : gmap string json) key now s
    account password token :
  login_data !! "username" = Some (JStr (User.username account)) →
  login_data !! "password" = Some (JStr password) →
  User.username account ≠ "" →
  Py.strip (User.username account) = User.username account →
  Py.has_char "000"%char (User.username account) = false →
  password ≠ "" →
  Py.has_char "000"%char password = false →
  Orm.first_where (λ u, User.username u = User.username account) (users s)
    = Some account →
  User.password account = make_password password →
  User.is_active account = true →
  Orm.first_where (λ t, Token.user t = User.id account) (tokens s) = Some token →
  CustomLogInView_post login_data key now s
  = (s, mkResponse HTTP_200_OK (auth_data token account)).
Proof.
  intros Hu Hp Hune Hust Hunull Hpne Hpnull Hfirst Hhash Hact Htok.
  unfold CustomLogInView_post. rewrite Hu, Hp. cbn [default].
  unfold Drf.run_validation_all, UsernameAuthTokenSerializer_fields.
  rewrite !DrfFacts.to_internal_value_cons. cbn [Drf.to_internal_value Drf.run_validation].
  rewrite lookup_insert_eq, lookup_insert_ne, lookup_singleton_eq by done.
  unfold id. rewrite !DrfFacts.CharField_accepts; try done.
  2,3: unfold Drf.run_validators; cbn;
    unfold Drf.ProhibitNullCharactersValidator; by rewrite ?Hpnull, ?Hunull.
  cbn [fst snd]. rewrite bool_decide_eq_true_2 by done. cbn [mbind result_bind].
  unfold UsernameAuthTokenSerializer_validate.
  rewrite lookup_insert_eq, lookup_insert_ne, lookup_insert_eq by done.
  rewrite !bool_decide_eq_false_2 by done. cbn [orb].
  unfold authenticate. rewrite Hfirst. cbn [mbind option_bind].
  rewrite Hhash. cbn [check_password make_password].
  rewrite bool_decide_eq_true_2, Hact by done. cbn [andb].
  by rewrite (Token_get_or_create_existing _ key now s token Htok).
Qed.

End LoginFacts.

(** ** Registration: rejection and success *)

Lemma created_status_not_error ex : status_code (handle_exception ex) ≠ HTTP_201_CREATED.
Proof. by destruct ex. Qed.

(** The two passwords are compared after field validation, which trims
    them: a request whose password differs from the repeated password as
    sent, by the whitespace around it only, is not rejected.  It is answered
    201, and a user, a profile and a token are written. *)
Lemma C1_counterexample :
  let out := RegistrationView_post Examples.is_email Examples.alice_padded "k1" 100
               empty_store in
  Examples.alice_padded !! "password" = Some (JStr " p1 ")
  ∧ Examples.alice_padded !! "repeated_password" = Some (JStr "p1")
  ∧ Examples.alice_padded !! "password"
    ≠ Examples.alice_padded !! "repeated_password"
  ∧ status_code out.2 = HTTP_201_CREATED
  ∧ (length (users empty_store), length (profiles empty_store),
     length (tokens empty_store)) = (0, 0, 0)%nat
  ∧ (length (users out.1), length (profiles out.1), length (tokens out.1))
    = (1, 1, 1)%nat
  ∧ out.1 ≠ empty_store
  ∧ ¬ ∃ detail, out = (empty_store, mkResponse HTTP_400_BAD_REQUEST (RDict detail)).
Proof.
  cbn zeta.
  assert (status_code (RegistrationView_post Examples.is_email Examples.alice_padded
                         "k1" 100 empty_store).2 = HTTP_201_CREATED) as Hst
    by reflexivity.
  assert (length (users (RegistrationView_post Examples.is_email Examples.alice_padded
                           "k1" 100 empty_store).1) = 1%nat) as Hlen
    by reflexivity.
  split; [reflexivity|]. split; [reflexivity|]. split; [by vm_compute|].
  split; [exact Hst|]. split; [reflexivity|]. split; [reflexivity|].
  split.
  - intros Heq. by rewrite Heq in Hlen.
  - intros [detail Heq]. by rewrite Heq in Hst.
Qed.

(** C1 (amended).  A registration request whose validated password differs
    from the validated repeated password, or whose email is already a user's,
    or whose title-cased username is already a user's, is answered with
    status 400 and a non-empty error dictionary, and the store after the
    request is the store before it: no user, profile or token is written and
    every table keeps its rows.  When the fields themselves are valid and the
    passwords differ, the error is "Passwords do not match".  The validated
    value of a text field is the text sent with the surrounding whitespace
    trimmed. *)
Theorem C1_rejected_registration_writes_nothing
    (is_email : string → bool) (request_data : gmap string json)
    (key : string) (now : Z) (s : Store) :
  (validated is_email request_data "password"
     ≠ validated is_email request_data "repeated_password"
   ∨ (∃ e, validated is_email request_data "email" = Some (VStr e)
           ∧ Exists (λ u, User.email u = e) (users s))
   ∨ (∃ n, validated is_email request_data "username" = Some (VStr n)
           ∧ Exists (λ u, User.username u = Py.title n) (users s))) →
  ∃ detail,
    RegistrationView_post is_email request_data key now s
    = (s, mkResponse HTTP_400_BAD_REQUEST (RDict detail))
    ∧ detail ≠ ∅
    ∧ ((Drf.to_internal_value (registration_fields is_email) false request_data).2 = ∅ →
       validated is_email request_data "password"
         ≠ validated is_email request_data "repeated_password" →
       detail = {[ "error" := VStr "Passwords do not match" ]}).
Proof.
  intros Hfail.
  destruct (RegistrationView_post_outcome is_email request_data key now s)
    as [errors Herr Hne | u e p r Hacc Hr Hpr | u e p Hacc Hr _ | u e p Hacc Hr _ _
        | u e p s2 token Hacc Hr Hem Hun _ | u e p ex Hacc Hr Hem Hun _].
  - exists errors. split; [done|]. split; [done|]. intros He. by rewrite <- Herr in He.
  - eexists; split; [done|]. split; [apply insert_non_empty|done].
  - eexists; split; [done|]. split; [apply insert_non_empty|].
    intros _ Hpw. destruct Hpw. destruct Hacc as [_ _ Hp _ _ _ _ _ _]. by rewrite Hp, Hr.
  - eexists; split; [done|]. split; [apply insert_non_empty|].
    intros _ Hpw. destruct Hpw. destruct Hacc as [_ _ Hp _ _ _ _ _ _]. by rewrite Hp, Hr.
  - exfalso. destruct Hacc as [Hu He Hp _ _ _ _ _ _].
    destruct Hfail as [Hpw | [(e' & He' & Hex) | (n & Hn & Hex)]].
    + apply Hpw. by rewrite Hp, Hr.
    + rewrite He in He'. injection He' as <-.
      apply Exists_exists in Hex as (x & Hx & Hxe).
      by apply (proj1 (Forall_forall _ _) Hem x).
    + rewrite Hu in Hn. injection Hn as <-.
      apply Exists_exists in Hex as (x & Hx & Hxe).
      by apply (proj1 (Forall_forall _ _) Hun x).
  - exfalso. destruct Hacc as [Hu He Hp _ _ _ _ _ _].
    destruct Hfail as [Hpw | [(e' & He' & Hex) | (n & Hn & Hex)]].
    + apply Hpw. by rewrite Hp, Hr.
    + rewrite He in He'. injection He' as <-.
      apply Exists_exists in Hex as (x & Hx & Hxe).
      by apply (proj1 (Forall_forall _ _) Hem x).
    + rewrite Hu in Hn. injection Hn as <-.
      apply Exists_exists in Hex as (x & Hx & Hxe).
      by apply (proj1 (Forall_forall _ _) Hun x).
Qed.

(** C1 on a request whose second password differs. *)
Lemma C1_witness :
  (validated Examples.is_email (<["repeated_password" := JStr "p2"]> Examples.alice)
     "password"
   ≠ validated Examples.is_email (<["repeated_password" := JStr "p2"]> Examples.alice)
       "repeated_password")
  ∧ ∃ detail,
      RegistrationView_post Examples.is_email
        (<["repeated_password" := JStr "p2"]> Examples.alice) "k2" 101 Examples.store_alice
      = (Examples.store_alice, mkResponse HTTP_400_BAD_REQUEST (RDict detail))
      ∧ detail ≠ ∅
      ∧ ((Drf.to_internal_value (registration_fields Examples.is_email) false
            (<["repeated_password" := JStr "p2"]> Examples.alice)).2 = ∅ →
         validated Examples.is_email (<["repeated_password" := JStr "p2"]> Examples.alice)
           "password"
         ≠ validated Examples.is_email
             (<["repeated_password" := JStr "p2"]> Examples.alice) "repeated_password" →
         detail = {[ "error" := VStr "Passwords do not match" ]}).
Proof.
  assert (validated Examples.is_email (<["repeated_password" := JStr "p2"]> Examples.alice)
            "password"
          ≠ validated Examples.is_email
              (<["repeated_password" := JStr "p2"]> Examples.alice) "repeated_password")
    as H by (vm_compute; congruence).
  split; [exact H|].
  apply (C1_rejected_registration_writes_nothing Examples.is_email
           (<["repeated_password" := JStr "p2"]> Examples.alice) "k2" 101
           Examples.store_alice).
  left. exact H.
Defined.

(** The rejections the repository's tests exercise, on the store that holds
    Alice: the same email under another username, and the same username
    under another email. *)
Lemma duplicate_registrations_rejected :
  RegistrationView_post Examples.is_email
    (<["username" := JStr "bob"]> Examples.alice) "k2" 101 Examples.store_alice
  = (Examples.store_alice,
     mkResponse HTTP_400_BAD_REQUEST
       (RDict {[ "error" := VStr "This email is already taken" ]}))
  ∧ RegistrationView_post Examples.is_email
      (<["email" := JStr "b@x.com"]> Examples.alice) "k2" 101 Examples.store_alice
    = (Examples.store_alice,
       mkResponse HTTP_400_BAD_REQUEST
         (RDict {[ "error" := VStr "This username is already taken" ]})).
Proof. split; reflexivity. Qed.

(** A request that passes field validation, repeats its password, and names
    an email and a username no user has, is answered 201, provided the key
    drawn for the token is not in use. *)
Lemma registration_succeeds
    (is_email : string → bool) (request_data : gmap string json)
    (key : string) (now : Z) (s : Store) :
  (Drf.to_internal_value (registration_fields is_email) false request_data).2 = ∅ →
  validated is_email request_data "password"
    = validated is_email request_data "repeated_password" →
  (∀ e, validated is_email request_data "email" = Some (VStr e) →
        Forall (λ u, ¬ User.email u = e) (users s)) →
  (∀ n, validated is_email request_data "username" = Some (VStr n) →
        Forall (λ u, ¬ User.username u = Py.title n) (users s)) →
  Forall (λ t, ¬ Token.key t = key) (tokens s) →
  status_code (RegistrationView_post is_email request_data key now s).2
  = HTTP_201_CREATED.
Proof.
  intros He Hpw Hem Hun Hkey.
  destruct (RegistrationView_post_outcome is_email request_data key now s)
    as [errors Herr Hne | u e p r Hacc Hr Hpr | u e p Hacc Hr Hex | u e p Hacc Hr _ Hex
        | u e p s2 token Hacc Hr _ _ _ | u e p ex Hacc Hr _ _ Htok].
  - by rewrite <- Herr in He.
  - destruct Hacc as [_ _ Hp _ _ _ _ _ _]. rewrite Hp, Hr in Hpw. congruence.
  - destruct Hacc as [_ Hae _ _ _ _ _ _ _].
    apply Exists_exists in Hex as (x & Hx & Hxe).
    by destruct (proj1 (Forall_forall _ _) (Hem e Hae) x Hx).
  - destruct Hacc as [Hau _ _ _ _ _ _ _ _].
    apply Exists_exists in Hex as (x & Hx & Hxe).
    by destruct (proj1 (Forall_forall _ _) (Hun u Hau) x Hx).
  - done.
  - exfalso. unfold Token_get_or_create in Htok. cbn [tokens store_with_account
      insert_profile insert_user] in Htok.
    destruct (Orm.first_where _ (tokens s)) as [t|] eqn:Hf; [done|].
    destruct (Orm.exists_where _ (tokens s)) eqn:Hx; [|done].
    apply OrmFacts.exists_where_true, Exists_exists in Hx as (t & Ht & Htk).
    by destruct (proj1 (Forall_forall _ _) Hkey t Ht).
Qed.

(** A closed instance on which the statement of C2 fails as it is worded:
    Alice registers as "alice" and is stored as "Alice"; logging in with the
    credentials she registered with is refused. *)
Lemma C2_counterexample :
  status_code (RegistrationView_post Examples.is_email Examples.alice "k1" 100
                 empty_store).2 = HTTP_201_CREATED
  ∧ (CustomLogInView_post Examples.alice_login "k2" 101 Examples.store_alice).1
    = Examples.store_alice
  ∧ status_code (CustomLogInView_post Examples.alice_login "k2" 101
                   Examples.store_alice).2 = HTTP_400_BAD_REQUEST.
Proof. by vm_compute. Qed.

(** With the username as it is stored, the same login is answered with the
    token of the registration. *)
Lemma stored_login_example :
  CustomLogInView_post Examples.alice_stored_login "k2" 101 Examples.store_alice
  = (Examples.store_alice,
     mkResponse HTTP_200_OK (auth_data (Token.mk "k1" 1 100) Examples.alice_account)).
Proof. reflexivity. Qed.

(** C2 (amended).  After a successful registration from a well-formed store,
    exactly one user has the registered email and exactly one profile belongs
    to a user with that email; the token of the response authenticates as the
    new user; and every later login with the stored (title-cased) username
    and the validated password answers 200 with the same token and user data,
    leaving the store as it is, so that repeating the login repeats the
    answer. *)
Theorem C2_registration_then_login
    (is_email : string → bool) (request_data : gmap string json)
    (key : string) (now : Z) (s s' : Store) (resp : Response) :
  wf_store s →
  RegistrationView_post is_email request_data key now s = (s', resp) →
  status_code resp = HTTP_201_CREATED →
  ∃ username email password token,
    let account := new_account username email password s in
    accepted_registration is_email request_data username email password
    ∧ resp = mkResponse HTTP_201_CREATED (auth_data token account)
    ∧ Orm.count_where (λ u, User.email u = email) (users s') = 1%nat
    ∧ Orm.count_where
        (λ p, Exists (λ u, User.id u = UserProfile.user p ∧ User.email u = email)
                (users s'))
        (profiles s') = 1%nat
    ∧ (∀ d, perform_authentication (mkRequest (Some (Token.key token)) d) s'
            = Ok (Some account))
    ∧ (∀ (login_data : gmap string json) key' now',
         login_data !! "username" = Some (JStr (User.username account)) →
         login_data !! "password" = Some (JStr password) →
         CustomLogInView_post login_data key' now' s'
         = (s', mkResponse HTTP_200_OK (auth_data token account))).
Proof.
  intros [Hwu Hwp Hwt _ _] Hpost Hstatus.
  pose proof (RegistrationView_post_outcome is_email request_data key now s) as Ho.
  rewrite Hpost in Ho.
  inversion Ho as [errors _ Hne | u e p r _ _ _ | u e p _ _ _ | u e p _ _ _ _
                   | u e p s2 token Hacc Hr Hem Hun Htok
                   | u e p ex Hacc Hr Hem Hun Htok]; subst;
    try discriminate Hstatus.
  2: { by destruct (created_status_not_error ex). }
  exists u, e, p, token. cbn zeta.
  set (account := new_account u e p s) in *.
  set (s1 := store_with_account account now s) in *.
  destruct (Token_get_or_create_Ok _ _ _ _ _ _ Htok) as [Hfirst Hcase].
  destruct (Token_get_or_create_users _ _ _ _ _ _ Htok) as (Hus & Hps & _).
  assert (tokens s' = (tokens s ++ [token])%list
          ∧ Forall (λ t, ¬ Token.key t = Token.key token) (tokens s)) as [Hts Hkeys].
  { destruct Hcase as [->|(-> & -> & _ & Hk)]; [|done].
    exfalso. apply OrmFacts.first_where_Some in Hfirst as [Hin Hu].
    cbn in Hin. apply (proj1 (Forall_forall _ _) Hwt) in Hin. lia. }
  assert (Forall (λ x, ¬ User.id x = User.id account) (users s)) as Hids.
  { eapply Forall_impl; [exact Hwu|]. cbn. intros x Hx. lia. }
  split; [done|]. split; [done|]. rewrite Hus, Hps. cbn [users profiles s1 store_with_account
    insert_profile insert_user].
  split; [|split; [|split]].
  - by apply OrmFacts.count_where_snoc_new.
  - apply OrmFacts.count_where_snoc_new.
    + eapply Forall_impl; [exact Hwp|]. cbn. intros x Hx.
      intros [y [Hy [Hid Hye]]]%Exists_exists.
      apply elem_of_app in Hy as [Hy|Hy].
      * by apply (proj1 (Forall_forall _ _) Hem y).
      * apply list_elem_of_singleton in Hy as ->. cbn in Hid. lia.
    + apply Exists_app. right. by constructor.
  - intros d. unfold perform_authentication. cbn [HTTP_AUTHORIZATION].
    rewrite Hts, (OrmFacts.first_where_snoc_new _ (tokens s) token Hkeys eq_refl).
    assert (Token.user token = User.id account) as ->.
    { by apply OrmFacts.first_where_Some in Hfirst as [_ ?]. }
    rewrite Hus. cbn [users s1 store_with_account insert_profile insert_user].
    by rewrite (OrmFacts.first_where_snoc_new _ (users s) account Hids eq_refl).
  - intros login_data key' now' Hlu Hlp.
    destruct Hacc as [_ _ _ Hune Hust Hunull _ Hpne Hpnull].
    apply (login_with_stored_credentials login_data key' now' s' account p token);
      try done.
    + change (Py.title u ≠ ""). by rewrite PyFacts.title_empty.
    + change (Py.strip (Py.title u) = Py.title u).
      rewrite PyFacts.strip_title. by rewrite Hust.
    + change (Py.has_char "000"%char (Py.title_from false u) = false).
      by rewrite PyFacts.has_null_title_from.
    + rewrite Hus. cbn [users s1 store_with_account insert_profile insert_user].
      by apply OrmFacts.first_where_snoc_new.
Qed.

Lemma empty_store_wf : wf_store empty_store.
Proof. split; cbn; constructor. Qed.

(** C2 on Alice's registration into the empty store. *)
Lemma C2_witness :
  wf_store empty_store
  ∧ RegistrationView_post Examples.is_email Examples.alice "k1" 100 empty_store
    = (Examples.store_alice,
       (RegistrationView_post Examples.is_email Examples.alice "k1" 100 empty_store).2)
  ∧ status_code (RegistrationView_post Examples.is_email Examples.alice "k1" 100
                   empty_store).2 = HTTP_201_CREATED
  ∧ ∃ username email password token,
      let account := new_account username email password empty_store in
      accepted_registration Examples.is_email Examples.alice username email password
      ∧ (RegistrationView_post Examples.is_email Examples.alice "k1" 100 empty_store).2
        = mkResponse HTTP_201_CREATED (auth_data token account)
      ∧ Orm.count_where (λ u, User.email u = email) (users Examples.store_alice) = 1%nat
      ∧ Orm.count_where
          (λ p, Exists (λ u, User.id u = UserProfile.user p ∧ User.email u = email)
                  (users Examples.store_alice))
          (profiles Examples.store_alice) = 1%nat
      ∧ (∀ d, perform_authentication (mkRequest (Some (Token.key token)) d)
                Examples.store_alice = Ok (Some account))
      ∧ (∀ (login_data : gmap string json) key' now',
           login_data !! "username" = Some (JStr (User.username account)) →
           login_data !! "password" = Some (JStr password) →
           CustomLogInView_post login_data key' now' Examples.store_alice
           = (Examples.store_alice, mkResponse HTTP_200_OK (auth_data token account))).
Proof.
  split; [exact empty_store_wf|].
  split; [reflexivity|].
  split; [reflexivity|].
  apply (C2_registration_then_login Examples.is_email Examples.alice "k1" 100
           empty_store Examples.store_alice
           (RegistrationView_post Examples.is_email Examples.alice "k1" 100 empty_store).2
           empty_store_wf); reflexivity.
Defined.

(** ** Deletion *)

Lemma Forall2_fmap_self {A : Type} (R : A → A → Prop) (f : A → A) (l : list A) :
  (∀ x, R x (f x)) → Forall2 R l (f <$> l).
Proof. intros H. induction l; cbn; by constructor. Qed.

(** C3.  Deleting a chat removes exactly the posts that reference it and
    keeps every message, clearing the chat reference of those that pointed to
    it and changing nothing else; deleting a user removes exactly the posts
    they authored and keeps every message, clearing the author reference of
    those they wrote and changing nothing else. *)
Theorem C3_delete_cascades_posts_and_nulls_messages (s : Store) (pk : Z) :
  ((∀ p, p ∈ posts (Chat_delete pk s) ↔ p ∈ posts s ∧ Post.chat p ≠ Some pk)
   ∧ Forall2 (λ m m', Message.id m' = Message.id m
                      ∧ Message.author m' = Message.author m
                      ∧ Message.text m' = Message.text m
                      ∧ Message.chat m'
                        = if decide (Message.chat m = Some pk) then None
                          else Message.chat m)
       (messages s) (messages (Chat_delete pk s)))
  ∧ ((∀ p, p ∈ posts (User_delete pk s) ↔ p ∈ posts s ∧ Post.author p ≠ pk)
     ∧ Forall2 (λ m m', Message.id m' = Message.id m
                        ∧ Message.chat m' = Message.chat m
                        ∧ Message.text m' = Message.text m
                        ∧ Message.author m'
                          = if decide (Message.author m = Some pk) then None
                            else Message.author m)
         (messages s) (messages (User_delete pk s))).
Proof.
  split; split.
  - intros p. cbn. unfold Orm.collect. cbn. rewrite list_elem_of_filter. tauto.
  - cbn. unfold Orm.collect. cbn. apply Forall2_fmap_self.
    intros m. by destruct (decide (Message.chat m = Some pk)).
  - intros p. cbn. unfold Orm.collect. cbn. rewrite list_elem_of_filter.
    split; intros [H1 H2]; split; auto; congruence.
  - cbn. unfold Orm.collect. cbn. apply Forall2_fmap_self.
    intros m. by destruct (decide (Message.author m = Some pk)).
Qed.

(** ** The chat serializer *)

(** C4 (what the code does).  [ChatSerializer] declares [exclude = ("id")],
    a string: every use of the class, to represent a chat or to validate and
    save request data, raises [TypeError], so no representation is produced
    and no chat is created. *)
Theorem C4_ChatSerializer_raises_TypeError
    (s : Store) (c : Chat.t) (request_data : gmap string json) :
  Chat_serializer_data (ChatSerializer s) c
  = Raise (TypeError "The `exclude` option must be a list or tuple. Got str.")
  ∧ Chat_serializer_save (ChatSerializer s) request_data s
    = Raise (TypeError "The `exclude` option must be a list or tuple. Got str.").
Proof. split; reflexivity. Qed.

Lemma ChatSerializer_tuple_exclude_fields s :
  Drf.get_fields (ChatSerializer_tuple_exclude s)
  = Ok [ ("title", Drf.Char false (Drf.new_CharField true false true (Some 100%nat)));
         ("members", Drf.ManyRelated
                       (Drf.mkPrimaryKeyRelatedField false false (User.id <$> users s))) ].
Proof. reflexivity. Qed.

(** With the one-element tuple the tests' comment names, the class does what
    the tests assert: the representation has no "id", and a chat saved from
    request data gets the next key of the sequence whatever "id" the data
    carries. *)
Lemma ChatSerializer_tuple_exclude_hides_id
    (s : Store) (c : Chat.t) (request_data : gmap string json) (d : json) :
  (∃ repr, Chat_serializer_data (ChatSerializer_tuple_exclude s) c = Ok repr
           ∧ repr !! "id" = None
           ∧ repr !! "title" = Some (VStr (Chat.title c))
           ∧ repr !! "members" = Some (VInts (Chat.members c)))
  ∧ Chat_serializer_save (ChatSerializer_tuple_exclude s) (<["id" := d]> request_data) s
    = Chat_serializer_save (ChatSerializer_tuple_exclude s) request_data s
  ∧ ∀ s' c', Chat_serializer_save (ChatSerializer_tuple_exclude s) request_data s
             = Ok (s', c') → Chat.id c' = chats_seq s.
Proof.
  split; [|split].
  - unfold Chat_serializer_data. rewrite ChatSerializer_tuple_exclude_fields.
    eexists; split; [reflexivity|]. by cbn.
  - unfold Chat_serializer_save. rewrite ChatSerializer_tuple_exclude_fields.
    cbn [mbind result_bind]. unfold Drf.run_validation_all.
    rewrite DrfFacts.read_only_input_ignored; [done|].
    intros f Hin. repeat (apply elem_of_cons in Hin as [Hin|Hin]; [by simplify_eq|]).
    by apply elem_of_nil in Hin.
  - intros s' c'. unfold Chat_serializer_save.
    rewrite ChatSerializer_tuple_exclude_fields. cbn [mbind result_bind].
    destruct (Drf.run_validation_all _ _ _); [|done]. by intros [= <- <-].
Qed.

(** ** Posts *)

Lemma PostSerializer_fields s : Drf.get_fields (PostSerializer s) = Ok (Post_fields s).
Proof. reflexivity. Qed.

Lemma Post_fields_NoDup s : NoDup (Post_fields s).*1.
Proof. apply (bool_decide_unpack _). by vm_compute. Qed.

(** Resolve membership in a list of fields that is written out. *)
Ltac in_fields H :=
  repeat (apply elem_of_cons in H as [H|H]; [simplify_eq|]);
  try (by apply elem_of_nil in H).

Section PostValidation.

Context (s : Store) (partial : bool) (data : gmap string json).

Local Abbreviation ret := ((Drf.to_internal_value (Post_fields s) partial data).1).

Lemma Post_read_only_not_validated name :
  name ∈ ["id"; "author"; "created_at"] → ret !! name = None.
Proof.
  intros Hn. apply DrfFacts.validated_value_absent. intros f v Hin.
  assert (f = Drf.ReadOnly) as ->; [|done].
  in_fields Hn; in_fields Hin; done.
Qed.

Lemma Post_title_validated v :
  ret !! "title" = Some v → ∃ t, v = VStr t ∧ t ≠ "".
Proof.
  intros (f & Hin & Hv)%DrfFacts.validated_value_origin.
  in_fields Hin. cbn [Drf.run_validation] in Hv.
  destruct (DrfFacts.CharField_value _ _ _ _ Hv) as (t & -> & Hb & _).
  exists t. split; [done|]. by apply Hb.
Qed.

Lemma Post_content_validated v :
  ret !! "content" = Some v → ∃ t, v = VStr t.
Proof.
  intros (f & Hin & Hv)%DrfFacts.validated_value_origin.
  in_fields Hin. cbn [Drf.run_validation] in Hv.
  destruct (DrfFacts.CharField_value _ _ _ _ Hv) as (t & -> & _). by exists t.
Qed.

Lemma Post_chat_validated v :
  ret !! "chat" = Some v → v = VNone ∨ ∃ n, v = VInt n ∧ n ∈ Chat.id <$> chats s.
Proof.
  intros (f & Hin & Hv)%DrfFacts.validated_value_origin.
  in_fields Hin. cbn [Drf.run_validation] in Hv.
  by apply DrfFacts.Related_value in Hv.
Qed.

Lemma Post_absent_not_validated name :
  partial = true → data !! name = None → ret !! name = None.
Proof.
  intros -> Hd. apply DrfFacts.validated_value_absent. intros f v _.
  by rewrite Hd, DrfFacts.run_validation_absent_partial.
Qed.

End PostValidation.

(** *** [ModelSerializer.update], attribute by attribute *)

Section PostUpdate.

Context (validated_data : gmap string pyval).

Lemma setattr_id name v p : Post.id (Post_setattr name v p) = Post.id p.
Proof. unfold Post_setattr. by repeat case_match. Qed.

Lemma setattr_created_at name v p :
  Post.created_at (Post_setattr name v p) = Post.created_at p.
Proof. unfold Post_setattr. by repeat case_match. Qed.

Lemma setattr_author name v p :
  name ≠ "author" → Post.author (Post_setattr name v p) = Post.author p.
Proof. unfold Post_setattr. intros ?. repeat case_match; try done;
         by case_bool_decide. Qed.

Lemma setattr_title name v p :
  name ≠ "title" → Post.title (Post_setattr name v p) = Post.title p.
Proof. unfold Post_setattr. intros ?. repeat case_match; try done;
         by case_bool_decide. Qed.

Lemma setattr_content name v p :
  name ≠ "content" → Post.content (Post_setattr name v p) = Post.content p.
Proof. unfold Post_setattr. intros ?. repeat case_match; try done;
         by case_bool_decide. Qed.

Lemma setattr_chat name v p :
  name ≠ "chat" → Post.chat (Post_setattr name v p) = Post.chat p.
Proof. unfold Post_setattr. intros ?. repeat case_match; try done;
         by case_bool_decide. Qed.

Local Abbreviation assign := (assign_attributes validated_data).

Lemma assign_cons name names p :
  assign (name :: names) p
  = assign names (match validated_data !! name with
                  | Some v => Post_setattr name v p
                  | None => p
                  end).
Proof. reflexivity. Qed.

(** An attribute whose name carries no validated value keeps its value;
    [id] and [created_at] keep theirs in any case. *)
Lemma assign_frame names p :
  Post.id (assign names p) = Post.id p
  ∧ Post.created_at (assign names p) = Post.created_at p
  ∧ (validated_data !! "author" = None →
     Post.author (assign names p) = Post.author p)
  ∧ (validated_data !! "title" = None → Post.title (assign names p) = Post.title p)
  ∧ (validated_data !! "content" = None →
     Post.content (assign names p) = Post.content p)
  ∧ (validated_data !! "chat" = None → Post.chat (assign names p) = Post.chat p).
Proof.
  revert p. induction names as [|name names IH]; intros p; [done|].
  rewrite assign_cons.
  destruct (validated_data !! name) as [v|] eqn:E; [|apply IH].
  destruct (IH (Post_setattr name v p)) as (-> & -> & Ha & Ht & Hc & Hch).
  rewrite setattr_id, setattr_created_at. do 2 (split; [done|]).
  repeat split; intros Hn.
  - rewrite Ha by done. apply setattr_author. congruence.
  - rewrite Ht by done. apply setattr_title. congruence.
  - rewrite Hc by done. apply setattr_content. congruence.
  - rewrite Hch by done. apply setattr_chat. congruence.
Qed.

(** Titles after assignment: the validated one if there is one. *)
Lemma assign_title names p :
  (∀ v, validated_data !! "title" = Some v → ∃ t, v = VStr t ∧ t ≠ "") →
  Post.title p ≠ "" → Post.title (assign names p) ≠ "".
Proof.
  intros Hv. revert p. induction names as [|name names IH]; intros p Hp; [done|].
  rewrite assign_cons.
  destruct (validated_data !! name) as [v|] eqn:E; [|by apply IH].
  apply IH. destruct (decide (name = "title")) as [->|Hne].
  - destruct (Hv v E) as (t & -> & Ht). done.
  - by rewrite setattr_title.
Qed.

End PostUpdate.


(** *** The view, request by request *)

Lemma PostViewSet_unauthenticated a request now s :
  (∀ u, perform_authentication request s ≠ Ok (Some u)) →
  ∃ detail, PostViewSet a request now s
            = (s, mkResponse HTTP_401_UNAUTHORIZED (RDict detail)).
Proof.
  intros Hu. unfold PostViewSet, initial.
  destruct (perform_authentication request s) as [[u|]|e] eqn:E.
  - by destruct (Hu u).
  - cbn. eauto.
  - unfold perform_authentication in E. cbn.
    repeat case_match; simplify_eq; cbn; eauto.
Qed.

Lemma PostViewSet_authenticated a request now s u :
  perform_authentication request s = Ok (Some u) →
  PostViewSet a request now s
  = match PostViewSet_action a (Some u) request now s with
    | Ok r => r
    | Raise e => (s, handle_exception e)
    end.
Proof. intros Hu. unfold PostViewSet, initial. by rewrite Hu. Qed.

Lemma PostViewSet_update_eq partial pk request s :
  PostViewSet_update partial pk request s
  = (instance ← get_object pk s;
     validated_data ← Drf.run_validation_all (Post_fields s) partial (request_data request);
     Ok (Post_save (ModelSerializer_update (Post_fields s) validated_data instance) s,
         mkResponse HTTP_200_OK
           (RDict (Drf.to_representation (Post_fields s)
                     (Post_getattr
                        (ModelSerializer_update (Post_fields s) validated_data instance)))))).
Proof. reflexivity. Qed.

Lemma get_object_Ok pk s p : get_object pk s = Ok p → p ∈ posts s ∧ Post.id p = pk.
Proof.
  unfold get_object. destruct (Orm.first_where _ _) eqn:E; [|done].
  intros [= <-]. by apply OrmFacts.first_where_Some in E.
Qed.

Lemma run_validation_all_Ok fields partial (data : gmap string json) ret :
  Drf.run_validation_all fields partial data = Ok ret →
  ret = (Drf.to_internal_value fields partial data).1
  ∧ (Drf.to_internal_value fields partial data).2 = ∅.
Proof.
  unfold Drf.run_validation_all.
  destruct (Drf.to_internal_value fields partial data) as [r e].
  case_bool_decide; [|done]. by intros [= <-].
Qed.

Lemma run_validation_all_Raise fields partial (data : gmap string json) ex :
  Drf.run_validation_all fields partial data = Raise ex →
  ex = ValidationError (Drf.to_internal_value fields partial data).2
  ∧ (Drf.to_internal_value fields partial data).2 ≠ ∅.
Proof.
  unfold Drf.run_validation_all.
  destruct (Drf.to_internal_value fields partial data) as [r e].
  case_bool_decide; [done|]. by intros [= <-].
Qed.



Lemma PostViewSet_create_eq request now s u :
  PostViewSet_action create (Some u) request now s
  = (validated_data ← Drf.run_validation_all (Post_fields s) false (request_data request);
     let p := assign_attributes (<["author" := VInt (User.id u)]> validated_data)
                ["title"; "content"; "chat"]
                (Post.mk (posts_seq s) None (User.id u) "" "" now) in
     Ok (insert_post p s,
         mkResponse HTTP_201_CREATED
           (RDict (Drf.to_representation (Post_fields s) (Post_getattr p))))).
Proof.
  cbn [PostViewSet_action]. rewrite PostSerializer_fields. cbn [mbind result_bind].
  destruct (Drf.run_validation_all _ _ _) as [ret|e]; [|done].
  cbn [PostViewSet_perform_create mbind result_bind]. unfold Post_objects_create.
  by rewrite lookup_insert_eq.
Qed.

(** ** Authentication *)

(** C7.  A request that does not authenticate (no Authorization header, or a
    key that resolves to no active user) is answered with status 401 by every
    action of the Post endpoints, and the store stays as it is. *)
Theorem C7_unauthenticated_post_requests_get_401
    (a : action) (request : Request) (now : Z) (s : Store) :
  (∀ u, perform_authentication request s ≠ Ok (Some u)) →
  status_code (PostViewSet a request now s).2 = HTTP_401_UNAUTHORIZED
  ∧ (PostViewSet a request now s).1 = s.
Proof.
  intros Hu. destruct (PostViewSet_unauthenticated a request now s Hu) as [detail ->].
  done.
Qed.

(** C7 on a PATCH without credentials against a store that holds a post. *)
Lemma C7_witness :
  (∀ u, perform_authentication Examples.anonymous_patch Examples.store_post ≠ Ok (Some u))
  ∧ status_code (PostViewSet (partial_update 1) Examples.anonymous_patch 300
                   Examples.store_post).2 = HTTP_401_UNAUTHORIZED
  ∧ (PostViewSet (partial_update 1) Examples.anonymous_patch 300 Examples.store_post).1
    = Examples.store_post.
Proof.
  assert (∀ u, perform_authentication Examples.anonymous_patch Examples.store_post
               ≠ Ok (Some u)) as H by (intros u; discriminate).
  split; [exact H|].
  exact (C7_unauthenticated_post_requests_get_401 (partial_update 1)
           Examples.anonymous_patch 300 Examples.store_post H).
Defined.

(** ** Validation of the chat reference *)




(** ** Server-side fields and partial updates *)

Lemma NoDup_fmap_eq {A B : Type} (f : A → B) (l : list A) x y :
  NoDup (f <$> l) → x ∈ l → y ∈ l → f x = f y → x = y.
Proof.
  induction l as [|a l IH]; [by intros _ ?%elem_of_nil|].
  rewrite fmap_cons, NoDup_cons. intros [Ha Hnd] Hx Hy Hf.
  apply elem_of_cons in Hx as [->|Hx]; apply elem_of_cons in Hy as [->|Hy]; auto.
  - destruct Ha. rewrite Hf. by apply list_elem_of_fmap_2.
  - destruct Ha. rewrite <- Hf. by apply list_elem_of_fmap_2.
Qed.


Lemma Post_save_posts p' s :
  posts (Post_save p' s)
  = (λ q, if decide (Post.id q = Post.id p') then p' else q) <$> posts s.
Proof. reflexivity. Qed.


(** A successful update, full or partial: the instance found under the key
    is assigned the validated values and saved. *)
Lemma PostViewSet_update_Ok partial pk request s s' resp :
  PostViewSet_update partial pk request s = Ok (s', resp) →
  ∃ p ret,
    get_object pk s = Ok p
    ∧ ret = (Drf.to_internal_value (Post_fields s) partial (request_data request)).1
    ∧ (Drf.to_internal_value (Post_fields s) partial (request_data request)).2 = ∅
    ∧ s' = Post_save (ModelSerializer_update (Post_fields s) ret p) s
    ∧ resp = mkResponse HTTP_200_OK
               (RDict (Drf.to_representation (Post_fields s)
                         (Post_getattr (ModelSerializer_update (Post_fields s) ret p)))).
Proof.
  rewrite PostViewSet_update_eq.
  destruct (get_object pk s) as [p|] eqn:Hp; [|done]. cbn [mbind result_bind].
  destruct (Drf.run_validation_all _ _ _) as [ret|] eqn:Hv; [|done].
  cbn [mbind result_bind]. intros [= <- <-].
  apply run_validation_all_Ok in Hv as [-> He]. eexists _, _. by repeat split.
Qed.

Lemma updated_instance_frame s partial (data : gmap string json) p :
  let p' := ModelSerializer_update (Post_fields s)
              (Drf.to_internal_value (Post_fields s) partial data).1 p in
  Post.id p' = Post.id p
  ∧ Post.author p' = Post.author p
  ∧ Post.created_at p' = Post.created_at p
  ∧ (partial = true → data !! "title" = None → Post.title p' = Post.title p)
  ∧ (partial = true → data !! "content" = None → Post.content p' = Post.content p)
  ∧ (partial = true → data !! "chat" = None → Post.chat p' = Post.chat p).
Proof.
  cbn zeta. unfold ModelSerializer_update.
  destruct (assign_frame (Drf.to_internal_value (Post_fields s) partial data).1
              (Post_fields s).*1 p) as (Hi & Hc & Ha & Ht & Hco & Hch).
  split; [done|]. split; [|split; [done|]].
  - apply Ha. apply Post_read_only_not_validated. set_solver.
  - repeat split; intros Hp Hd.
    + apply Ht. by apply Post_absent_not_validated.
    + apply Hco. by apply Post_absent_not_validated.
    + apply Hch. by apply Post_absent_not_validated.
Qed.



Lemma store_post_wf : wf_store Examples.store_post.
Proof.
  split; cbn; repeat (apply Forall_cons; split; [done|]); try apply Forall_nil_2.
  apply NoDup_singleton.
Qed.


(** The forged request does create a post, so the first part of C6 is about
    something: its author is Alice (key 1), not the 77 of the request. *)
Lemma forged_author_request_creates :
  status_code (PostViewSet create Examples.forged_author_request 300
                 Examples.store_post).2 = HTTP_201_CREATED
  ∧ Post.author <$> posts (PostViewSet create Examples.forged_author_request 300
                             Examples.store_post).1 = [1; 1].
Proof. by vm_compute. Qed.

(** C10.  A PATCH by an authenticated caller on an existing post, none of
    whose supplied fields is rejected by its validation, is answered with
    status 200 and the representation of the updated post; the post keeps
    its key, author and creation time, and keeps the title, the content and
    the chat reference whenever the request data omit them; every other post
    is left as it is. *)
Theorem C10_partial_update_keeps_omitted_fields
    (s : Store) (request : Request) (now : Z) (u : User.t) (pk : Z) (p : Post.t) :
  wf_store s →
  perform_authentication request s = Ok (Some u) →
  get_object pk s = Ok p →
  (∀ name f detail, (name, f) ∈ Post_fields s →
     Drf.run_validation f true (request_data request !! name) ≠ Drf.Invalid detail) →
  ∃ p',
    PostViewSet (partial_update pk) request now s
    = (Post_save p' s,
       mkResponse HTTP_200_OK
         (RDict (Drf.to_representation (Post_fields s) (Post_getattr p'))))
    ∧ posts (Post_save p' s)
      = (λ q, if decide (Post.id q = pk) then p' else q) <$> posts s
    ∧ (∀ q, q ∈ posts s → Post.id q = pk → q = p)
    ∧ same_author_and_time p p'
    ∧ (request_data request !! "title" = None → Post.title p' = Post.title p)
    ∧ (request_data request !! "content" = None → Post.content p' = Post.content p)
    ∧ (request_data request !! "chat" = None → Post.chat p' = Post.chat p).
Proof.
  intros Hwf Hu Hp Hvalid.
  rewrite (PostViewSet_authenticated _ _ _ _ u Hu). cbn [PostViewSet_action].
  rewrite PostViewSet_update_eq, Hp. cbn [mbind result_bind].
  apply DrfFacts.no_errors_iff in Hvalid. unfold Drf.run_validation_all.
  destruct (Drf.to_internal_value (Post_fields s) true (request_data request))
    as [ret errors] eqn:Ht. cbn [snd] in Hvalid. subst errors.
  rewrite bool_decide_eq_true_2 by done. cbn [mbind result_bind].
  pose proof (updated_instance_frame s true (request_data request) p) as Hframe.
  rewrite Ht in Hframe. cbn [fst] in Hframe. cbn zeta in Hframe.
  destruct Hframe as (Hi & Ha & Hc & Hti & Hco & Hch).
  pose proof (get_object_Ok _ _ _ Hp) as [Hin Hid].
  eexists. split; [reflexivity|]. split; [|split; [|split]].
  - rewrite Post_save_posts. by rewrite Hi, Hid.
  - intros q Hq Hqid.
    apply (NoDup_fmap_eq Post.id (posts s) q p (wf_post_ids s Hwf) Hq Hin). congruence.
  - by repeat split.
  - repeat split; auto.
Qed.

Lemma title_patch_valid name f detail :
  (name, f) ∈ Post_fields Examples.store_post →
  Drf.run_validation f true (request_data Examples.title_patch !! name)
  ≠ Drf.Invalid detail.
Proof. intros Hin. in_fields Hin; by vm_compute. Qed.

(** C10 on PATCH {title: "New"} by Alice on the post with key 1: the content
    "C" and the chat 1 stay. *)
Lemma C10_witness :
  wf_store Examples.store_post
  ∧ perform_authentication Examples.title_patch Examples.store_post
    = Ok (Some Examples.alice_account)
  ∧ get_object 1 Examples.store_post = Ok (Post.mk 1 (Some 1) 1 "T" "C" 200)
  ∧ (∀ name f detail, (name, f) ∈ Post_fields Examples.store_post →
       Drf.run_validation f true (request_data Examples.title_patch !! name)
       ≠ Drf.Invalid detail)
  ∧ ∃ p',
      PostViewSet (partial_update 1) Examples.title_patch 300 Examples.store_post
      = (Post_save p' Examples.store_post,
         mkResponse HTTP_200_OK
           (RDict (Drf.to_representation (Post_fields Examples.store_post)
                     (Post_getattr p'))))
      ∧ posts (Post_save p' Examples.store_post)
        = (λ q, if decide (Post.id q = 1) then p' else q) <$> posts Examples.store_post
      ∧ (∀ q, q ∈ posts Examples.store_post → Post.id q = 1 →
              q = Post.mk 1 (Some 1) 1 "T" "C" 200)
      ∧ same_author_and_time (Post.mk 1 (Some 1) 1 "T" "C" 200) p'
      ∧ (request_data Examples.title_patch !! "title" = None →
         Post.title p' = Post.title (Post.mk 1 (Some 1) 1 "T" "C" 200))
      ∧ (request_data Examples.title_patch !! "content" = None →
         Post.content p' = Post.content (Post.mk 1 (Some 1) 1 "T" "C" 200))
      ∧ (request_data Examples.title_patch !! "chat" = None →
         Post.chat p' = Post.chat (Post.mk 1 (Some 1) 1 "T" "C" 200)).
Proof.
  split; [exact store_post_wf|]. split; [reflexivity|]. split; [reflexivity|].
  split; [exact title_patch_valid|].
  exact (C10_partial_update_keeps_omitted_fields Examples.store_post Examples.title_patch
           300 Examples.alice_account 1 (Post.mk 1 (Some 1) 1 "T" "C" 200)
           store_post_wf eq_refl eq_refl title_patch_valid).
Defined.

(** The example of the specification: after PATCH {title: "New"} the post
    reads title "New", content "C". *)
Lemma title_patch_example :
  status_code (PostViewSet (partial_update 1) Examples.title_patch 300
                 Examples.store_post).2 = HTTP_200_OK
  ∧ posts (PostViewSet (partial_update 1) Examples.title_patch 300
             Examples.store_post).1
    = [Post.mk 1 (Some 1) 1 "New" "C" 200].
Proof. by vm_compute. Qed.

(** The validations the repository's serializer tests exercise, on the store
    with one chat: title and content missing; a chat key no chat has; an
    empty title. *)
Lemma post_serializer_examples :
  let errors (d : gmap string json) :=
    (Drf.to_internal_value (Post_fields Examples.store_chat) false d).2 in
  errors {[ "chat" := JInt 1 ]}
  = {[ "title" := VStrs ["This field is required."];
       "content" := VStrs ["This field is required."] ]}
  ∧ errors {[ "chat" := JInt 9999; "title" := JStr "Invalid Chat Post";
              "content" := JStr "Content." ]}
    = {[ "chat" := VStrs [Drf.does_not_exist "9999"] ]}
  ∧ errors {[ "chat" := JInt 1; "title" := JStr ""; "content" := JStr "Content." ]}
    = {[ "title" := VStrs ["This field may not be blank."] ]}.
Proof. by vm_compute. Qed.

(** A PATCH one of whose supplied fields is rejected changes nothing. *)
Lemma partial_update_rejected_changes_nothing
    (s : Store) (request : Request) (now : Z) (u : User.t) (pk : Z) (p : Post.t) :
  perform_authentication request s = Ok (Some u) →
  get_object pk s = Ok p →
  (∃ name f detail, (name, f) ∈ Post_fields s
     ∧ Drf.run_validation f true (request_data request !! name) = Drf.Invalid detail) →
  (PostViewSet (partial_update pk) request now s).1 = s
  ∧ status_code (PostViewSet (partial_update pk) request now s).2 = HTTP_400_BAD_REQUEST.
Proof.
  intros Hu Hp (name & f & detail & Hin & Hinv).
  rewrite (PostViewSet_authenticated _ _ _ _ u Hu). cbn [PostViewSet_action].
  rewrite PostViewSet_update_eq, Hp. cbn [mbind result_bind].
  destruct (Drf.run_validation_all _ _ _) as [ret|e] eqn:Hv.
  - apply run_validation_all_Ok in Hv as [_ He].
    by destruct (proj1 (DrfFacts.no_errors_iff _ _ _) He name f detail Hin).
  - apply run_validation_all_Raise in Hv as [-> _]. done.
Qed.

(** ** Names *)

Module SplitFacts.
Import Py.



Lemma split_cons2 c c2 s :
  split (String c (String c2 s))
  = if isspace c then split (String c2 s)
    else if isspace c2 then String c "" :: split (String c2 s)
         else match split (String c2 s) with
              | t :: ts => String c t :: ts
              | [] => [String c ""]
              end.
Proof. reflexivity. Qed.




End SplitFacts.



(** ** Names: tokens of a username and the display name *)

Module NameFacts.
Import Py.

(** The tokens of [str.split] are non-empty and hold no whitespace. *)
Lemma split_tokens s : Forall (λ t, t ≠ "" ∧ no_space t = true) (split s).
Proof.
  induction s as [|c s IH]; [constructor|].
  destruct s as [|c2 s2].
  - cbn. destruct (isspace c) eqn:E; repeat constructor; [done|]. cbn. by rewrite E.
  - rewrite SplitFacts.split_cons2.
    destruct (isspace c) eqn:E; [done|].
    destruct (isspace c2) eqn:E2.
    + constructor; [|done]. split; [done|]. cbn. by rewrite E.
    + destruct (split (String c2 s2)) as [|t ts].
      * repeat constructor; [done|]. cbn. by rewrite E.
      * apply Forall_cons in IH as [[_ Ht] Hts]. constructor; [|done].
        split; [done|]. cbn. by rewrite E, Ht.
Qed.

(** A string that is not all whitespace has a token. *)
Lemma split_nil s : split s = [] → strip s = "".
Proof.
  induction s as [|c s IH]; [done|].
  destruct s as [|c2 s2].
  - cbn. by destruct (isspace c).
  - rewrite SplitFacts.split_cons2. unfold strip. cbn [lstrip].
    destruct (isspace c) eqn:E; [exact IH|].
    destruct (isspace c2); [done|]. by destruct (split (String c2 s2)).
Qed.

Lemma rstrip_no_space t : no_space t = true → rstrip t = t.
Proof.
  induction t as [|c t IH]; [done|]. cbn.
  intros [Hc Ht]%andb_prop. rewrite (IH Ht).
  apply negb_true_iff in Hc. rewrite Hc. by destruct t.
Qed.

Lemma rstrip_app a b : rstrip b = b → b ≠ "" → rstrip (a ++ b) = a ++ b.
Proof.
  intros Hb Hne. induction a as [|c a IH]; [done|].
  change (String c a ++ b) with (String c (a ++ b)). cbn [rstrip]. rewrite IH.
  destruct (a ++ b) eqn:E; [|done]. destruct a; [by destruct Hne|done].
Qed.

Lemma rstrip_app_space a c : isspace c = true → rstrip (a ++ String c "") = rstrip a.
Proof.
  intros Hc. induction a as [|c' a IH].
  { change ("" ++ String c "") with (String c ""). cbn. by rewrite Hc. }
  change (String c' a ++ String c "") with (String c' (a ++ String c "")).
  cbn [rstrip]. by rewrite IH.
Qed.

Lemma join_cons2 sep x y rest : join sep (x :: y :: rest) = x ++ sep ++ join sep (y :: rest).
Proof. reflexivity. Qed.

Lemma join_tokens t ts :
  Forall (λ t, t ≠ "" ∧ no_space t = true) (t :: ts) →
  rstrip (join " " (t :: ts)) = join " " (t :: ts) ∧ join " " (t :: ts) ≠ "".
Proof.
  revert t. induction ts as [|t2 ts IH]; intros t [[Hne Ht] Hts]%Forall_cons.
  - cbn. split; [by apply rstrip_no_space|done].
  - rewrite join_cons2. destruct (IH t2 Hts) as [Hr Hj]. split.
    + apply rstrip_app; [|done]. by apply (rstrip_app " ").
    + by destruct t.
Qed.

(** The display name of the two views: the first and the last name joined
    and trimmed are the tokens joined by single spaces. *)
Lemma display_name tokens :
  Forall (λ t, t ≠ "" ∧ no_space t = true) tokens →
  strip (first_name_of tokens ++ " " ++ last_name_of tokens) = join " " tokens.
Proof.
  unfold first_name_of, last_name_of.
  destruct tokens as [|t ts]; [done|]. intros Hall.
  pose proof Hall as [[Hne Ht] Hts]%Forall_cons.
  rewrite bool_decide_eq_true_2 by (cbn; lia). cbn [lookup list_lookup from_option].
  unfold id.
  assert (∀ r, lstrip (t ++ r) = t ++ r) as Hl.
  { intros r. destruct t as [|c t']; [done|].
    change (String c t' ++ r) with (String c (t' ++ r)). cbn in Ht |- *.
    apply andb_prop in Ht as [Hc _]. apply negb_true_iff in Hc. by rewrite Hc. }
  unfold strip. rewrite Hl.
  destruct ts as [|t2 ts].
  - rewrite bool_decide_eq_false_2 by (cbn; lia).
    change (t ++ " " ++ "") with (t ++ String " " ""). rewrite rstrip_app_space by done.
    by apply rstrip_no_space.
  - rewrite bool_decide_eq_true_2 by (cbn; lia). cbn [drop].
    rewrite join_cons2. destruct (join_tokens t2 ts Hts) as [Hr Hj].
    apply rstrip_app; [|done]. by apply (rstrip_app " ").
Qed.

(** The first name of a trimmed, non-empty username: a token. *)
Lemma first_name_token u :
  strip u ≠ "" →
  first_name_of (split u) ≠ "" ∧ no_space (first_name_of (split u)) = true.
Proof.
  intros Hu. pose proof (split_tokens u) as Hall.
  destruct (split u) as [|t ts] eqn:E; [by apply split_nil in E|].
  apply Forall_cons in Hall as [Ht _]. unfold first_name_of.
  by rewrite bool_decide_eq_true_2 by (cbn; lia).
Qed.

End NameFacts.

(** ** The stored names *)

Module TitleFacts.
Import Py.











End TitleFacts.



(** ** What each event does to the store *)

Lemma CustomLogInView_post_store (request_data : gmap string json) key now s :
  (CustomLogInView_post request_data key now s).1 = s
  ∨ ∃ user token, user ∈ users s ∧ Token.user token = User.id user
                  ∧ (CustomLogInView_post request_data key now s).1 = insert_token token s.
Proof.
  unfold CustomLogInView_post.
  destruct (Drf.run_validation_all _ _ _ ≫= _) as [user|e] eqn:E; [|by left].
  assert (user ∈ users s) as Hin.
  { destruct (Drf.run_validation_all _ _ _) as [attrs|]; [|done].
    cbn [mbind result_bind] in E. unfold UsernameAuthTokenSerializer_validate in E.
    repeat case_match; simplify_eq.
    match goal with H : authenticate _ _ _ = Some _ |- _ => rename H into Ha end.
    unfold authenticate in Ha.
    destruct (Orm.first_where _ (users s)) as [u'|] eqn:Hf; [|done].
    cbn in Ha. case_match; simplify_eq.
    by apply OrmFacts.first_where_Some in Hf as [? _]. }
  destruct (Token_get_or_create (User.id user) key now s) as [[s1 token]|ex] eqn:Ht;
    [|by left].
  apply Token_get_or_create_Ok in Ht as [_ [->|(-> & -> & _)]]; [by left|].
  right. by exists user, (Token.mk key (User.id user) now).
Qed.

Section AssignTitle.

Context (validated_data : gmap string pyval) (t : string).
Hypothesis Ht : validated_data !! "title" = Some (VStr t).

Lemma assign_title_kept names p :
  Post.title p = t → Post.title (assign_attributes validated_data names p) = t.
Proof.
  revert p. induction names as [|name names IH]; intros p Hp; [done|].
  rewrite assign_cons. apply IH.
  destruct (validated_data !! name) as [v|] eqn:E; [|done].
  destruct (decide (name = "title")) as [->|Hne].
  - rewrite Ht in E. by injection E as <-.
  - by rewrite setattr_title.
Qed.

Lemma assign_title_present names p :
  "title" ∈ names → Post.title (assign_attributes validated_data names p) = t.
Proof.
  revert p. induction names as [|name names IH]; intros p; [by intros ?%elem_of_nil|].
  rewrite assign_cons. intros [<-|Hin]%elem_of_cons.
  - rewrite Ht. by apply assign_title_kept.
  - by apply IH.
Qed.

End AssignTitle.

Lemma Post_title_required s (data : gmap string json) ret :
  Drf.run_validation_all (Post_fields s) false data = Ok ret →
  ∃ t, ret !! "title" = Some (VStr t) ∧ t ≠ "".
Proof.
  intros [-> He]%run_validation_all_Ok.
  set (f := Drf.new_CharField true false true (Some 200%nat)).
  assert (("title", Drf.Char false f) ∈ Post_fields s) as Hin by (unfold Post_fields; set_solver).
  pose proof (λ d, proj1 (DrfFacts.no_errors_iff _ _ _) He "title" _ d Hin) as Hne.
  cbn [Drf.run_validation] in Hne.
  destruct (Drf.CharField_run_validation f false (data !! "title")) as [|v|d] eqn:E.
  - by apply DrfFacts.CharField_required in E.
  - destruct (DrfFacts.CharField_value _ _ _ _ E) as (t & -> & Hb & _).
    exists t. split; [|by apply Hb].
    by apply (DrfFacts.validated_value_present _ _ _ "title" (Drf.Char false f));
      [apply Post_fields_NoDup|..].
  - by destruct (Hne d).
Qed.

(** The outcomes of a request to the Post endpoints, as changes of the
    table of posts; no other table changes. *)
Lemma PostViewSet_store a request now s :
  (PostViewSet a request now s).1 = s
  ∨ (∃ p, (PostViewSet a request now s).1 = insert_post p s
          ∧ Post.id p = posts_seq s ∧ Post.title p ≠ "")
  ∨ (∃ p p', p ∈ posts s ∧ same_author_and_time p p'
             ∧ (Post.title p ≠ "" → Post.title p' ≠ "")
             ∧ (PostViewSet a request now s).1 = Post_save p' s)
  ∨ (∃ pk, (PostViewSet a request now s).1 = Post_delete pk s).
Proof.
  destruct (perform_authentication request s) as [[u|]|e] eqn:Hu.
  2,3: left; destruct (PostViewSet_unauthenticated a request now s) as [detail ->];
    [intros u'; congruence|done].
  rewrite (PostViewSet_authenticated _ _ _ _ u Hu).
  assert (∀ partial pk,
            let r := match PostViewSet_update partial pk request s with
                     | Ok r => r | Raise e => (s, handle_exception e) end in
            r.1 = s
            ∨ (∃ p p', p ∈ posts s ∧ same_author_and_time p p'
                       ∧ (Post.title p ≠ "" → Post.title p' ≠ "") ∧ r.1 = Post_save p' s))
    as Hupd.
  { intros partial pk. cbn zeta.
    destruct (PostViewSet_update partial pk request s) as [[s' resp]|e] eqn:E; [|by left].
    apply PostViewSet_update_Ok in E as (p & ret & Hp & -> & _ & -> & _).
    right. apply get_object_Ok in Hp as [Hp _].
    eexists p, _. split; [done|].
    destruct (updated_instance_frame s partial (request_data request) p)
      as (Hi & Ha & Hc & _).
    split; [exact (conj Hi (conj Ha Hc))|]. split; [|done].
    apply assign_title. apply Post_title_validated. }
  destruct a as [|pk| |pk|pk|pk]; cbn [PostViewSet_action].
  - rewrite PostSerializer_fields. by left.
  - destruct (get_object pk s); cbn [mbind result_bind];
      rewrite ?PostSerializer_fields; by left.
  - fold (PostViewSet_action create (Some u) request now s).
    rewrite PostViewSet_create_eq.
    destruct (Drf.run_validation_all _ _ _) as [ret|e] eqn:Hv; cbn [mbind result_bind];
      [|by left].
    right; left. destruct (Post_title_required s _ ret Hv) as (t & Ht & Hne).
    eexists. split; [reflexivity|].
    destruct (assign_frame (<["author" := VInt (User.id u)]> ret)
                ["title"; "content"; "chat"]
                (Post.mk (posts_seq s) None (User.id u) "" "" now)) as (-> & _).
    split; [done|].
    rewrite (assign_title_present _ t); [done| |set_solver].
    by rewrite lookup_insert_ne.
  - destruct (Hupd false pk) as [H|H]; [by left|]. right; right; by left.
  - destruct (Hupd true pk) as [H|H]; [by left|]. right; right; by left.
  - destruct (get_object pk s) as [p|]; cbn [mbind result_bind]; [|by left].
    right; right; right. by eexists.
Qed.

Lemma SaveChat_store (request_data : gmap string json) s :
  Chat_serializer_save (ChatSerializer s) request_data s
  = Raise (TypeError "The `exclude` option must be a list or tuple. Got str.").
Proof. reflexivity. Qed.

(** ** Invariants of the reachable stores *)

Lemma Forall_filter_keep {A : Type} (P Q : A → Prop) `{∀ x, Decision (Q x)} (l : list A) :
  Forall P l → Forall P (filter Q l).
Proof.
  intros Hl. apply Forall_forall. intros x [_ Hx]%list_elem_of_filter.
  by apply (proj1 (Forall_forall _ _) Hl).
Qed.

Lemma NoDup_fmap_filter {A B : Type} (f : A → B) (Q : A → Prop) `{∀ x, Decision (Q x)}
    (l : list A) :
  NoDup (f <$> l) → NoDup (f <$> filter Q l).
Proof.
  intros Hl. eapply sublist_NoDup; [exact Hl|].
  apply fmap_sublist, sublist_filter.
Qed.

Lemma NoDup_fmap_snoc {A B : Type} (f : A → B) (l : list A) (x : A) :
  NoDup (f <$> l) → Forall (λ y, ¬ f y = f x) l → NoDup (f <$> (l ++ [x])%list).
Proof.
  intros Hl Hx. rewrite fmap_app. apply NoDup_app. split; [done|]. split.
  - intros b (y & -> & Hy)%list_elem_of_fmap Hb. cbn in Hb.
    apply list_elem_of_singleton in Hb.
    by apply (proj1 (Forall_forall _ _) Hx y).
  - cbn. apply NoDup_singleton.
Qed.

Lemma Forall_lt_weaken {A : Type} (f : A → Z) (n : Z) (l : list A) :
  Forall (λ x, f x < n) l → Forall (λ x, f x < n + 1) l.
Proof. intros H. eapply Forall_impl; [exact H|]. intros x. cbn. lia. Qed.

Lemma Forall_lt_ne {A : Type} (f : A → Z) (n : Z) (l : list A) :
  Forall (λ x, f x < n) l → Forall (λ x, ¬ f x = n) l.
Proof. intros H. eapply Forall_impl; [exact H|]. intros x. cbn. lia. Qed.

Section WellFormed.

Lemma wf_store_with_account account now s :
  User.id account = users_seq s → wf_store s → wf_store (store_with_account account now s).
Proof.
  intros Hid [Hu Hp Ht Hpo Hn]. split; cbn; try done.
  - apply Forall_app. split; [by apply Forall_lt_weaken|].
    apply Forall_singleton. lia.
  - apply Forall_app. split; [by apply Forall_lt_weaken|].
    apply Forall_singleton. cbn. lia.
  - by apply Forall_lt_weaken.
Qed.

Lemma wf_insert_token token s :
  Token.user token < users_seq s → wf_store s → wf_store (insert_token token s).
Proof.
  intros Hid [Hu Hp Ht Hpo Hn]. split; cbn; try done.
  apply Forall_app. split; [done|]. by apply Forall_singleton.
Qed.

Lemma wf_insert_post p s :
  Post.id p = posts_seq s → wf_store s → wf_store (insert_post p s).
Proof.
  intros Hid [Hu Hp Ht Hpo Hn]. split; cbn; try done.
  - apply Forall_app. split; [by apply Forall_lt_weaken|].
    apply Forall_singleton. lia.
  - apply NoDup_fmap_snoc; [done|]. rewrite Hid. by apply Forall_lt_ne.
Qed.

Lemma Post_save_ids p p' s :
  Post.id p' = Post.id p → Post.id <$> posts (Post_save p' s) = Post.id <$> posts s.
Proof.
  intros Hid. rewrite Post_save_posts, <- list_fmap_compose.
  apply list_fmap_ext. intros i q _. cbn. by case_decide.
Qed.

Lemma wf_Post_save p p' s :
  Post.id p' = Post.id p → wf_store s → wf_store (Post_save p' s).
Proof.
  intros Hid [Hu Hp Ht Hpo Hn]. split; try done.
  - rewrite Post_save_posts. apply Forall_fmap.
    eapply Forall_impl; [exact Hpo|]. intros q Hq. cbn.
    case_decide as E; [by rewrite <- E|done].
  - by rewrite (Post_save_ids p p' s Hid).
Qed.

Lemma wf_Post_delete pk s : wf_store s → wf_store (Post_delete pk s).
Proof.
  intros [Hu Hp Ht Hpo Hn]. split; cbn; try done.
  - by apply Forall_filter_keep.
  - by apply NoDup_fmap_filter.
Qed.

Lemma wf_Chat_delete pk s : wf_store s → wf_store (Chat_delete pk s).
Proof.
  intros [Hu Hp Ht Hpo Hn]. split; cbn; try done.
  - by apply Forall_filter_keep.
  - by apply NoDup_fmap_filter.
Qed.

Lemma wf_User_delete pk s : wf_store s → wf_store (User_delete pk s).
Proof.
  intros [Hu Hp Ht Hpo Hn]. split; cbn; try done; try by apply Forall_filter_keep.
  by apply NoDup_fmap_filter.
Qed.

End WellFormed.

Section Invariant.

Lemma inv_store_with_account u e p now s :
  u ≠ "" → e ≠ "" →
  Forall (λ x, ¬ User.email x = e) (users s) →
  Forall (λ x, ¬ User.username x = Py.title u) (users s) →
  store_invariant s → store_invariant (store_with_account (new_account u e p s) now s).
Proof.
  intros Hu He Hem Hun [Hp Hn Hm Hpe Hdn Hde]. split; cbn; try done.
  - apply Forall_app. split; [done|]. apply Forall_singleton. cbn.
    by rewrite PyFacts.title_empty.
  - apply Forall_app. split; [done|]. by apply Forall_singleton.
  - apply Forall_app. split; [done|]. by apply Forall_singleton.
  - by apply NoDup_fmap_snoc.
  - by apply NoDup_fmap_snoc.
Qed.

Lemma inv_insert_token token s : store_invariant s → store_invariant (insert_token token s).
Proof. by intros []. Qed.

Lemma inv_insert_post p s :
  Post.title p ≠ "" → store_invariant s → store_invariant (insert_post p s).
Proof.
  intros Ht [Hp Hn Hm Hpe Hdn Hde]. split; cbn; try done.
  apply Forall_app. split; [done|]. by apply Forall_singleton.
Qed.

Lemma inv_Post_save p' s :
  Post.title p' ≠ "" → store_invariant s → store_invariant (Post_save p' s).
Proof.
  intros Ht [Hp Hn Hm Hpe Hdn Hde]. split; try done.
  rewrite Post_save_posts. apply Forall_fmap. eapply Forall_impl; [exact Hp|].
  intros q Hq. cbn. by case_decide.
Qed.

Lemma inv_Post_delete pk s : store_invariant s → store_invariant (Post_delete pk s).
Proof.
  intros [Hp Hn Hm Hpe Hdn Hde]. split; cbn; try done.
  by apply Forall_filter_keep.
Qed.

Lemma inv_Chat_delete pk s : store_invariant s → store_invariant (Chat_delete pk s).
Proof.
  intros [Hp Hn Hm Hpe Hdn Hde]. split; cbn; try done;
    by apply Forall_filter_keep.
Qed.

Lemma inv_User_delete pk s : store_invariant s → store_invariant (User_delete pk s).
Proof.
  intros [Hp Hn Hm Hpe Hdn Hde]. split; cbn; try done;
    try (by apply Forall_filter_keep); try (by apply NoDup_fmap_filter).
Qed.

Lemma inv_insert_chat c s : store_invariant s → store_invariant (insert_chat c s).
Proof. by intros []. Qed.

End Invariant.

Section Reachable.

Context (is_email : string → bool).

Lemma apply_preserves ev now s s' :
  apply is_email ev now s = Some s' →
  wf_store s ∧ store_invariant s → wf_store s' ∧ store_invariant s'.
Proof.
  intros Hap [Hwf Hinv].
  destruct ev as [d key|d key|a request|d|pk|pk|title members|chat author text];
    cbn [apply] in Hap.
  - injection Hap as <-.
    pose proof (RegistrationView_post_outcome is_email d key now s) as Ho.
    destruct (RegistrationView_post is_email d key now s) as [s1 resp]. cbn [fst].
    inversion Ho as [errors _ Hne | u e p r _ _ _ | u e p _ _ _ | u e p _ _ _ _
                     | u e p s2 token Hacc Hr Hem Hun Htok
                     | u e p ex Hacc Hr Hem Hun Htok]; subst; try done.
    + destruct Hacc as [_ _ _ Hu _ _ He _ _].
      pose proof (wf_store_with_account (new_account u e p s) now s eq_refl Hwf) as Hwf1.
      pose proof (inv_store_with_account u e p now s Hu He Hem Hun Hinv) as Hinv1.
      apply Token_get_or_create_Ok in Htok as [_ [->|(-> & -> & _)]]; [done|].
      split; [|by apply inv_insert_token].
      apply wf_insert_token; [|done]. cbn. lia.
    + destruct Hacc as [_ _ _ Hu _ _ He _ _].
      split; [by apply wf_store_with_account|by apply inv_store_with_account].
  - injection Hap as <-.
    destruct (CustomLogInView_post_store d key now s)
      as [->|(user & token & Hin & Hid & ->)]; [done|].
    split; [|by apply inv_insert_token].
    apply wf_insert_token; [|done]. rewrite Hid.
    by apply (proj1 (Forall_forall _ _) (wf_users s Hwf)).
  - injection Hap as <-.
    destruct (PostViewSet_store a request now s)
      as [->|[(p & -> & Hid & Ht)|[(p & p' & Hin & (Hid & _) & Ht & ->)|(pk & ->)]]].
    + done.
    + split; [by apply wf_insert_post|by apply inv_insert_post].
    + split; [by apply (wf_Post_save p)|].
      apply inv_Post_save; [|done]. apply Ht.
      by apply (proj1 (Forall_forall _ _) (inv_post_titles s Hinv)).
    + split; [by apply wf_Post_delete|by apply inv_Post_delete].
  - rewrite SaveChat_store in Hap. by injection Hap as <-.
  - injection Hap as <-. split; [by apply wf_User_delete|by apply inv_User_delete].
  - injection Hap as <-. split; [by apply wf_Chat_delete|by apply inv_Chat_delete].
  - case_match; [|done]. injection Hap as <-.
    split; [by destruct Hwf|by apply inv_insert_chat].
  - case_match; [|done]. injection Hap as <-. split; [by destruct Hwf|by destruct Hinv].
Qed.

(** Whatever happens, a post of the store afterwards either was created
    by the event, with the next key of the sequence, or has the author and
    the creation time of the post of that key before. *)
Lemma apply_keeps_author_and_time ev now s s' p' :
  apply is_email ev now s = Some s' →
  p' ∈ posts s' →
  Post.id p' = posts_seq s ∨ ∃ p, p ∈ posts s ∧ same_author_and_time p p'.
Proof.
  assert (∀ q, q ∈ posts s → ∃ p, p ∈ posts s ∧ same_author_and_time p q) as Hsame.
  { intros q Hq. exists q. by repeat split. }
  intros Hap Hin.
  destruct ev as [d key|d key|a request|d|pk|pk|title members|chat author text];
    cbn [apply] in Hap.
  - injection Hap as <-. right. apply Hsame.
    pose proof (RegistrationView_post_outcome is_email d key now s) as Ho.
    destruct (RegistrationView_post is_email d key now s) as [s1 resp]. cbn [fst] in Hin.
    inversion Ho as [errors _ Hne | u e p r _ _ _ | u e p _ _ _ | u e p _ _ _ _
                     | u e p s2 token Hacc Hr Hem Hun Htok
                     | u e p ex Hacc Hr Hem Hun Htok]; subst; try done.
    by apply Token_get_or_create_Ok in Htok as [_ [->|(-> & _)]].
  - injection Hap as <-. right. apply Hsame.
    by destruct (CustomLogInView_post_store d key now s)
      as [Hs|(user & token & _ & _ & Hs)]; rewrite Hs in Hin.
  - injection Hap as <-.
    destruct (PostViewSet_store a request now s)
      as [Hs|[(p & Hs & Hid & _)|[(p & p1 & Hp & Hsat & _ & Hs)|(pk & Hs)]]];
      rewrite Hs in Hin.
    + right. by apply Hsame.
    + cbn in Hin. apply elem_of_app in Hin as [Hin|Hin]; [right; by apply Hsame|].
      apply list_elem_of_singleton in Hin as ->. by left.
    + right. rewrite Post_save_posts in Hin.
      apply list_elem_of_fmap in Hin as (q & -> & Hq).
      case_decide; [by exists p|by apply Hsame].
    + right. apply Hsame. cbn in Hin. by apply list_elem_of_filter in Hin as [_ ?].
  - rewrite SaveChat_store in Hap. injection Hap as <-. right. by apply Hsame.
  - injection Hap as <-. right. apply Hsame. cbn in Hin. unfold Orm.collect in Hin.
    cbn in Hin. by apply list_elem_of_filter in Hin as [_ ?].
  - injection Hap as <-. right. apply Hsame. cbn in Hin. unfold Orm.collect in Hin.
    cbn in Hin. by apply list_elem_of_filter in Hin as [_ ?].
  - case_match; [|done]. injection Hap as <-. right. by apply Hsame.
  - case_match; [|done]. injection Hap as <-. right. by apply Hsame.
Qed.

Lemma run_preserves history s s' :
  run is_email history s = Some s' →
  wf_store s ∧ store_invariant s → wf_store s' ∧ store_invariant s'.
Proof.
  revert s. induction history as [|[ev now] rest IH]; intros s.
  - cbn. by intros [= <-].
  - cbn [run]. destruct (apply is_email ev now s) as [s1|] eqn:Hap; [|done].
    cbn [mbind option_bind]. intros Hrun Hs. apply (IH s1 Hrun).
    by apply (apply_preserves ev now s).
Qed.

Lemma empty_store_invariant : store_invariant empty_store.
Proof. split; cbn; constructor. Qed.

(** Every reachable store satisfies the schema facts. *)
Lemma reachable_wf s : reachable is_email s → wf_store s.
Proof.
  intros [history Hrun].
  by apply (run_preserves history empty_store s Hrun
              (conj empty_store_wf empty_store_invariant)).
Qed.

End Reachable.

(** [Chat(title='').full_clean()] refuses the empty title, as the
    repository's test of the model expects; [Chat.objects.create] does not
    call it. *)
Lemma Chat_full_clean_refuses_empty_title : Orm.clean_text Chat_title "" = false.
Proof. reflexivity. Qed.



Lemma store_post_reachable : reachable Examples.is_email Examples.store_post.
Proof.
  by exists [ (RegisterUser Examples.alice "k1", 100);
              (CreateChat "General" [1], 150);
              (PostRequest create
                 (Examples.as_alice
                    {[ "title" := JStr "T"; "content" := JStr "C"; "chat" := JInt 1 ]}),
               200) ].
Qed.


(** ** Login: outcomes of [CustomLogInView.post] *)

Section LoginOutcomes.

Local Abbreviation login_failed s :=
  (s, mkResponse HTTP_400_BAD_REQUEST
        (RDict {[ "error" := VStr "Invalid username or password" ]})).

Local Abbreviation username_field := (Drf.new_CharField true false true None).
Local Abbreviation password_field := (Drf.new_CharField true false false None).

(** The view in terms of the two field validations. *)
Lemma CustomLogInView_post_eq (d : gmap string json) key now s :
  CustomLogInView_post d key now s
  = match Drf.CharField_run_validation username_field false
            (Some (default JNull (d !! "username"))),
          Drf.CharField_run_validation password_field false
            (Some (default JNull (d !! "password"))) with
    | Drf.Value (VStr u), Drf.Value (VStr p) =>
        match authenticate u p s with
        | Some user =>
            match Token_get_or_create (User.id user) key now s with
            | Raise e => (s, handle_exception e)
            | Ok (s1, token) => (s1, mkResponse HTTP_200_OK (auth_data token user))
            end
        | None => login_failed s
        end
    | _, _ => login_failed s
    end.
Proof.
  assert (Hskip : ∀ f d', Drf.CharField_run_validation f false (Some d') ≠ Drf.Skip).
  { intros f d'. unfold Drf.CharField_run_validation.
    destruct d'; try done; repeat case_match; done. }
  unfold CustomLogInView_post, Drf.run_validation_all, UsernameAuthTokenSerializer_fields.
  rewrite !DrfFacts.to_internal_value_cons. cbn [Drf.to_internal_value Drf.run_validation].
  rewrite lookup_insert_eq, lookup_insert_ne, lookup_singleton_eq by done.
  destruct (Drf.CharField_run_validation username_field _ _) as [|v1|e1] eqn:H1;
    [by apply Hskip in H1| |];
    (destruct (Drf.CharField_run_validation password_field _ _) as [|v2|e2] eqn:H2;
     [by apply Hskip in H2| |]); cbn [fst snd].
  - apply DrfFacts.CharField_value in H1 as (u & -> & Hu & _).
    apply DrfFacts.CharField_value in H2 as (p & -> & Hp & _).
    specialize (Hu eq_refl). specialize (Hp eq_refl).
    rewrite bool_decide_eq_true_2 by done. cbn [mbind result_bind].
    unfold UsernameAuthTokenSerializer_validate.
    rewrite lookup_insert_eq, lookup_insert_ne, lookup_insert_eq by done.
    rewrite !bool_decide_eq_false_2 by done. cbn [orb].
    by destruct (authenticate u p s).
  - rewrite bool_decide_eq_false_2 by (apply insert_non_empty).
    cbn [mbind result_bind]. by destruct v1.
  - rewrite bool_decide_eq_false_2 by (apply insert_non_empty). done.
  - rewrite bool_decide_eq_false_2 by (apply insert_non_empty). done.
Qed.

(** The username field trims, and trimming twice changes nothing. *)
Lemma username_field_strip raw :
  Drf.CharField_run_validation username_field false (Some (JStr (Py.strip raw)))
  = Drf.CharField_run_validation username_field false (Some (JStr raw)).
Proof.
  unfold Drf.CharField_run_validation. cbn [Drf.trim_whitespace Drf.new_CharField andb].
  rewrite !PyFacts.strip_strip.
  destruct (decide (Py.strip raw = "")) as [He|He].
  - rewrite He. rewrite (bool_decide_eq_true_2 ("" = "")) by done.
    by rewrite !orb_true_r.
  - rewrite (bool_decide_eq_false_2 (Py.strip raw = "")) by done.
    rewrite !orb_false_r.
    assert (raw ≠ "") by (intros ->; by apply He).
    by rewrite !bool_decide_eq_false_2 by done.
Qed.

Lemma username_field_value raw :
  Drf.CharField_run_validation username_field false (Some (JStr raw))
  = if bool_decide (Py.strip raw = "") then Drf.Invalid [Drf.blank_message]
    else match Drf.run_validators (Drf.validators username_field) (Py.strip raw) with
         | [] => Drf.Value (VStr (Py.strip raw))
         | errors => Drf.Invalid errors
         end.
Proof.
  unfold Drf.CharField_run_validation. cbn [Drf.trim_whitespace Drf.new_CharField andb
    Drf.allow_blank].
  destruct (decide (Py.strip raw = "")) as [He|He].
  - rewrite (bool_decide_eq_true_2 _ He). by rewrite orb_true_r.
  - rewrite (bool_decide_eq_false_2 _ He).
    assert (raw ≠ "") by (intros ->; by apply He).
    by rewrite bool_decide_eq_false_2 by done.
Qed.

Lemma password_field_value raw :
  Drf.CharField_run_validation password_field false (Some (JStr raw))
  = if bool_decide (raw = "") then Drf.Invalid [Drf.blank_message]
    else match Drf.run_validators (Drf.validators password_field) raw with
         | [] => Drf.Value (VStr raw)
         | errors => Drf.Invalid errors
         end.
Proof.
  unfold Drf.CharField_run_validation. cbn [Drf.trim_whitespace Drf.new_CharField andb
    Drf.allow_blank]. by rewrite orb_false_r.
Qed.

(** The rejections of a login. *)
Lemma login_rejected (d : gmap string json) key now s :
  d !! "username" = None
  ∨ d !! "password" = None
  ∨ (∃ raw, d !! "username" = Some (JStr raw)
          ∧ Forall (λ u, User.username u ≠ Py.strip raw) (users s))
  ∨ (∃ raw password account,
        d !! "username" = Some (JStr raw) ∧ d !! "password" = Some (JStr password)
        ∧ Orm.first_where (λ u, User.username u = Py.strip raw) (users s) = Some account
        ∧ (check_password password (User.password account) = false
           ∨ User.is_active account = false)) →
  CustomLogInView_post d key now s = login_failed s.
Proof.
  intros H. rewrite CustomLogInView_post_eq.
  destruct H as [->|[->|[(raw & -> & Hno)|(raw & pw & account & -> & -> & Hf & Hbad)]]];
    cbn [from_option]; unfold id.
  - done.
  - cbn [Drf.CharField_run_validation]. by repeat case_match.
  - rewrite username_field_value.
    assert (∀ p, authenticate (Py.strip raw) p s = None) as Ha.
    { intros p. unfold authenticate.
      by rewrite (proj2 (OrmFacts.first_where_None _ _) Hno). }
    destruct (bool_decide _); [done|].
    destruct (Drf.run_validators _ _); [|done].
    destruct (Drf.CharField_run_validation password_field _ _) as [|[]|]; try done.
    by rewrite Ha.
  - rewrite username_field_value, password_field_value.
    assert (authenticate (Py.strip raw) pw s = None) as Ha.
    { unfold authenticate. rewrite Hf. cbn.
      destruct Hbad as [->| ->]; by rewrite ?andb_false_r. }
    destruct (bool_decide (Py.strip raw = "")); [done|].
    destruct (Drf.run_validators _ (Py.strip raw)); [|done].
    destruct (bool_decide (pw = "")); [done|].
    destruct (Drf.run_validators _ pw); [|done].
    by rewrite Ha.
Qed.

(** X1.  A login is answered 400 with the one body
    [{'error': 'Invalid username or password'}], and nothing is written,
    when the username or the password is missing from the request, when no
    user has the (trimmed) username, when the password does not verify, or
    when the user is inactive: the answer does not tell these cases apart. *)
Theorem login_rejections_are_indistinguishable (d : gmap string json) key now s :
  d !! "username" = None
  ∨ d !! "password" = None
  ∨ (∃ raw, d !! "username" = Some (JStr raw)
          ∧ Forall (λ u, User.username u ≠ Py.strip raw) (users s))
  ∨ (∃ raw password account,
        d !! "username" = Some (JStr raw) ∧ d !! "password" = Some (JStr password)
        ∧ Orm.first_where (λ u, User.username u = Py.strip raw) (users s) = Some account
        ∧ (check_password password (User.password account) = false
           ∨ User.is_active account = false)) →
  CustomLogInView_post d key now s = login_failed s.
Proof. apply login_rejected. Qed.

Lemma login_rejections_witness :
  Examples.alice_login !! "username" = Some (JStr "alice")
  ∧ Forall (λ u, User.username u ≠ Py.strip "alice") (users Examples.store_alice)
  ∧ CustomLogInView_post Examples.alice_login "k2" 300 Examples.store_alice
    = login_failed Examples.store_alice.
Proof.
  assert (Forall (λ u, User.username u ≠ Py.strip "alice") (users Examples.store_alice))
    as H by (repeat constructor; vm_compute; congruence).
  split; [reflexivity|]. split; [exact H|].
  apply (login_rejections_are_indistinguishable Examples.alice_login "k2" 300
           Examples.store_alice).
  right. right. left. exists "alice". split; [reflexivity|exact H].
Defined.

Lemma authenticate_Some username password s account :
  authenticate username password s = Some account →
  Orm.first_where (λ u, User.username u = username) (users s) = Some account
  ∧ check_password password (User.password account) = true
  ∧ User.is_active account = true.
Proof.
  unfold authenticate. destruct (Orm.first_where _ _) as [u|]; [|done]. cbn.
  destruct (check_password _ _) eqn:Hc; [|done].
  destruct (User.is_active u) eqn:Ha; [|done]. by intros [= <-].
Qed.

(** The outcomes of a login: the uniform rejection, the answer 200 for an
    authenticated user with the user's token, or the failure to store a
    token under a key already in use. *)
Lemma CustomLogInView_post_cases (d : gmap string json) key now s :
  CustomLogInView_post d key now s = login_failed s
  ∨ (∃ u p account,
        Drf.CharField_run_validation username_field false
          (Some (default JNull (d !! "username"))) = Drf.Value (VStr u)
        ∧ Drf.CharField_run_validation password_field false
            (Some (default JNull (d !! "password"))) = Drf.Value (VStr p)
        ∧ authenticate u p s = Some account
        ∧ ((∃ s1 token, Token_get_or_create (User.id account) key now s = Ok (s1, token)
               ∧ CustomLogInView_post d key now s
                 = (s1, mkResponse HTTP_200_OK (auth_data token account)))
           ∨ (∃ e, Token_get_or_create (User.id account) key now s = Raise e
                 ∧ CustomLogInView_post d key now s = (s, handle_exception e)))).
Proof.
  rewrite CustomLogInView_post_eq.
  destruct (Drf.CharField_run_validation username_field _ _) as [|[| |u| |]|]; auto.
  destruct (Drf.CharField_run_validation password_field _ _) as [|[| |p| |]|]; auto.
  destruct (authenticate u p s) as [account|] eqn:Ha; auto.
  right. exists u, p, account. repeat split; try done.
  destruct (Token_get_or_create _ _ _ _) as [[s1 token]|e] eqn:Ht; eauto 10.
Qed.

Lemma Token_get_or_create_Raise user key now s e :
  Token_get_or_create user key now s = Raise e → e = IntegrityError.
Proof. unfold Token_get_or_create. repeat case_match; congruence. Qed.

(** X2.  A login answered 200 was made with the credentials of a stored,
    active user: the request carries both fields, a username sent as text
    is, once trimmed, the user's stored username, a password sent as text
    verifies against the stored hash as sent, and the token of the response
    is a stored token of that user.  Nothing but at most that token is
    written. *)
Theorem login_success_requires_credentials (d : gmap string json) key now s s' resp :
  CustomLogInView_post d key now s = (s', resp) →
  status_code resp = HTTP_200_OK →
  ∃ account token,
    account ∈ users s
    ∧ User.is_active account = true
    ∧ is_Some (d !! "username") ∧ is_Some (d !! "password")
    ∧ (∀ raw, d !! "username" = Some (JStr raw) → User.username account = Py.strip raw)
    ∧ (∀ raw, d !! "password" = Some (JStr raw) →
              check_password raw (User.password account) = true)
    ∧ token ∈ tokens s'
    ∧ Token.user token = User.id account
    ∧ resp = mkResponse HTTP_200_OK (auth_data token account)
    ∧ (s' = s ∨ s' = insert_token (Token.mk key (User.id account) now) s).
Proof.
  intros Hpost Hst.
  destruct (CustomLogInView_post_cases d key now s)
    as [Hf|(u & p & account & Hu & Hp & Ha & [(s1 & token & Ht & Hr)|(e & Ht & Hr)])].
  - rewrite Hf in Hpost. by simplify_eq.
  - rewrite Hr in Hpost. simplify_eq.
    apply authenticate_Some in Ha as (Hfirst & Hcheck & Hact).
    apply OrmFacts.first_where_Some in Hfirst as [Hin Hname].
    apply Token_get_or_create_Ok in Ht as Htok. destruct Htok as [Hmine Hs'].
    apply OrmFacts.first_where_Some in Hmine as [Htin Htuser].
    exists account, token. split; [done|]. split; [done|].
    split. { destruct (d !! "username"); [done|]. by cbn in Hu. }
    split. { destruct (d !! "password"); [done|]. by cbn in Hp. }
    split.
    { intros raw Hraw. rewrite Hraw in Hu. cbn [from_option] in Hu. unfold id in Hu.
      rewrite username_field_value in Hu. repeat case_match; congruence. }
    split.
    { intros raw Hraw. rewrite Hraw in Hp. cbn [from_option] in Hp. unfold id in Hp.
      rewrite password_field_value in Hp. repeat case_match; congruence. }
    split; [done|]. split; [done|]. split; [done|].
    destruct Hs' as [->|(-> & -> & _)]; auto.
  - rewrite Hr in Hpost. simplify_eq.
    apply Token_get_or_create_Raise in Ht as ->. done.
Qed.

Lemma login_success_witness :
  CustomLogInView_post Examples.alice_stored_login "k9" 300 Examples.store_alice
  = (Examples.store_alice,
     (CustomLogInView_post Examples.alice_stored_login "k9" 300 Examples.store_alice).2)
  ∧ status_code
      (CustomLogInView_post Examples.alice_stored_login "k9" 300 Examples.store_alice).2
    = HTTP_200_OK
  ∧ ∃ account token,
      account ∈ users Examples.store_alice
      ∧ User.is_active account = true
      ∧ is_Some (Examples.alice_stored_login !! "username")
      ∧ is_Some (Examples.alice_stored_login !! "password")
      ∧ (∀ raw, Examples.alice_stored_login !! "username" = Some (JStr raw) →
                User.username account = Py.strip raw)
      ∧ (∀ raw, Examples.alice_stored_login !! "password" = Some (JStr raw) →
                check_password raw (User.password account) = true)
      ∧ token ∈ tokens Examples.store_alice
      ∧ Token.user token = User.id account
      ∧ (CustomLogInView_post Examples.alice_stored_login "k9" 300 Examples.store_alice).2
        = mkResponse HTTP_200_OK (auth_data token account)
      ∧ (Examples.store_alice = Examples.store_alice
         ∨ Examples.store_alice
           = insert_token (Token.mk "k9" (User.id account) 300) Examples.store_alice).
Proof.
  split; [reflexivity|]. split; [reflexivity|].
  apply (login_success_requires_credentials Examples.alice_stored_login "k9" 300
           Examples.store_alice); reflexivity.
Defined.

(** X3.  Logging in twice: unless the first answer is the server error of
    a token key already in use, the second login with the same data returns
    the same answer, token included, and writes nothing, whatever key would
    be drawn and whenever it happens. *)
Theorem login_is_idempotent (d : gmap string json) key now key' now' s s1 resp :
  CustomLogInView_post d key now s = (s1, resp) →
  status_code resp ≠ HTTP_500_INTERNAL_SERVER_ERROR →
  CustomLogInView_post d key' now' s1 = (s1, resp).
Proof.
  intros Hpost Hst.
  destruct (CustomLogInView_post_cases d key now s)
    as [Hf|(u & p & account & Hu & Hp & Ha & [(s2 & token & Ht & Hr)|(e & Ht & Hr)])].
  - rewrite Hf in Hpost. simplify_eq.
    rewrite CustomLogInView_post_eq in Hf |- *.
    destruct (Drf.CharField_run_validation username_field _ _) as [|[| |u| |]|]; try done.
    destruct (Drf.CharField_run_validation password_field _ _) as [|[| |p| |]|]; try done.
    destruct (authenticate u p s1) as [account|]; [|done].
    destruct (Token_get_or_create _ key _ _) as [[s2 token]|e] eqn:Ht; [done|].
    by apply Token_get_or_create_Raise in Ht as ->.
  - rewrite Hr in Hpost. simplify_eq.
    rewrite CustomLogInView_post_eq, Hu, Hp.
    apply Token_get_or_create_Ok in Ht as Htok. destruct Htok as [Hmine _].
    apply Token_get_or_create_users in Ht as (Hus & _ & _).
    assert (authenticate u p s1 = Some account) as ->.
    { unfold authenticate in *. by rewrite Hus. }
    by rewrite (Token_get_or_create_existing _ _ _ _ _ Hmine).
  - rewrite Hr in Hpost. simplify_eq.
    apply Token_get_or_create_Raise in Ht as ->. done.
Qed.

Lemma login_is_idempotent_witness :
  CustomLogInView_post Examples.alice_stored_login "k9" 300 Examples.store_alice
  = (Examples.store_alice,
     (CustomLogInView_post Examples.alice_stored_login "k9" 300 Examples.store_alice).2)
  ∧ status_code
      (CustomLogInView_post Examples.alice_stored_login "k9" 300 Examples.store_alice).2
    ≠ HTTP_500_INTERNAL_SERVER_ERROR
  ∧ CustomLogInView_post Examples.alice_stored_login "k10" 400 Examples.store_alice
    = (Examples.store_alice,
       (CustomLogInView_post Examples.alice_stored_login "k9" 300 Examples.store_alice).2).
Proof.
  assert (status_code
            (CustomLogInView_post Examples.alice_stored_login "k9" 300
               Examples.store_alice).2
          ≠ HTTP_500_INTERNAL_SERVER_ERROR) as H by (vm_compute; congruence).
  split; [reflexivity|]. split; [exact H|].
  exact (login_is_idempotent Examples.alice_stored_login "k9" 300 "k10" 400
           Examples.store_alice Examples.store_alice _ eq_refl H).
Defined.

(** X4.  The login does not see whitespace around the username: sending a
    username and sending it trimmed are answered alike, with the same
    store. *)
Theorem login_trims_the_username (d : gmap string json) raw key now s :
  CustomLogInView_post (<["username" := JStr raw]> d) key now s
  = CustomLogInView_post (<["username" := JStr (Py.strip raw)]> d) key now s.
Proof.
  rewrite !CustomLogInView_post_eq. rewrite !lookup_insert_eq.
  rewrite !lookup_insert_ne by done. cbn [from_option]. unfold id.
  by rewrite username_field_strip.
Qed.

End LoginOutcomes.

(** ** Registration: further outcomes of [RegistrationView.post] *)

Section RegistrationOutcomes.

Context (is_email : string → bool).

(** What the answer 201 of a registration says. *)
Lemma registration_created (d : gmap string json) key now s s' resp :
  RegistrationView_post is_email d key now s = (s', resp) →
  status_code resp = HTTP_201_CREATED →
  ∃ u e p token,
    accepted_registration is_email d u e p
    ∧ validated is_email d "repeated_password" = Some (VStr p)
    ∧ Forall (λ x, ¬ User.email x = e) (users s)
    ∧ Forall (λ x, ¬ User.username x = Py.title u) (users s)
    ∧ Token_get_or_create (users_seq s) key now
        (store_with_account (new_account u e p s) now s) = Ok (s', token)
    ∧ resp = mkResponse HTTP_201_CREATED (auth_data token (new_account u e p s)).
Proof.
  intros Hpost Hstatus.
  pose proof (RegistrationView_post_outcome is_email d key now s) as Ho.
  rewrite Hpost in Ho.
  inversion Ho as [errors _ Hne | u e p r _ _ _ | u e p _ _ _ | u e p _ _ _ _
                   | u e p s2 token Hacc Hr Hem Hun Htok
                   | u e p ex Hacc Hr Hem Hun Htok]; subst;
    try discriminate Hstatus.
  - by exists u, e, p, token.
  - by destruct (created_status_not_error ex).
Qed.

(** The value validation gives for a text field of the request. *)
Lemma validated_text_is_trimmed (d : gmap string json) name raw x :
  name ∈ ["username"; "password"; "repeated_password"] →
  d !! name = Some (JStr raw) →
  validated is_email d name = Some (VStr x) →
  x = Py.strip raw.
Proof.
  intros Hname Hraw. rewrite validated_eq.
  intros (f & Hin & Hv)%DrfFacts.validated_value_origin.
  rewrite Hraw in Hv.
  repeat (apply elem_of_cons in Hname as [->|Hname]); [| | |by apply elem_of_nil in Hname];
    in_fields Hin; cbn in Hv; repeat case_match; by simplify_eq.
Qed.

(** The users and tokens after a successful registration. *)
Lemma registration_created_store u e p key now s s' token :
  wf_store s →
  Token_get_or_create (users_seq s) key now
    (store_with_account (new_account u e p s) now s) = Ok (s', token) →
  s' = insert_token token (store_with_account (new_account u e p s) now s)
  ∧ token = Token.mk key (users_seq s) now.
Proof.
  intros Hwf Htok.
  destruct (Token_get_or_create_Ok _ _ _ _ _ _ Htok) as [Hfirst [->|(-> & -> & _)]];
    [|done].
  exfalso. apply OrmFacts.first_where_Some in Hfirst as [Hin Hu].
  cbn in Hin. apply (proj1 (Forall_forall _ _) (wf_tokens s Hwf)) in Hin. lia.
Qed.

Local Abbreviation login_failed s :=
  (s, mkResponse HTTP_400_BAD_REQUEST
        (RDict {[ "error" := VStr "Invalid username or password" ]})).

(** X5.  Registration trims the password, login does not: after a
    successful registration whose password was sent with whitespace around
    it, a login with the stored username and the password as it was sent is
    rejected, and a login with the trimmed password is answered 200. *)
Theorem padded_password_cannot_log_in (d : gmap string json) key now s s' resp
    raw username :
  RegistrationView_post is_email d key now s = (s', resp) →
  status_code resp = HTTP_201_CREATED →
  d !! "password" = Some (JStr raw) →
  Py.strip raw ≠ raw →
  validated is_email d "username" = Some (VStr username) →
  ∀ key' now',
    CustomLogInView_post
      {[ "username" := JStr (Py.title username); "password" := JStr raw ]} key' now' s'
    = login_failed s'
    ∧ status_code
        (CustomLogInView_post
           {[ "username" := JStr (Py.title username);
              "password" := JStr (Py.strip raw) ]} key' now' s').2
      = HTTP_200_OK.
Proof.
  intros Hpost Hst Hraw Hpad Hval key' now'.
  destruct (registration_created d key now s s' resp Hpost Hst)
    as (u & e & p & token & Hacc & Hr & Hem & Hun & Htok & ->).
  pose proof Hacc as [Hvu _ Hvp Hune Hust Hunull _ Hpne Hpnull].
  rewrite Hval in Hvu. injection Hvu as <-.
  assert (p = Py.strip raw) as ->.
  { apply (validated_text_is_trimmed d "password"); [|done|done].
    apply elem_of_cons; right; by left. }
  set (account := new_account username e (Py.strip raw) s) in *.
  destruct (Token_get_or_create_Ok _ _ _ _ _ _ Htok) as [Hfirst _].
  destruct (Token_get_or_create_users _ _ _ _ _ _ Htok) as (Hus & _ & _).
  assert (Orm.first_where (λ x, User.username x = Py.title username) (users s')
          = Some account) as Hacc1.
  { rewrite Hus. cbn [users store_with_account insert_profile insert_user].
    by apply OrmFacts.first_where_snoc_new. }
  split.
  - apply login_rejected. right. right. right.
    exists (Py.title username), raw, account.
    rewrite lookup_insert_eq, lookup_insert_ne, lookup_singleton_eq by done.
    rewrite PyFacts.strip_title, Hust.
    repeat split; try done. left. cbn. by rewrite bool_decide_eq_false_2.
  - rewrite (login_with_stored_credentials _ key' now' s' account (Py.strip raw) token);
      try done.
    + change (Py.title username ≠ ""). by rewrite PyFacts.title_empty.
    + change (Py.strip (Py.title username) = Py.title username).
      rewrite PyFacts.strip_title. by rewrite Hust.
    + change (Py.has_char "000"%char (Py.title_from false username) = false).
      by rewrite PyFacts.has_null_title_from.
Qed.

(** The view on a request whose fields are all valid. *)
Lemma RegistrationView_post_valid (d : gmap string json) key now s u e p r :
  (Drf.to_internal_value (registration_fields is_email) false d).2 = ∅ →
  validated is_email d "username" = Some (VStr u) →
  validated is_email d "email" = Some (VStr e) →
  validated is_email d "password" = Some (VStr p) →
  validated is_email d "repeated_password" = Some (VStr r) →
  RegistrationView_post is_email d key now s
  = if bool_decide (p ≠ r)
    then (s, mkResponse HTTP_400_BAD_REQUEST
               (RDict {[ "error" := VStr "Passwords do not match" ]}))
    else if Orm.exists_where (λ x, User.email x = e) (users s)
    then (s, mkResponse HTTP_400_BAD_REQUEST
               (RDict {[ "error" := VStr "This email is already taken" ]}))
    else if Orm.exists_where (λ x, User.username x = Py.title u) (users s)
    then (s, mkResponse HTTP_400_BAD_REQUEST
               (RDict {[ "error" := VStr "This username is already taken" ]}))
    else match Token_get_or_create (users_seq s) key now
                 (store_with_account (new_account u e p s) now s) with
         | Ok (s2, token) =>
             (s2, mkResponse HTTP_201_CREATED (auth_data token (new_account u e p s)))
         | Raise ex => (store_with_account (new_account u e p s) now s, handle_exception ex)
         end.
Proof.
  rewrite !validated_eq. intros He Hu Hem Hp Hr.
  unfold RegistrationView_post. rewrite RegistrationSerializer_fields.
  unfold Drf.run_validation_all.
  destruct (Drf.to_internal_value (registration_fields is_email) false d)
    as [ret errors] eqn:Ht.
  cbn [fst snd] in *. subst errors. rewrite bool_decide_eq_true_2 by done.
  rewrite (create_on_accepted ret now s u e p r Hu Hem Hp Hr).
  destruct (bool_decide (p ≠ r)); [done|].
  destruct (Orm.exists_where _ (users s)); [done|].
  destruct (Orm.exists_where _ (users s)); [done|].
  change (User.id (new_account u e p s)) with (users_seq s).
  by destruct (Token_get_or_create _ _ _ _) as [[s2 token]|ex].
Qed.

(** A request answered 201 passed field validation. *)
Lemma registration_created_valid (d : gmap string json) key now s s' resp :
  RegistrationView_post is_email d key now s = (s', resp) →
  status_code resp = HTTP_201_CREATED →
  (Drf.to_internal_value (registration_fields is_email) false d).2 = ∅.
Proof.
  unfold RegistrationView_post. rewrite RegistrationSerializer_fields.
  unfold Drf.run_validation_all.
  destruct (Drf.to_internal_value (registration_fields is_email) false d)
    as [ret errors] eqn:Ht.
  case_bool_decide as He; [done|]. by intros [= <- <-].
Qed.

(** X6.  The checks of a registration whose fields are valid are made in
    order and only the first failure is reported: differing passwords give
    "Passwords do not match" even when email and username are taken; with
    equal passwords a taken email gives "This email is already taken" even
    when the username is taken as well; "This username is already taken" is
    given only when passwords agree and the email is free.  Nothing is
    written in any of the three cases. *)
Theorem registration_checks_are_ordered (d : gmap string json) key now s u e p r :
  (Drf.to_internal_value (registration_fields is_email) false d).2 = ∅ →
  validated is_email d "username" = Some (VStr u) →
  validated is_email d "email" = Some (VStr e) →
  validated is_email d "password" = Some (VStr p) →
  validated is_email d "repeated_password" = Some (VStr r) →
  (p ≠ r →
   RegistrationView_post is_email d key now s
   = (s, mkResponse HTTP_400_BAD_REQUEST
           (RDict {[ "error" := VStr "Passwords do not match" ]})))
  ∧ (p = r → Exists (λ x, User.email x = e) (users s) →
     RegistrationView_post is_email d key now s
     = (s, mkResponse HTTP_400_BAD_REQUEST
             (RDict {[ "error" := VStr "This email is already taken" ]})))
  ∧ (p = r → Forall (λ x, User.email x ≠ e) (users s) →
     Exists (λ x, User.username x = Py.title u) (users s) →
     RegistrationView_post is_email d key now s
     = (s, mkResponse HTTP_400_BAD_REQUEST
             (RDict {[ "error" := VStr "This username is already taken" ]}))).
Proof.
  intros He Hu Hem Hp Hr.
  rewrite (RegistrationView_post_valid d key now s u e p r He Hu Hem Hp Hr).
  split; [|split].
  - intros Hne. by rewrite bool_decide_eq_true_2.
  - intros -> Hex. rewrite bool_decide_eq_false_2 by (intros Hn; by apply Hn).
    by rewrite (proj2 (OrmFacts.exists_where_true _ _) Hex).
  - intros -> Hno Hex. rewrite bool_decide_eq_false_2 by (intros Hn; by apply Hn).
    rewrite (proj2 (OrmFacts.exists_where_false _ _) Hno).
    by rewrite (proj2 (OrmFacts.exists_where_true _ _) Hex).
Qed.

(** X7.  A registration request in which one of the four fields is
    missing, null, or (for the three text fields) empty or all whitespace is
    answered 400 with that field's error under the field's name, "This field
    is required.", "This field may not be null." or "This field may not be
    blank.", and nothing is written. *)
Theorem registration_requires_every_field (d : gmap string json) key now s name message :
  name ∈ ["username"; "email"; "password"; "repeated_password"] →
  (d !! name = None ∧ message = Drf.required_message)
  ∨ (d !! name = Some JNull ∧ message = Drf.null_message)
  ∨ (∃ raw, d !! name = Some (JStr raw) ∧ Py.strip raw = ""
            ∧ message = Drf.blank_message) →
  ∃ errors,
    RegistrationView_post is_email d key now s
    = (s, mkResponse HTTP_400_BAD_REQUEST (RDict errors))
    ∧ errors !! name = Some (VStrs [message]).
Proof.
  intros Hname Hd.
  assert (∃ f, (name, f) ∈ registration_fields is_email
               ∧ Drf.run_validation f false (d !! name) = Drf.Invalid [message])
    as (f & Hin & Hv).
  { assert (∀ f raw, Drf.trim_whitespace f = true → Drf.allow_blank f = false →
                     Py.strip raw = "" →
                     Drf.CharField_run_validation f false (Some (JStr raw))
                     = Drf.Invalid [Drf.blank_message]) as Hblank.
    { intros f raw Ht Ha Hraw. unfold Drf.CharField_run_validation.
      rewrite Ht, Ha, Hraw. cbn [andb]. rewrite (bool_decide_eq_true_2 ("" = "")) by done.
      by rewrite orb_true_r. }
    unfold registration_fields.
    repeat (apply elem_of_cons in Hname as [->|Hname]);
      [| | | | by apply elem_of_nil in Hname];
      (eexists; split; [repeat (first [by left | right])|]);
      (destruct Hd as [[-> ->]|[[-> ->]|(raw & -> & Hraw & ->)]];
       [done|done|by apply Hblank]). }
  pose proof (DrfFacts.error_present _ false d name f [message]
                (registration_fields_NoDup is_email) Hin Hv) as He.
  exists (Drf.to_internal_value (registration_fields is_email) false d).2.
  split; [|done].
  unfold RegistrationView_post. rewrite RegistrationSerializer_fields.
  unfold Drf.run_validation_all.
  destruct (Drf.to_internal_value (registration_fields is_email) false d)
    as [ret errors] eqn:Ht.
  cbn [snd] in *. rewrite bool_decide_eq_false_2; [done|].
  intros ->. by rewrite lookup_empty in He.
Qed.

(** X8.  The answer to a successful registration from a well-formed store
    is determined by the request, the drawn key and the user sequence: the
    token is the drawn key, the displayed name is the tokens of the
    title-cased username joined by single spaces, the email is the validated
    email and the user's key is the next value of the sequence. *)
Theorem registration_response (d : gmap string json) key now s s' resp :
  wf_store s →
  RegistrationView_post is_email d key now s = (s', resp) →
  status_code resp = HTTP_201_CREATED →
  ∃ u e,
    validated is_email d "username" = Some (VStr u)
    ∧ validated is_email d "email" = Some (VStr e)
    ∧ resp = mkResponse HTTP_201_CREATED
               (RDict {[ "token" := VStr key;
                         "username" := VStr (Py.join " " (Py.split (Py.title u)));
                         "email" := VStr e;
                         "user_id" := VInt (users_seq s) ]}).
Proof.
  intros Hwf Hpost Hst.
  destruct (registration_created d key now s s' resp Hpost Hst)
    as (u & e & p & token & Hacc & Hr & Hem & Hun & Htok & ->).
  destruct (registration_created_store u e p key now s s' token Hwf Htok) as [_ ->].
  exists u, e. destruct Hacc as [Hu He _ _ _ _ _ _ _].
  split; [done|]. split; [done|].
  unfold auth_data. cbn [User.first_name User.last_name new_account User.email User.id
    Token.key].
  by rewrite (NameFacts.display_name _ (NameFacts.split_tokens _)).
Qed.

(** X9.  A registration that succeeded cannot be repeated: the same
    request sent again, with whatever key drawn, is answered 400 with
    "This email is already taken" and writes nothing. *)
Theorem registration_cannot_be_repeated (d : gmap string json) key now s s' resp :
  RegistrationView_post is_email d key now s = (s', resp) →
  status_code resp = HTTP_201_CREATED →
  ∀ key' now',
    RegistrationView_post is_email d key' now' s'
    = (s', mkResponse HTTP_400_BAD_REQUEST
             (RDict {[ "error" := VStr "This email is already taken" ]})).
Proof.
  intros Hpost Hst key' now'.
  pose proof (registration_created_valid d key now s s' resp Hpost Hst) as Hvalid.
  destruct (registration_created d key now s s' resp Hpost Hst)
    as (u & e & p & token & Hacc & Hr & Hem & Hun & Htok & ->).
  destruct Hacc as [Hu He Hp _ _ _ _ _ _].
  rewrite (RegistrationView_post_valid d key' now' s' u e p p Hvalid Hu He Hp Hr).
  rewrite bool_decide_eq_false_2 by (intros Hn; by apply Hn).
  destruct (Token_get_or_create_users _ _ _ _ _ _ Htok) as (Hus & _ & _).
  rewrite (proj2 (OrmFacts.exists_where_true _ _)); [done|].
  rewrite Hus. cbn [users store_with_account insert_profile insert_user].
  apply Exists_app. right. by constructor.
Qed.

(** X10.  The email of a registration is checked by the address
    validator: an email that is not blank and that the validator refuses is
    answered 400 with "Enter a valid email address." under "email", and
    nothing is written. *)
Theorem registration_checks_the_email (d : gmap string json) key now s raw :
  d !! "email" = Some (JStr raw) →
  Py.strip raw ≠ "" →
  is_email (Py.strip raw) = false →
  ∃ errors messages,
    RegistrationView_post is_email d key now s
    = (s, mkResponse HTTP_400_BAD_REQUEST (RDict errors))
    ∧ errors !! "email" = Some (VStrs messages)
    ∧ "Enter a valid email address." ∈ messages.
Proof.
  intros Hd Hne Hno.
  assert (∃ messages,
            Drf.run_validation (Drf.Char false (Drf.new_EmailField is_email true)) false
              (d !! "email") = Drf.Invalid messages
            ∧ "Enter a valid email address." ∈ messages) as (messages & Hv & Hin).
  { rewrite Hd. cbn [Drf.run_validation Drf.CharField_run_validation].
    change (Drf.trim_whitespace (Drf.new_EmailField is_email true)) with true.
    change (Drf.allow_blank (Drf.new_EmailField is_email true)) with false.
    cbn [andb]. assert (raw ≠ "") by (intros ->; by apply Hne).
    rewrite !bool_decide_eq_false_2 by done. cbn [orb].
    unfold Drf.run_validators.
    change (Drf.validators (Drf.new_EmailField is_email true))
      with [Drf.ProhibitNullCharactersValidator; Drf.EmailValidator is_email].
    cbn [omap list_omap].
    assert (Drf.EmailValidator is_email (Py.strip raw)
            = Some "Enter a valid email address.") as ->
      by (unfold Drf.EmailValidator; by rewrite Hno).
    destruct (Drf.ProhibitNullCharactersValidator (Py.strip raw)) as [m|].
    - eexists. split; [reflexivity|]. right. by left.
    - eexists. split; [reflexivity|]. by left. }
  assert (("email", Drf.Char false (Drf.new_EmailField is_email true))
          ∈ registration_fields is_email) as Hf.
  { do 2 (apply elem_of_cons; right). by left. }
  pose proof (DrfFacts.error_present _ false d "email" _ messages
                (registration_fields_NoDup is_email) Hf Hv) as He.
  exists (Drf.to_internal_value (registration_fields is_email) false d).2, messages.
  split; [|done].
  unfold RegistrationView_post. rewrite RegistrationSerializer_fields.
  unfold Drf.run_validation_all.
  destruct (Drf.to_internal_value (registration_fields is_email) false d)
    as [ret errors] eqn:Ht.
  cbn [snd] in *. rewrite bool_decide_eq_false_2; [done|].
  intros ->. by rewrite lookup_empty in He.
Qed.

End RegistrationOutcomes.

Lemma padded_password_witness :
  RegistrationView_post Examples.is_email (<["password" := JStr " p1 "]> Examples.alice)
    "k1" 100 empty_store
  = (Examples.store_alice,
     (RegistrationView_post Examples.is_email
        (<["password" := JStr " p1 "]> Examples.alice) "k1" 100 empty_store).2)
  ∧ status_code
      (RegistrationView_post Examples.is_email
         (<["password" := JStr " p1 "]> Examples.alice) "k1" 100 empty_store).2
    = HTTP_201_CREATED
  ∧ (<["password" := JStr " p1 "]> Examples.alice : gmap string json) !! "password"
    = Some (JStr " p1 ")
  ∧ Py.strip " p1 " ≠ " p1 "
  ∧ validated Examples.is_email (<["password" := JStr " p1 "]> Examples.alice) "username"
    = Some (VStr "alice")
  ∧ ∀ key' now',
      CustomLogInView_post
        {[ "username" := JStr (Py.title "alice"); "password" := JStr " p1 " ]}
        key' now' Examples.store_alice
      = (Examples.store_alice,
         mkResponse HTTP_400_BAD_REQUEST
           (RDict {[ "error" := VStr "Invalid username or password" ]}))
      ∧ status_code
          (CustomLogInView_post
             {[ "username" := JStr (Py.title "alice");
                "password" := JStr (Py.strip " p1 ") ]}
             key' now' Examples.store_alice).2
        = HTTP_200_OK.
Proof.
  assert (Py.strip " p1 " ≠ " p1 ") as H by (vm_compute; congruence).
  split; [reflexivity|]. split; [reflexivity|]. split; [reflexivity|].
  split; [exact H|]. split; [reflexivity|].
  exact (padded_password_cannot_log_in Examples.is_email
           (<["password" := JStr " p1 "]> Examples.alice) "k1" 100 empty_store
           Examples.store_alice _ " p1 " "alice" eq_refl eq_refl eq_refl H eq_refl).
Defined.

Lemma registration_checks_witness :
  (Drf.to_internal_value (registration_fields Examples.is_email) false Examples.alice).2 = ∅
  ∧ validated Examples.is_email Examples.alice "username" = Some (VStr "alice")
  ∧ validated Examples.is_email Examples.alice "email" = Some (VStr "a@x.com")
  ∧ validated Examples.is_email Examples.alice "password" = Some (VStr "p1")
  ∧ validated Examples.is_email Examples.alice "repeated_password" = Some (VStr "p1")
  ∧ Exists (λ x, User.email x = "a@x.com") (users Examples.store_alice)
  ∧ RegistrationView_post Examples.is_email Examples.alice "k2" 101 Examples.store_alice
    = (Examples.store_alice,
       mkResponse HTTP_400_BAD_REQUEST
         (RDict {[ "error" := VStr "This email is already taken" ]})).
Proof.
  assert (Exists (λ x, User.email x = "a@x.com") (users Examples.store_alice)) as H
    by (by constructor).
  split; [reflexivity|]. split; [reflexivity|]. split; [reflexivity|].
  split; [reflexivity|]. split; [reflexivity|]. split; [exact H|].
  exact (proj1 (proj2 (registration_checks_are_ordered Examples.is_email Examples.alice
                         "k2" 101 Examples.store_alice "alice" "a@x.com" "p1" "p1"
                         eq_refl eq_refl eq_refl eq_refl eq_refl)) eq_refl H).
Defined.

Lemma registration_requires_witness :
  "email" ∈ ["username"; "email"; "password"; "repeated_password"]
  ∧ (delete "email" Examples.alice : gmap string json) !! "email" = None
  ∧ ∃ errors,
      RegistrationView_post Examples.is_email (delete "email" Examples.alice) "k1" 100
        empty_store
      = (empty_store, mkResponse HTTP_400_BAD_REQUEST (RDict errors))
      ∧ errors !! "email" = Some (VStrs [Drf.required_message]).
Proof.
  assert ("email" ∈ ["username"; "email"; "password"; "repeated_password"]) as H
    by (apply elem_of_cons; right; by left).
  split; [exact H|]. split; [reflexivity|].
  apply (registration_requires_every_field Examples.is_email
           (delete "email" Examples.alice) "k1" 100 empty_store "email"
           Drf.required_message H).
  left. split; reflexivity.
Defined.

Lemma registration_response_witness :
  wf_store empty_store
  ∧ RegistrationView_post Examples.is_email Examples.alice "k1" 100 empty_store
    = (Examples.store_alice,
       (RegistrationView_post Examples.is_email Examples.alice "k1" 100 empty_store).2)
  ∧ status_code (RegistrationView_post Examples.is_email Examples.alice "k1" 100
                   empty_store).2 = HTTP_201_CREATED
  ∧ ∃ u e,
      validated Examples.is_email Examples.alice "username" = Some (VStr u)
      ∧ validated Examples.is_email Examples.alice "email" = Some (VStr e)
      ∧ (RegistrationView_post Examples.is_email Examples.alice "k1" 100 empty_store).2
        = mkResponse HTTP_201_CREATED
            (RDict {[ "token" := VStr "k1";
                      "username" := VStr (Py.join " " (Py.split (Py.title u)));
                      "email" := VStr e;
                      "user_id" := VInt (users_seq empty_store) ]}).
Proof.
  split; [exact empty_store_wf|]. split; [reflexivity|]. split; [reflexivity|].
  exact (registration_response Examples.is_email Examples.alice "k1" 100 empty_store
           Examples.store_alice _ empty_store_wf eq_refl eq_refl).
Defined.

Lemma registration_repeated_witness :
  RegistrationView_post Examples.is_email Examples.alice "k1" 100 empty_store
  = (Examples.store_alice,
     (RegistrationView_post Examples.is_email Examples.alice "k1" 100 empty_store).2)
  ∧ status_code (RegistrationView_post Examples.is_email Examples.alice "k1" 100
                   empty_store).2 = HTTP_201_CREATED
  ∧ ∀ key' now',
      RegistrationView_post Examples.is_email Examples.alice key' now' Examples.store_alice
      = (Examples.store_alice,
         mkResponse HTTP_400_BAD_REQUEST
           (RDict {[ "error" := VStr "This email is already taken" ]})).
Proof.
  split; [reflexivity|]. split; [reflexivity|].
  exact (registration_cannot_be_repeated Examples.is_email Examples.alice "k1" 100
           empty_store Examples.store_alice _ eq_refl eq_refl).
Defined.

Lemma registration_email_witness :
  (<["email" := JStr "nobody"]> Examples.alice : gmap string json) !! "email"
  = Some (JStr "nobody")
  ∧ Py.strip "nobody" ≠ ""
  ∧ Examples.is_email (Py.strip "nobody") = false
  ∧ ∃ errors messages,
      RegistrationView_post Examples.is_email (<["email" := JStr "nobody"]> Examples.alice)
        "k1" 100 empty_store
      = (empty_store, mkResponse HTTP_400_BAD_REQUEST (RDict errors))
      ∧ errors !! "email" = Some (VStrs messages)
      ∧ "Enter a valid email address." ∈ messages.
Proof.
  assert (Py.strip "nobody" ≠ "") as H by (vm_compute; congruence).
  split; [reflexivity|]. split; [exact H|]. split; [reflexivity|].
  exact (registration_checks_the_email Examples.is_email
           (<["email" := JStr "nobody"]> Examples.alice) "k1" 100 empty_store "nobody"
           eq_refl H eq_refl).
Defined.

(** ** The Post endpoints: retrieve, list, destroy and update *)

Section PostEndpoints.

Local Abbreviation not_found s :=
  (s, mkResponse HTTP_404_NOT_FOUND
        (RDict {[ "detail" := VStr "No Post matches the given query." ]})).

Lemma Post_representation s p :
  Drf.to_representation (Post_fields s) (Post_getattr p) = Post_data p.
Proof. unfold Post_data. by rewrite <- insert_empty. Qed.

Lemma first_where_unique {A : Type} (f : A → Z) (l : list A) (x : A) :
  NoDup (f <$> l) → x ∈ l → Orm.first_where (λ y, f y = f x) l = Some x.
Proof.
  unfold Orm.first_where. induction l as [|y l IH]; [by intros _ ?%elem_of_nil|].
  rewrite fmap_cons, NoDup_cons. intros [Hy Hl] Hin.
  apply elem_of_cons in Hin as [->|Hin].
  - by rewrite filter_cons_True.
  - rewrite filter_cons_False; [by apply IH|].
    intros Heq. apply Hy. rewrite Heq. by apply list_elem_of_fmap_2.
Qed.

Lemma get_object_stored s p : wf_store s → p ∈ posts s → get_object (Post.id p) s = Ok p.
Proof.
  intros Hwf Hin. unfold get_object.
  by rewrite (first_where_unique Post.id (posts s) p (wf_post_ids s Hwf) Hin).
Qed.

Lemma get_object_missing s pk : pk ∉ Post.id <$> posts s → get_object pk s = Raise (Http404 "No Post matches the given query.").
Proof.
  intros Hno. unfold get_object.
  rewrite (proj2 (OrmFacts.first_where_None _ _)); [done|].
  apply Forall_forall. intros q Hq Hid. apply Hno. rewrite <- Hid.
  by apply list_elem_of_fmap_2.
Qed.

(** Every action addressed to a key that no post has is answered 404. *)
Lemma missing_post_not_found a pk request now s u :
  perform_authentication request s = Ok (Some u) →
  pk ∉ Post.id <$> posts s →
  a ∈ [retrieve pk; update pk; partial_update pk; destroy pk] →
  PostViewSet a request now s = not_found s.
Proof.
  intros Hu Hno Ha. rewrite (PostViewSet_authenticated _ _ _ _ u Hu).
  repeat (apply elem_of_cons in Ha as [->|Ha]); [| | | |by apply elem_of_nil in Ha];
    cbn [PostViewSet_action]; rewrite ?PostViewSet_update_eq;
    by rewrite (get_object_missing s pk Hno).
Qed.

Lemma retrieve_stored request now s u p :
  wf_store s →
  perform_authentication request s = Ok (Some u) →
  p ∈ posts s →
  PostViewSet (retrieve (Post.id p)) request now s
  = (s, mkResponse HTTP_200_OK (RDict (Post_data p))).
Proof.
  intros Hwf Hu Hin. rewrite (PostViewSet_authenticated _ _ _ _ u Hu).
  cbn [PostViewSet_action]. rewrite (get_object_stored s p Hwf Hin).
  cbn [mbind result_bind]. rewrite PostSerializer_fields. cbn [mbind result_bind].
  by rewrite Post_representation.
Qed.

(** X11.  Retrieving a stored post by its key, as any authenticated
    caller, returns 200 with the six columns of that post and writes
    nothing. *)
Theorem retrieve_returns_the_stored_post request now s u p :
  wf_store s →
  perform_authentication request s = Ok (Some u) →
  p ∈ posts s →
  PostViewSet (retrieve (Post.id p)) request now s
  = (s, mkResponse HTTP_200_OK (RDict (Post_data p))).
Proof. apply retrieve_stored. Qed.

(** X12.  Deleting a stored post, as any authenticated caller whether its
    author or not, is answered 204 and removes exactly that post: the other
    posts stay, in order, the table is one row shorter, and no other table
    changes. *)
Theorem destroy_removes_exactly_that_post request now s u p :
  wf_store s →
  perform_authentication request s = Ok (Some u) →
  p ∈ posts s →
  ∃ s',
    PostViewSet (destroy (Post.id p)) request now s
    = (s', mkResponse HTTP_204_NO_CONTENT RNone)
    ∧ sublist (posts s') (posts s)
    ∧ (∀ q, q ∈ posts s' ↔ q ∈ posts s ∧ q ≠ p)
    ∧ (length (posts s') + 1 = length (posts s))%nat
    ∧ users s' = users s ∧ profiles s' = profiles s ∧ tokens s' = tokens s
    ∧ chats s' = chats s ∧ messages s' = messages s.
Proof.
  intros Hwf Hu Hin. rewrite (PostViewSet_authenticated _ _ _ _ u Hu).
  cbn [PostViewSet_action]. rewrite (get_object_stored s p Hwf Hin).
  cbn [mbind result_bind]. eexists. split; [reflexivity|].
  cbn [posts Post_delete set_posts users profiles tokens chats messages].
  split; [apply sublist_filter|].
  pose proof (wf_post_ids s Hwf) as Hnd.
  assert (∀ q, q ∈ posts s → Post.id q = Post.id p → q = p) as Hkey.
  { intros q Hq Hid. apply (NoDup_fmap_eq Post.id (posts s)); done. }
  split.
  { intros q. rewrite list_elem_of_filter. split.
    - intros [Hne Hq]. split; [done|]. by intros ->.
    - intros [Hq Hne]. split; [|done]. intros Hid. by apply Hne, Hkey. }
  split; [|done].
  clear Hkey. revert Hnd Hin.
  induction (posts s) as [|q l IH]; [by intros _ ?%elem_of_nil|].
  rewrite fmap_cons, NoDup_cons. intros [Hq Hl] Hin.
  apply elem_of_cons in Hin as [->|Hin].
  - rewrite filter_cons_False by (intros Hn; by apply Hn).
    assert (filter (λ r, Post.id r ≠ Post.id q) l = l) as ->; [|cbn; lia].
    clear IH Hl. induction l as [|r l IH]; [done|].
    rewrite fmap_cons, not_elem_of_cons in Hq. destruct Hq as [Hr Hq].
    rewrite filter_cons_True by congruence. by rewrite IH.
  - assert (Post.id q ≠ Post.id p) as Hne.
    { intros Heq. apply Hq. rewrite Heq. by apply list_elem_of_fmap_2. }
    rewrite filter_cons_True by done.
    cbn [length]. rewrite <- (IH Hl Hin). lia.
Qed.

(** X13.  A deleted post is gone: after a successful delete, retrieving,
    replacing, patching or deleting that key is answered 404 for every
    authenticated caller, and writes nothing. *)
Theorem destroyed_post_is_gone request now s s' resp pk :
  PostViewSet (destroy pk) request now s = (s', resp) →
  status_code resp = HTTP_204_NO_CONTENT →
  ∀ a request' now' u',
    perform_authentication request' s' = Ok (Some u') →
    a ∈ [retrieve pk; update pk; partial_update pk; destroy pk] →
    (PostViewSet a request' now' s').1 = s'
    ∧ status_code (PostViewSet a request' now' s').2 = HTTP_404_NOT_FOUND.
Proof.
  intros Hdel Hst a request' now' u' Hu' Ha.
  enough (PostViewSet a request' now' s' = not_found s') as -> by done.
  apply (missing_post_not_found a pk request' now' s' u' Hu'); [|done].
  destruct (perform_authentication request s) as [[u|]|e] eqn:Hu.
  2,3: destruct (PostViewSet_unauthenticated (destroy pk) request now s) as [detail Hr];
    [intros u; congruence|rewrite Hr in Hdel; by simplify_eq].
  rewrite (PostViewSet_authenticated _ _ _ _ u Hu) in Hdel. cbn [PostViewSet_action] in Hdel.
  destruct (get_object pk s) as [p|e] eqn:Hp; cbn [mbind result_bind] in Hdel.
  - apply get_object_Ok in Hp as [_ Hid]. injection Hdel as <- <-.
    cbn [posts Post_delete set_posts]. rewrite Hid.
    intros (q & Hq & [Hne _]%list_elem_of_filter)%list_elem_of_fmap. congruence.
  - unfold get_object in Hp. destruct (Orm.first_where _ _); [done|].
    injection Hp as <-. injection Hdel as <- <-. done.
Qed.

(** X14.  The Post endpoints check no ownership: two authenticated
    callers, whoever they are, get the same answer and the same store from
    every action other than create when they send the same data. *)
Theorem post_actions_do_not_depend_on_the_caller a request1 request2 now s u1 u2 :
  perform_authentication request1 s = Ok (Some u1) →
  perform_authentication request2 s = Ok (Some u2) →
  request_data request1 = request_data request2 →
  a ≠ create →
  PostViewSet a request1 now s = PostViewSet a request2 now s.
Proof.
  intros H1 H2 Hd Ha.
  rewrite (PostViewSet_authenticated _ _ _ _ u1 H1).
  rewrite (PostViewSet_authenticated _ _ _ _ u2 H2).
  destruct a; try done; cbn [PostViewSet_action]; unfold PostViewSet_update;
    by rewrite Hd.
Qed.

(** The answer 201 of create: one post is appended, with the next key. *)
Lemma create_created request now s s1 resp :
  PostViewSet create request now s = (s1, resp) →
  status_code resp = HTTP_201_CREATED →
  ∃ u p,
    perform_authentication request s = Ok (Some u)
    ∧ s1 = insert_post p s
    ∧ Post.id p = posts_seq s
    ∧ Post.author p = User.id u
    ∧ Post.created_at p = now
    ∧ p = assign_attributes
            (<["author" := VInt (User.id u)]>
               (Drf.to_internal_value (Post_fields s) false (request_data request)).1)
            ["title"; "content"; "chat"]
            (Post.mk (posts_seq s) None (User.id u) "" "" now)
    ∧ (Drf.to_internal_value (Post_fields s) false (request_data request)).2 = ∅
    ∧ resp = mkResponse HTTP_201_CREATED (RDict (Post_data p)).
Proof.
  intros Hpost Hst.
  destruct (perform_authentication request s) as [[u|]|e] eqn:Hu.
  2,3: destruct (PostViewSet_unauthenticated create request now s) as [detail Hr];
    [intros u; congruence|rewrite Hr in Hpost; by simplify_eq].
  rewrite (PostViewSet_authenticated _ _ _ _ u Hu), PostViewSet_create_eq in Hpost.
  destruct (Drf.run_validation_all _ _ _) as [ret|e] eqn:Hv; cbn [mbind result_bind] in Hpost.
  - apply run_validation_all_Ok in Hv as [-> He].
    injection Hpost as <- <-. eexists u, _. split; [done|]. split; [reflexivity|].
    set (kwargs := <["author" := _]> _).
    destruct (assign_frame kwargs ["title"; "content"; "chat"]
                (Post.mk (posts_seq s) None (User.id u) "" "" now))
      as (Hid & Hc & _).
    assert (Post.author
              (assign_attributes kwargs ["title"; "content"; "chat"]
                 (Post.mk (posts_seq s) None (User.id u) "" "" now)) = User.id u) as Ha.
    { unfold assign_attributes. cbn [foldl].
      repeat (case_match; rewrite ?setattr_author by done); done. }
    repeat split; done.
  - apply run_validation_all_Raise in Hv as [-> _]. injection Hpost as <- <-. done.
Qed.

(** X15.  A created post can be read back: after a create answered 201,
    retrieving the key of the new post, as any authenticated caller, returns
    200 with the data of the create response; the key is the next value of
    the sequence, under "id" in the response. *)
Theorem created_post_can_be_retrieved request now s s1 resp :
  wf_store s →
  PostViewSet create request now s = (s1, resp) →
  status_code resp = HTTP_201_CREATED →
  response_field resp "id" = Some (VInt (posts_seq s))
  ∧ ∀ request' now' u',
      perform_authentication request' s1 = Ok (Some u') →
      PostViewSet (retrieve (posts_seq s)) request' now' s1
      = (s1, mkResponse HTTP_200_OK (data resp)).
Proof.
  intros Hwf Hpost Hst.
  destruct (create_created request now s s1 resp Hpost Hst)
    as (u & p & Hu & -> & Hid & _ & _ & _ & _ & ->).
  split; [unfold response_field, Post_data; cbn [data]; by rewrite lookup_insert_eq, Hid|].
  intros request' now' u' Hu'. rewrite <- Hid. cbn [data].
  apply (retrieve_stored request' now' (insert_post p s) u'); [|done|].
  - by apply wf_insert_post.
  - cbn. apply elem_of_app. right. by apply list_elem_of_singleton.
Qed.

(** X16.  The list action returns 200 with one entry per stored post, in
    the order of the table, and each entry is what retrieving that post
    returns; nothing is written. *)
Theorem list_agrees_with_retrieve request now s u :
  wf_store s →
  perform_authentication request s = Ok (Some u) →
  ∃ entries,
    PostViewSet list_action request now s = (s, mkResponse HTTP_200_OK (RList entries))
    ∧ length entries = length (posts s)
    ∧ ∀ i p, posts s !! i = Some p →
        ∃ entry, entries !! i = Some entry
                 ∧ PostViewSet (retrieve (Post.id p)) request now s
                   = (s, mkResponse HTTP_200_OK (RDict entry)).
Proof.
  intros Hwf Hu. exists (Post_data <$> posts s). split; [|split].
  - rewrite (PostViewSet_authenticated _ _ _ _ u Hu). cbn [PostViewSet_action].
    rewrite PostSerializer_fields. cbn [mbind result_bind].
    reflexivity.
  - by rewrite length_fmap.
  - intros i p Hp. exists (Post_data p). split; [by rewrite list_lookup_fmap, Hp|].
    apply (retrieve_stored request now s u p Hwf Hu). by eapply list_elem_of_lookup_2.
Qed.

(** PUT and PATCH of a stored post, by the outcome of field validation. *)
Lemma update_outcome (partial : bool) pk request now s u p :
  perform_authentication request s = Ok (Some u) →
  get_object pk s = Ok p →
  let ret := (Drf.to_internal_value (Post_fields s) partial (request_data request)).1 in
  let errors := (Drf.to_internal_value (Post_fields s) partial (request_data request)).2 in
  let p' := ModelSerializer_update (Post_fields s) ret p in
  PostViewSet (if partial then partial_update pk else update pk) request now s
  = if bool_decide (errors = ∅)
    then (Post_save p' s, mkResponse HTTP_200_OK (RDict (Post_data p')))
    else (s, mkResponse HTTP_400_BAD_REQUEST (RDict errors)).
Proof.
  intros Hu Hp. cbn zeta. rewrite (PostViewSet_authenticated _ _ _ _ u Hu).
  assert (PostViewSet_action (if partial then partial_update pk else update pk)
            (Some u) request now s = PostViewSet_update partial pk request s) as ->
    by by destruct partial.
  rewrite PostViewSet_update_eq, Hp. cbn [mbind result_bind].
  unfold Drf.run_validation_all.
  destruct (Drf.to_internal_value _ _ _) as [ret errors]. cbn [fst snd].
  case_bool_decide; cbn [mbind result_bind]; [|done].
  by rewrite Post_representation.
Qed.

Lemma create_invalid request now s u :
  perform_authentication request s = Ok (Some u) →
  (Drf.to_internal_value (Post_fields s) false (request_data request)).2 ≠ ∅ →
  PostViewSet create request now s
  = (s, mkResponse HTTP_400_BAD_REQUEST
          (RDict (Drf.to_internal_value (Post_fields s) false (request_data request)).2)).
Proof.
  intros Hu He. rewrite (PostViewSet_authenticated _ _ _ _ u Hu), PostViewSet_create_eq.
  unfold Drf.run_validation_all.
  destruct (Drf.to_internal_value _ _ _) as [ret errors]. cbn [fst snd] in *.
  by rewrite bool_decide_eq_false_2.
Qed.

Lemma Post_error_present s partial (data : gmap string json) name f detail :
  (name, f) ∈ Post_fields s →
  Drf.run_validation f partial (data !! name) = Drf.Invalid detail →
  (Drf.to_internal_value (Post_fields s) partial data).2 !! name = Some (VStrs detail)
  ∧ (Drf.to_internal_value (Post_fields s) partial data).2 ≠ ∅.
Proof.
  intros Hin Hv.
  pose proof (DrfFacts.error_present _ partial data name f detail (Post_fields_NoDup s)
                Hin Hv) as He.
  split; [done|]. intros Hem. by rewrite Hem, lookup_empty in He.
Qed.

Lemma title_field_in s :
  ("title", Drf.Char false (Drf.new_CharField true false true (Some 200%nat)))
  ∈ Post_fields s.
Proof. apply elem_of_cons; right. by left. Qed.

Lemma content_field_in s :
  ("content", Drf.Char false (Drf.new_CharField true false true None)) ∈ Post_fields s.
Proof. do 2 (apply elem_of_cons; right). by left. Qed.

Lemma chat_field_in s :
  ("chat", Drf.Related (Drf.mkPrimaryKeyRelatedField false true (Chat.id <$> chats s)))
  ∈ Post_fields s.
Proof. do 4 (apply elem_of_cons; right). by left. Qed.

(** X17.  Create and PUT need the whole post: a create, or a PUT of a
    stored post, that leaves out the title or the content is answered 400
    with "This field is required." under the name of the field and writes
    nothing, where a PATCH reports no error for the field left out. *)
Theorem title_and_content_are_required a request now s u name :
  perform_authentication request s = Ok (Some u) →
  a = create ∨ (∃ pk p, a = update pk ∧ get_object pk s = Ok p) →
  name = "title" ∨ name = "content" →
  request_data request !! name = None →
  (∃ errors,
     PostViewSet a request now s = (s, mkResponse HTTP_400_BAD_REQUEST (RDict errors))
     ∧ errors !! name = Some (VStrs [Drf.required_message]))
  ∧ (Drf.to_internal_value (Post_fields s) true (request_data request)).2 !! name = None.
Proof.
  intros Hu Ha Hname Hd. split.
  - assert (∃ f, (name, f) ∈ Post_fields s
                 ∧ Drf.run_validation f false (request_data request !! name)
                   = Drf.Invalid [Drf.required_message]) as (f & Hin & Hv).
    { destruct Hname as [-> | ->]; eexists;
        (split; [first [apply title_field_in | apply content_field_in]|]);
        by rewrite Hd. }
    destruct (Post_error_present s false _ name f _ Hin Hv) as [He Hne].
    eexists. split; [|exact He].
    destruct Ha as [->|(pk & p & -> & Hp)].
    + by apply (create_invalid request now s u).
    + rewrite (update_outcome false pk request now s u p Hu Hp). cbn zeta.
      by rewrite bool_decide_eq_false_2.
  - destruct ((Drf.to_internal_value (Post_fields s) true (request_data request)).2
                !! name) as [v|] eqn:E; [|done]. exfalso.
    assert (∃ f detail, (name, f) ∈ Post_fields s
                        ∧ Drf.run_validation f true (request_data request !! name)
                          = Drf.Invalid detail) as (f & detail & Hin & Hv).
    { revert E. generalize (request_data request). intros data.
      induction (Post_fields s) as [|[n g] rest IH]; [by cbn; rewrite lookup_empty|].
      rewrite DrfFacts.to_internal_value_cons.
      destruct (Drf.run_validation g true (data !! n)) as [|w|detail] eqn:Hr; cbn [snd].
      - intros (f & dt & ? & ?)%IH. exists f, dt. split; [by right|done].
      - intros (f & dt & ? & ?)%IH. exists f, dt. split; [by right|done].
      - destruct (decide (n = name)) as [->|Hn].
        + intros _. exists g, detail. split; [by left|done].
        + rewrite lookup_insert_ne by done.
          intros (f & dt & ? & ?)%IH. exists f, dt. split; [by right|done]. }
    rewrite Hd, DrfFacts.run_validation_absent_partial in Hv. done.
Qed.

(** The validated value of a field that was supplied and raised no
    error. *)
Lemma Post_validated_present s partial (data : gmap string json) name f :
  (Drf.to_internal_value (Post_fields s) partial data).2 = ∅ →
  (name, f) ∈ Post_fields s →
  ∀ v, Drf.run_validation f partial (data !! name) = Drf.Value v →
       (Drf.to_internal_value (Post_fields s) partial data).1 !! name = Some v.
Proof.
  intros _ Hin v Hv.
  by apply (DrfFacts.validated_value_present _ _ _ name f v (Post_fields_NoDup s)).
Qed.

(** The post after the validated values are assigned. *)
Lemma updated_instance_values s partial (data : gmap string json) p :
  let ret := (Drf.to_internal_value (Post_fields s) partial data).1 in
  let p' := ModelSerializer_update (Post_fields s) ret p in
  (∀ t, ret !! "title" = Some (VStr t) → Post.title p' = t)
  ∧ (∀ c, ret !! "content" = Some (VStr c) → Post.content p' = c)
  ∧ (∀ n, ret !! "chat" = Some (VInt n) → Post.chat p' = Some n)
  ∧ (ret !! "chat" = Some VNone → Post.chat p' = None)
  ∧ (ret !! "chat" = None → Post.chat p' = Post.chat p).
Proof.
  cbn zeta. set (ret := (Drf.to_internal_value (Post_fields s) partial data).1).
  unfold ModelSerializer_update.
  change ((Post_fields s).*1) with ["id"; "title"; "content"; "created_at"; "chat"; "author"].
  assert (ret !! "id" = None) as Hi
    by (apply Post_read_only_not_validated; set_solver).
  assert (ret !! "created_at" = None) as Hc
    by (apply Post_read_only_not_validated; set_solver).
  assert (ret !! "author" = None) as Ha
    by (apply Post_read_only_not_validated; set_solver).
  pose proof (Post_title_validated s partial data) as Ht.
  pose proof (Post_content_validated s partial data) as Hn.
  pose proof (Post_chat_validated s partial data) as Hh.
  fold ret in Ht, Hn, Hh.
  unfold assign_attributes. cbn [foldl]. rewrite Hi, Hc, Ha.
  destruct (ret !! "title") as [vt|];
    [destruct (Ht vt eq_refl) as (t & -> & _)|];
    (destruct (ret !! "content") as [vc|];
     [destruct (Hn vc eq_refl) as (c & ->)|]);
    (destruct (ret !! "chat") as [vh|];
     [destruct (Hh vh eq_refl) as [->|(n & -> & _)]|]);
    repeat split; intros; by simplify_eq.
Qed.

(** X18.  What PUT and PATCH write: when the update of a stored post is
    answered 200, the stored post afterwards, which is the one the response
    shows, has the title and the content that were sent, trimmed, where they
    were sent as text; its chat is the chat whose key was sent, no chat
    where null was sent, and the chat it had where the request names none,
    for PUT as for PATCH. *)
Theorem update_sets_the_supplied_values (partial : bool) pk request now s u p s' resp :
  perform_authentication request s = Ok (Some u) →
  get_object pk s = Ok p →
  PostViewSet (if partial then partial_update pk else update pk) request now s
  = (s', resp) →
  status_code resp = HTTP_200_OK →
  ∃ p',
    p' ∈ posts s' ∧ Post.id p' = pk
    ∧ resp = mkResponse HTTP_200_OK (RDict (Post_data p'))
    ∧ (∀ t, request_data request !! "title" = Some (JStr t) → Post.title p' = Py.strip t)
    ∧ (∀ c, request_data request !! "content" = Some (JStr c) →
            Post.content p' = Py.strip c)
    ∧ (∀ n, request_data request !! "chat" = Some (JInt n) →
            Post.chat p' = Some n ∧ n ∈ Chat.id <$> chats s)
    ∧ (request_data request !! "chat" = Some JNull → Post.chat p' = None)
    ∧ (request_data request !! "chat" = None → Post.chat p' = Post.chat p).
Proof.
  intros Hu Hp Hpost Hst.
  rewrite (update_outcome partial pk request now s u p Hu Hp) in Hpost. cbn zeta in Hpost.
  case_bool_decide as He; [|by simplify_eq].
  set (data := request_data request) in *.
  set (ret := (Drf.to_internal_value (Post_fields s) partial data).1) in *.
  set (p' := ModelSerializer_update (Post_fields s) ret p) in *.
  destruct (updated_instance_values s partial data p) as (Ht & Hc & Hn & Hnull & Hkeep).
  destruct (updated_instance_frame s partial data p) as (Hid & _).
  fold ret p' in Ht, Hc, Hn, Hnull, Hkeep, Hid.
  apply get_object_Ok in Hp as [Hin Hpk].
  pose proof (λ name f, proj1 (DrfFacts.no_errors_iff _ _ _) He name f) as Hne.
  assert (p' ∈ posts (Post_save p' s)) as Hin'.
  { rewrite Post_save_posts. apply list_elem_of_fmap. exists p. split; [|done].
    by rewrite decide_True. }
  exists p'. split; [|split; [|split]].
  - assert (s' = Post_save p' s) as -> by congruence. done.
  - congruence.
  - congruence.
  - clear Hpost Hst Hin'. split; [|split; [|split; [|split]]].
    + intros t Hd. apply Ht.
      apply (Post_validated_present s partial data "title" _ He (title_field_in s)).
      pose proof (λ d, Hne "title" _ d (title_field_in s)) as Hne'. clear Hne. rewrite Hd in Hne' |- *.
      cbn in Hne' |- *. repeat case_match; try done; by destruct (Hne' _ eq_refl).
    + intros c Hd. apply Hc.
      apply (Post_validated_present s partial data "content" _ He (content_field_in s)).
      pose proof (λ d, Hne "content" _ d (content_field_in s)) as Hne'. clear Hne. rewrite Hd in Hne' |- *.
      cbn in Hne' |- *. repeat case_match; try done; by destruct (Hne' _ eq_refl).
    + intros n Hd.
      pose proof (λ d, Hne "chat" _ d (chat_field_in s)) as Hne'. clear Hne. rewrite Hd in Hne'.
      cbn in Hne'. case_bool_decide as Hq; [|by destruct (Hne' _ eq_refl)].
      split; [|done]. apply Hn.
      apply (Post_validated_present s partial data "chat" _ He (chat_field_in s)).
      rewrite Hd. cbn. by rewrite bool_decide_eq_true_2.
    + intros Hd. apply Hnull.
      apply (Post_validated_present s partial data "chat" _ He (chat_field_in s)).
      by rewrite Hd.
    + intros Hd. apply Hkeep. apply DrfFacts.validated_value_absent.
      intros f v Hf.
      assert (f = Drf.Related (Drf.mkPrimaryKeyRelatedField false true
                                 (Chat.id <$> chats s))) as ->.
      { unfold Post_fields in Hf. in_fields Hf. done. }
      rewrite Hd. cbn. unfold Drf.on_absent. by destruct partial.
Qed.

(** X19.  The title of a post is checked on create, PUT and PATCH: a
    title that is empty or all whitespace is rejected with "This field may
    not be blank.", a title of more than 200 characters after trimming with
    "Ensure this field has no more than 200 characters."; the answer is 400
    with the messages under "title", and nothing is written. *)
Theorem title_is_checked a request now s u t :
  perform_authentication request s = Ok (Some u) →
  request_data request !! "title" = Some (JStr t) →
  Py.strip t = "" ∨ (200 < Py.len (Py.strip t))%nat →
  a = create
  ∨ (∃ pk p, (a = update pk ∨ a = partial_update pk) ∧ get_object pk s = Ok p) →
  ∃ errors messages,
    PostViewSet a request now s = (s, mkResponse HTTP_400_BAD_REQUEST (RDict errors))
    ∧ errors !! "title" = Some (VStrs messages)
    ∧ (Py.strip t = "" → messages = [Drf.blank_message])
    ∧ ((200 < Py.len (Py.strip t))%nat →
       "Ensure this field has no more than 200 characters." ∈ messages).
Proof.
  intros Hu Hd Ht Ha.
  assert (∀ partial, ∃ messages,
            Drf.run_validation
              (Drf.Char false (Drf.new_CharField true false true (Some 200%nat)))
              partial (request_data request !! "title") = Drf.Invalid messages
            ∧ (Py.strip t = "" → messages = [Drf.blank_message])
            ∧ ((200 < Py.len (Py.strip t))%nat →
               "Ensure this field has no more than 200 characters." ∈ messages))
    as Hv.
  { intros partial. rewrite Hd. cbn [Drf.run_validation Drf.CharField_run_validation
      Drf.trim_whitespace Drf.allow_blank Drf.new_CharField andb].
    destruct (decide (Py.strip t = "")) as [He|He].
    - rewrite (bool_decide_eq_true_2 _ He), orb_true_r.
      eexists. split; [done|]. split; [done|]. rewrite He. cbn. lia.
    - destruct Ht as [Ht|Ht]; [done|].
      assert (t ≠ "") by (intros ->; by apply He).
      rewrite !bool_decide_eq_false_2 by done. cbn [orb].
      unfold Drf.run_validators.
      change (Drf.validators (Drf.new_CharField true false true (Some 200%nat)))
        with [Drf.MaxLengthValidator 200; Drf.ProhibitNullCharactersValidator].
      cbn [omap list_omap]. unfold Drf.MaxLengthValidator at 1.
      rewrite (proj2 (Nat.leb_gt _ _) Ht).
      eexists. split; [reflexivity|]. split; [done|]. intros _. by left. }
  destruct Ha as [->|(pk & p & Ha & Hp)].
  - destruct (Hv false) as (messages & Hinv & Hb & Hl).
    destruct (Post_error_present s false _ "title" _ _ (title_field_in s) Hinv) as [He Hne].
    eexists _, messages. split; [by apply (create_invalid request now s u)|]. done.
  - assert (∃ partial : bool, a = if partial then partial_update pk else update pk)
      as [partial ->].
    { destruct Ha as [-> | ->]; [by exists false|by exists true]. }
    destruct (Hv partial) as (messages & Hinv & Hb & Hl).
    destruct (Post_error_present s partial _ "title" _ _ (title_field_in s) Hinv)
      as [He Hne].
    eexists _, messages. split; [|done].
    rewrite (update_outcome partial pk request now s u p Hu Hp). cbn zeta.
    by rewrite bool_decide_eq_false_2.
Qed.

(** The post that create builds from the validated values. *)
Lemma created_instance_values s (data : gmap string json) uid now :
  let ret := (Drf.to_internal_value (Post_fields s) false data).1 in
  let p := assign_attributes (<["author" := VInt uid]> ret) ["title"; "content"; "chat"]
             (Post.mk (posts_seq s) None uid "" "" now) in
  (∀ t, ret !! "title" = Some (VStr t) → Post.title p = t)
  ∧ (∀ c, ret !! "content" = Some (VStr c) → Post.content p = c)
  ∧ (∀ n, ret !! "chat" = Some (VInt n) → Post.chat p = Some n)
  ∧ (ret !! "chat" = Some VNone → Post.chat p = None)
  ∧ (ret !! "chat" = None → Post.chat p = None).
Proof.
  cbn zeta. set (ret := (Drf.to_internal_value (Post_fields s) false data).1).
  pose proof (Post_title_validated s false data) as Ht.
  pose proof (Post_content_validated s false data) as Hn.
  pose proof (Post_chat_validated s false data) as Hh.
  fold ret in Ht, Hn, Hh.
  unfold assign_attributes. cbn [foldl]. rewrite !lookup_insert_ne by done.
  destruct (ret !! "title") as [vt|];
    [destruct (Ht vt eq_refl) as (t & -> & _)|];
    (destruct (ret !! "content") as [vc|];
     [destruct (Hn vc eq_refl) as (c & ->)|]);
    (destruct (ret !! "chat") as [vh|];
     [destruct (Hh vh eq_refl) as [->|(n & -> & _)]|]);
    repeat split; intros; by simplify_eq.
Qed.

(** X20.  What create stores: a create answered 201 appends one post,
    the one the response shows, and changes no other table; the post has the
    next key, the caller as author and the time of the request as creation
    time; its title and content are the ones sent, trimmed; its chat is the
    chat whose key was sent, and no chat where null or nothing was sent. *)
Theorem create_stores_the_supplied_values request now s s1 resp :
  PostViewSet create request now s = (s1, resp) →
  status_code resp = HTTP_201_CREATED →
  ∃ u p,
    perform_authentication request s = Ok (Some u)
    ∧ s1 = insert_post p s
    ∧ resp = mkResponse HTTP_201_CREATED (RDict (Post_data p))
    ∧ Post.id p = posts_seq s ∧ Post.author p = User.id u ∧ Post.created_at p = now
    ∧ (∀ t, request_data request !! "title" = Some (JStr t) → Post.title p = Py.strip t)
    ∧ (∀ c, request_data request !! "content" = Some (JStr c) →
            Post.content p = Py.strip c)
    ∧ (∀ n, request_data request !! "chat" = Some (JInt n) →
            Post.chat p = Some n ∧ n ∈ Chat.id <$> chats s)
    ∧ (request_data request !! "chat" = Some JNull
       ∨ request_data request !! "chat" = None → Post.chat p = None).
Proof.
  intros Hpost Hst.
  destruct (create_created request now s s1 resp Hpost Hst)
    as (u & p & Hu & -> & Hid & Hau & Hcr & Hp & He & ->).
  set (data := request_data request) in *.
  destruct (created_instance_values s data (User.id u) now)
    as (Ht & Hc & Hn & Hnull & Hnone).
  rewrite <- Hp in Ht, Hc, Hn, Hnull, Hnone. clear Hp Hpost Hst.
  pose proof (λ name f, proj1 (DrfFacts.no_errors_iff _ _ _) He name f) as Hne.
  exists u, p. do 6 (split; [done|]). split; [|split; [|split]].
  - intros t Hd. apply Ht.
    apply (Post_validated_present s false data "title" _ He (title_field_in s)).
    pose proof (λ d, Hne "title" _ d (title_field_in s)) as Hne'. clear Hne.
    rewrite Hd in Hne' |- *.
    cbn in Hne' |- *. repeat case_match; try done; by destruct (Hne' _ eq_refl).
  - intros c Hd. apply Hc.
    apply (Post_validated_present s false data "content" _ He (content_field_in s)).
    pose proof (λ d, Hne "content" _ d (content_field_in s)) as Hne'. clear Hne.
    rewrite Hd in Hne' |- *.
    cbn in Hne' |- *. repeat case_match; try done; by destruct (Hne' _ eq_refl).
  - intros n Hd.
    pose proof (λ d, Hne "chat" _ d (chat_field_in s)) as Hne'. clear Hne.
    rewrite Hd in Hne'.
    cbn in Hne'. case_bool_decide as Hq; [|by destruct (Hne' _ eq_refl)].
    split; [|done]. apply Hn.
    apply (Post_validated_present s false data "chat" _ He (chat_field_in s)).
    rewrite Hd. cbn. by rewrite bool_decide_eq_true_2.
  - intros [Hd|Hd].
    + apply Hnull.
      apply (Post_validated_present s false data "chat" _ He (chat_field_in s)).
      by rewrite Hd.
    + apply Hnone. apply DrfFacts.validated_value_absent.
      intros f v Hf.
      assert (f = Drf.Related (Drf.mkPrimaryKeyRelatedField false true
                                 (Chat.id <$> chats s))) as ->.
      { unfold Post_fields in Hf. in_fields Hf. done. }
      by rewrite Hd.
Qed.

End PostEndpoints.

(** The statements above, exercised on the stores of the examples. *)

Lemma store_two_wf : wf_store Scenario.store_two.
Proof.
  split; try (apply (bool_decide_unpack _); by vm_compute).
  all: repeat constructor; vm_compute; try congruence.
  all: by intros ?%elem_of_nil.
Qed.

Lemma the_post_stored : Scenario.the_post ∈ posts Examples.store_post.
Proof. by left. Defined.

Lemma the_post_stored_two : Scenario.the_post ∈ posts Scenario.store_two.
Proof. by left. Defined.

Lemma retrieve_witness :
  wf_store Examples.store_post
  ∧ perform_authentication (Examples.as_alice ∅) Examples.store_post
    = Ok (Some Examples.alice_account)
  ∧ Scenario.the_post ∈ posts Examples.store_post
  ∧ PostViewSet (retrieve (Post.id Scenario.the_post)) (Examples.as_alice ∅) 300
      Examples.store_post
    = (Examples.store_post, mkResponse HTTP_200_OK (RDict (Post_data Scenario.the_post))).
Proof.
  split; [exact store_post_wf|]. split; [reflexivity|]. split; [exact the_post_stored|].
  exact (retrieve_returns_the_stored_post (Examples.as_alice ∅) 300 Examples.store_post
           Examples.alice_account Scenario.the_post store_post_wf eq_refl the_post_stored).
Defined.

Lemma destroy_witness :
  wf_store Scenario.store_two
  ∧ perform_authentication (Scenario.as_bob ∅) Scenario.store_two
    = Ok (Some (new_account "bob" "b@x.com" "p2" Examples.store_post))
  ∧ Scenario.the_post ∈ posts Scenario.store_two
  ∧ Post.author Scenario.the_post
    ≠ User.id (new_account "bob" "b@x.com" "p2" Examples.store_post)
  ∧ ∃ s',
      PostViewSet (destroy (Post.id Scenario.the_post)) (Scenario.as_bob ∅) 300
        Scenario.store_two
      = (s', mkResponse HTTP_204_NO_CONTENT RNone)
      ∧ sublist (posts s') (posts Scenario.store_two)
      ∧ (∀ q, q ∈ posts s' ↔ q ∈ posts Scenario.store_two ∧ q ≠ Scenario.the_post)
      ∧ (length (posts s') + 1 = length (posts Scenario.store_two))%nat
      ∧ users s' = users Scenario.store_two
      ∧ profiles s' = profiles Scenario.store_two
      ∧ tokens s' = tokens Scenario.store_two
      ∧ chats s' = chats Scenario.store_two
      ∧ messages s' = messages Scenario.store_two.
Proof.
  split; [exact store_two_wf|]. split; [reflexivity|]. split; [exact the_post_stored_two|].
  split; [vm_compute; congruence|].
  exact (destroy_removes_exactly_that_post (Scenario.as_bob ∅) 300 Scenario.store_two
           _ Scenario.the_post store_two_wf eq_refl the_post_stored_two).
Defined.

Lemma destroyed_witness :
  PostViewSet (destroy 1) (Examples.as_alice ∅) 300 Examples.store_post
  = ((PostViewSet (destroy 1) (Examples.as_alice ∅) 300 Examples.store_post).1,
     mkResponse HTTP_204_NO_CONTENT RNone)
  ∧ status_code (mkResponse HTTP_204_NO_CONTENT RNone) = HTTP_204_NO_CONTENT
  ∧ ∀ a request' now' u',
      perform_authentication request'
        (PostViewSet (destroy 1) (Examples.as_alice ∅) 300 Examples.store_post).1
      = Ok (Some u') →
      a ∈ [retrieve 1; update 1; partial_update 1; destroy 1] →
      (PostViewSet a request' now'
         (PostViewSet (destroy 1) (Examples.as_alice ∅) 300 Examples.store_post).1).1
      = (PostViewSet (destroy 1) (Examples.as_alice ∅) 300 Examples.store_post).1
      ∧ status_code
          (PostViewSet a request' now'
             (PostViewSet (destroy 1) (Examples.as_alice ∅) 300 Examples.store_post).1).2
        = HTTP_404_NOT_FOUND.
Proof.
  split; [reflexivity|]. split; [reflexivity|].
  exact (destroyed_post_is_gone (Examples.as_alice ∅) 300 Examples.store_post _ _ 1
           eq_refl eq_refl).
Defined.

Lemma two_callers_witness :
  perform_authentication (Examples.as_alice {[ "title" := JStr "Mine now" ]})
    Scenario.store_two
  = Ok (Some Examples.alice_account)
  ∧ perform_authentication (Scenario.as_bob {[ "title" := JStr "Mine now" ]})
      Scenario.store_two
    = Ok (Some (new_account "bob" "b@x.com" "p2" Examples.store_post))
  ∧ request_data (Examples.as_alice {[ "title" := JStr "Mine now" ]})
    = request_data (Scenario.as_bob {[ "title" := JStr "Mine now" ]})
  ∧ partial_update 1 ≠ create
  ∧ PostViewSet (partial_update 1) (Examples.as_alice {[ "title" := JStr "Mine now" ]})
      300 Scenario.store_two
    = PostViewSet (partial_update 1) (Scenario.as_bob {[ "title" := JStr "Mine now" ]})
        300 Scenario.store_two.
Proof.
  assert (partial_update 1 ≠ create) as H by congruence.
  split; [reflexivity|]. split; [reflexivity|]. split; [reflexivity|]. split; [exact H|].
  exact (post_actions_do_not_depend_on_the_caller (partial_update 1)
           (Examples.as_alice {[ "title" := JStr "Mine now" ]})
           (Scenario.as_bob {[ "title" := JStr "Mine now" ]}) 300 Scenario.store_two
           _ _ eq_refl eq_refl eq_refl H).
Defined.

Lemma store_chat_wf : wf_store Examples.store_chat.
Proof.
  split; try (apply (bool_decide_unpack _); by vm_compute).
  all: repeat constructor; vm_compute; congruence.
Qed.

Lemma created_post_witness :
  wf_store Examples.store_chat
  ∧ PostViewSet create
      (Examples.as_alice {[ "title" := JStr "T"; "content" := JStr "C"; "chat" := JInt 1 ]})
      200 Examples.store_chat
    = (Examples.store_post,
       (PostViewSet create
          (Examples.as_alice
             {[ "title" := JStr "T"; "content" := JStr "C"; "chat" := JInt 1 ]})
          200 Examples.store_chat).2)
  ∧ status_code
      (PostViewSet create
         (Examples.as_alice
            {[ "title" := JStr "T"; "content" := JStr "C"; "chat" := JInt 1 ]})
         200 Examples.store_chat).2
    = HTTP_201_CREATED
  ∧ response_field
      (PostViewSet create
         (Examples.as_alice
            {[ "title" := JStr "T"; "content" := JStr "C"; "chat" := JInt 1 ]})
         200 Examples.store_chat).2 "id"
    = Some (VInt (posts_seq Examples.store_chat))
  ∧ ∀ request' now' u',
      perform_authentication request' Examples.store_post = Ok (Some u') →
      PostViewSet (retrieve (posts_seq Examples.store_chat)) request' now'
        Examples.store_post
      = (Examples.store_post,
         mkResponse HTTP_200_OK
           (data (PostViewSet create
                    (Examples.as_alice
                       {[ "title" := JStr "T"; "content" := JStr "C"; "chat" := JInt 1 ]})
                    200 Examples.store_chat).2)).
Proof.
  split; [exact store_chat_wf|]. split; [reflexivity|]. split; [reflexivity|].
  exact (created_post_can_be_retrieved
           (Examples.as_alice
              {[ "title" := JStr "T"; "content" := JStr "C"; "chat" := JInt 1 ]})
           200 Examples.store_chat Examples.store_post _ store_chat_wf eq_refl eq_refl).
Defined.

Lemma list_witness :
  wf_store Examples.store_post
  ∧ perform_authentication (Examples.as_alice ∅) Examples.store_post
    = Ok (Some Examples.alice_account)
  ∧ ∃ entries,
      PostViewSet list_action (Examples.as_alice ∅) 300 Examples.store_post
      = (Examples.store_post, mkResponse HTTP_200_OK (RList entries))
      ∧ length entries = length (posts Examples.store_post)
      ∧ ∀ i p, posts Examples.store_post !! i = Some p →
          ∃ entry, entries !! i = Some entry
                   ∧ PostViewSet (retrieve (Post.id p)) (Examples.as_alice ∅) 300
                       Examples.store_post
                     = (Examples.store_post, mkResponse HTTP_200_OK (RDict entry)).
Proof.
  split; [exact store_post_wf|]. split; [reflexivity|].
  exact (list_agrees_with_retrieve (Examples.as_alice ∅) 300 Examples.store_post
           Examples.alice_account store_post_wf eq_refl).
Defined.

Lemma required_witness :
  perform_authentication (Examples.as_alice {[ "content" := JStr "C2" ]})
    Examples.store_post
  = Ok (Some Examples.alice_account)
  ∧ get_object 1 Examples.store_post = Ok Scenario.the_post
  ∧ request_data (Examples.as_alice {[ "content" := JStr "C2" ]}) !! "title" = None
  ∧ (∃ errors,
       PostViewSet (update 1) (Examples.as_alice {[ "content" := JStr "C2" ]}) 300
         Examples.store_post
       = (Examples.store_post, mkResponse HTTP_400_BAD_REQUEST (RDict errors))
       ∧ errors !! "title" = Some (VStrs [Drf.required_message]))
  ∧ (Drf.to_internal_value (Post_fields Examples.store_post) true
       (request_data (Examples.as_alice {[ "content" := JStr "C2" ]}))).2 !! "title"
    = None.
Proof.
  split; [reflexivity|]. split; [reflexivity|]. split; [reflexivity|].
  exact (title_and_content_are_required (update 1)
           (Examples.as_alice {[ "content" := JStr "C2" ]})
           300 Examples.store_post Examples.alice_account "title" eq_refl
           (or_intror (ex_intro _ 1 (ex_intro _ Scenario.the_post (conj eq_refl eq_refl))))
           (or_introl eq_refl) eq_refl).
Defined.

Lemma create_stores_witness :
  PostViewSet create
    (Examples.as_alice {[ "title" := JStr "T"; "content" := JStr "C"; "chat" := JInt 1 ]})
    200 Examples.store_chat
  = (Examples.store_post,
     (PostViewSet create
        (Examples.as_alice
           {[ "title" := JStr "T"; "content" := JStr "C"; "chat" := JInt 1 ]})
        200 Examples.store_chat).2)
  ∧ status_code
      (PostViewSet create
         (Examples.as_alice
            {[ "title" := JStr "T"; "content" := JStr "C"; "chat" := JInt 1 ]})
         200 Examples.store_chat).2
    = HTTP_201_CREATED
  ∧ ∃ u p,
      perform_authentication
        (Examples.as_alice
           {[ "title" := JStr "T"; "content" := JStr "C"; "chat" := JInt 1 ]})
        Examples.store_chat = Ok (Some u)
      ∧ Examples.store_post = insert_post p Examples.store_chat
      ∧ (PostViewSet create
           (Examples.as_alice
              {[ "title" := JStr "T"; "content" := JStr "C"; "chat" := JInt 1 ]})
           200 Examples.store_chat).2
        = mkResponse HTTP_201_CREATED (RDict (Post_data p))
      ∧ Post.id p = posts_seq Examples.store_chat
      ∧ Post.author p = User.id u
      ∧ Post.created_at p = 200
      ∧ (∀ t, request_data
                (Examples.as_alice
                   {[ "title" := JStr "T"; "content" := JStr "C"; "chat" := JInt 1 ]})
              !! "title" = Some (JStr t) →
              Post.title p = Py.strip t)
      ∧ (∀ c, request_data
                (Examples.as_alice
                   {[ "title" := JStr "T"; "content" := JStr "C"; "chat" := JInt 1 ]})
              !! "content" = Some (JStr c) →
              Post.content p = Py.strip c)
      ∧ (∀ n, request_data
                (Examples.as_alice
                   {[ "title" := JStr "T"; "content" := JStr "C"; "chat" := JInt 1 ]})
              !! "chat" = Some (JInt n) →
              Post.chat p = Some n ∧ n ∈ Chat.id <$> chats Examples.store_chat)
      ∧ (request_data
           (Examples.as_alice
              {[ "title" := JStr "T"; "content" := JStr "C"; "chat" := JInt 1 ]})
         !! "chat" = Some JNull
         ∨ request_data
             (Examples.as_alice
                {[ "title" := JStr "T"; "content" := JStr "C"; "chat" := JInt 1 ]})
           !! "chat" = None → Post.chat p = None).
Proof.
  split; [reflexivity|]. split; [reflexivity|].
  exact (create_stores_the_supplied_values
           (Examples.as_alice
              {[ "title" := JStr "T"; "content" := JStr "C"; "chat" := JInt 1 ]})
           200 Examples.store_chat Examples.store_post _ eq_refl eq_refl).
Defined.

Lemma update_sets_witness :
  perform_authentication Examples.title_patch Examples.store_post
  = Ok (Some Examples.alice_account)
  ∧ get_object 1 Examples.store_post = Ok Scenario.the_post
  ∧ status_code (PostViewSet (partial_update 1) Examples.title_patch 300
                   Examples.store_post).2 = HTTP_200_OK
  ∧ ∃ p',
      p' ∈ posts (PostViewSet (partial_update 1) Examples.title_patch 300
                    Examples.store_post).1
      ∧ Post.id p' = 1
      ∧ (PostViewSet (partial_update 1) Examples.title_patch 300 Examples.store_post).2
        = mkResponse HTTP_200_OK (RDict (Post_data p'))
      ∧ (∀ t, request_data Examples.title_patch !! "title" = Some (JStr t) →
              Post.title p' = Py.strip t)
      ∧ (∀ c, request_data Examples.title_patch !! "content" = Some (JStr c) →
              Post.content p' = Py.strip c)
      ∧ (∀ n, request_data Examples.title_patch !! "chat" = Some (JInt n) →
              Post.chat p' = Some n ∧ n ∈ Chat.id <$> chats Examples.store_post)
      ∧ (request_data Examples.title_patch !! "chat" = Some JNull → Post.chat p' = None)
      ∧ (request_data Examples.title_patch !! "chat" = None →
         Post.chat p' = Post.chat Scenario.the_post).
Proof.
  split; [reflexivity|]. split; [reflexivity|]. split; [reflexivity|].
  exact (update_sets_the_supplied_values true 1 Examples.title_patch 300
           Examples.store_post Examples.alice_account Scenario.the_post _ _
           eq_refl eq_refl eq_refl eq_refl).
Defined.

Lemma title_is_checked_witness :
  perform_authentication (Examples.as_alice {[ "title" := JStr "   " ]})
    Examples.store_post
  = Ok (Some Examples.alice_account)
  ∧ request_data (Examples.as_alice {[ "title" := JStr "   " ]}) !! "title"
    = Some (JStr "   ")
  ∧ Py.strip "   " = ""
  ∧ ∃ errors messages,
      PostViewSet create (Examples.as_alice {[ "title" := JStr "   " ]}) 300
        Examples.store_post
      = (Examples.store_post, mkResponse HTTP_400_BAD_REQUEST (RDict errors))
      ∧ errors !! "title" = Some (VStrs messages)
      ∧ (Py.strip "   " = "" → messages = [Drf.blank_message])
      ∧ ((200 < Py.len (Py.strip "   "))%nat →
         "Ensure this field has no more than 200 characters." ∈ messages).
Proof.
  split; [reflexivity|]. split; [reflexivity|]. split; [reflexivity|].
  exact (title_is_checked create (Examples.as_alice {[ "title" := JStr "   " ]}) 300
           Examples.store_post Examples.alice_account "   " eq_refl eq_refl
           (or_introl eq_refl) (or_introl eq_refl)).
Defined.

(** ** Events as store changes, and further invariants of reachable stores *)

Section StoreChanges.

Context (is_email : string → bool).

Lemma perform_authentication_Some request s u :
  perform_authentication request s = Ok (Some u) → u ∈ users s ∧ User.is_active u = true.
Proof.
  unfold perform_authentication. destruct (HTTP_AUTHORIZATION request); [|done].
  destruct (Orm.first_where _ (tokens s)) as [t|]; [|done].
  destruct (Orm.first_where _ (users s)) as [u'|] eqn:Hf; [|done].
  destruct (User.is_active u') eqn:Ha; [|done]. intros [= <-].
  by apply OrmFacts.first_where_Some in Hf as [? _].
Qed.

(** The references of a created post. *)
Lemma created_post_refs s (data : gmap string json) uid now :
  let ret := (Drf.to_internal_value (Post_fields s) false data).1 in
  let p := assign_attributes (<["author" := VInt uid]> ret) ["title"; "content"; "chat"]
             (Post.mk (posts_seq s) None uid "" "" now) in
  Post.id p = posts_seq s ∧ Post.author p = uid
  ∧ refers_to (Chat.id <$> chats s) (Post.chat p) = true.
Proof.
  cbn zeta. set (ret := (Drf.to_internal_value (Post_fields s) false data).1).
  pose proof (Post_title_validated s false data) as Ht.
  pose proof (Post_content_validated s false data) as Hn.
  pose proof (Post_chat_validated s false data) as Hh.
  fold ret in Ht, Hn, Hh.
  unfold assign_attributes. cbn [foldl]. rewrite !lookup_insert_ne by done.
  destruct (ret !! "title") as [vt|];
    [destruct (Ht vt eq_refl) as (t & -> & _)|];
    (destruct (ret !! "content") as [vc|];
     [destruct (Hn vc eq_refl) as (c & ->)|]);
    (destruct (ret !! "chat") as [vh|];
     [destruct (Hh vh eq_refl) as [->|(n & -> & Hin)]|]);
    repeat split; try done; unfold Post_setattr;
    rewrite (bool_decide_eq_true_2 ("chat" = "chat")) by done;
    cbn; by rewrite bool_decide_eq_true_2.
Qed.

(** Every event is at most two elementary changes. *)
Lemma apply_changes ev now s s' :
  apply is_email ev now s = Some s' →
  wf_store s →
  ∃ s1, store_change now s s1 ∧ store_change now s1 s'.
Proof.
  intros Hap Hwf.
  destruct ev as [d key|d key|a request|d|pk|pk|title members|chat author text];
    cbn [apply] in Hap.
  - injection Hap as <-.
    pose proof (RegistrationView_post_outcome is_email d key now s) as Ho.
    destruct (RegistrationView_post is_email d key now s) as [s2 resp]. cbn [fst].
    inversion Ho as [errors _ Hne | u e p r _ _ _ | u e p _ _ _ | u e p _ _ _ _
                     | u e p s3 token Hacc Hr Hem Hun Htok
                     | u e p ex Hacc Hr Hem Hun Htok]; subst;
      try (eexists; split; by constructor).
    + destruct Hacc as [_ _ _ Hu Hs _ _ _ _].
      eexists. split; [by apply (account_stored _ _ u e p)|].
      destruct (Token_get_or_create_Ok _ _ _ _ _ _ Htok)
        as [_ [->|(-> & -> & Hnew & Hkey)]]; [constructor|].
      constructor; [|done|done].
      cbn. rewrite fmap_app. apply elem_of_app. right. by left.
    + destruct Hacc as [_ _ _ Hu Hs _ _ _ _].
      eexists. split; [by apply (account_stored _ _ u e p)|constructor].
  - injection Hap as <-. exists s. split; [constructor|].
    destruct (CustomLogInView_post_cases d key now s)
      as [->|(u & p & account & _ & _ & Ha & [(s1 & token & Ht & ->)|(e & _ & ->)])];
      [constructor| |constructor]. cbn [fst].
    apply authenticate_Some in Ha as (Hf & _ & _).
    apply OrmFacts.first_where_Some in Hf as [Hin _].
    destruct (Token_get_or_create_Ok _ _ _ _ _ _ Ht)
      as [_ [->|(-> & -> & Hnew & Hkey)]]; [constructor|].
    constructor; [|done|done]. by apply list_elem_of_fmap_2.
  - injection Hap as <-. exists s. split; [constructor|].
    destruct (perform_authentication request s) as [[u|]|e] eqn:Hu.
    2,3: destruct (PostViewSet_unauthenticated a request now s) as [detail ->];
      [intros u'; congruence|constructor].
    apply perform_authentication_Some in Hu as Hin. destruct Hin as [Hin _].
    assert (∀ (partial : bool) pk,
              store_change now s
                (PostViewSet (if partial then partial_update pk else update pk)
                   request now s).1) as Hupd.
    { intros partial pk. destruct (get_object pk s) as [p|e] eqn:Hp.
      - rewrite (update_outcome partial pk request now s u p Hu Hp). cbn zeta.
        case_bool_decide as He; [|constructor]. cbn [fst].
        destruct (updated_instance_frame s partial (request_data request) p)
          as (Hid & Hau & _).
        destruct (updated_instance_values s partial (request_data request) p)
          as (_ & _ & Hn & Hnull & Hkeep).
        apply get_object_Ok in Hp as [Hp _].
        apply (post_saved now s p); try done.
        pose proof (Post_chat_validated s partial (request_data request)) as Hh.
        destruct ((Drf.to_internal_value (Post_fields s) partial
                     (request_data request)).1 !! "chat") as [v|] eqn:Hc;
          [|left; by apply Hkeep].
        right. destruct (Hh v eq_refl) as [->|(n & -> & Hq)].
        + by rewrite Hnull.
        + rewrite (Hn n eq_refl). cbn. by rewrite bool_decide_eq_true_2.
      - rewrite (PostViewSet_authenticated _ _ _ _ u Hu).
        assert (PostViewSet_action (if partial then partial_update pk else update pk)
                  (Some u) request now s = PostViewSet_update partial pk request s) as ->
          by by destruct partial.
        rewrite PostViewSet_update_eq, Hp. constructor. }
    destruct a as [|pk| |pk|pk|pk].
    + rewrite (PostViewSet_authenticated _ _ _ _ u Hu). cbn [PostViewSet_action].
      rewrite PostSerializer_fields. constructor.
    + rewrite (PostViewSet_authenticated _ _ _ _ u Hu). cbn [PostViewSet_action].
      destruct (get_object pk s); cbn [mbind result_bind];
        rewrite ?PostSerializer_fields; constructor.
    + rewrite (PostViewSet_authenticated _ _ _ _ u Hu), PostViewSet_create_eq.
      destruct (Drf.run_validation_all _ _ _) as [ret|e] eqn:Hv; cbn [mbind result_bind];
        [|constructor].
      apply run_validation_all_Ok in Hv as [-> _]. cbn [fst].
      destruct (created_post_refs s (request_data request) (User.id u) now)
        as (Hid & Hau & Hch).
      constructor; [done| |done]. rewrite Hau. by apply list_elem_of_fmap_2.
    + apply (Hupd false).
    + apply (Hupd true).
    + rewrite (PostViewSet_authenticated _ _ _ _ u Hu). cbn [PostViewSet_action].
      destruct (get_object pk s); cbn [mbind result_bind]; constructor.
  - rewrite SaveChat_store in Hap. injection Hap as <-. exists s. split; constructor.
  - injection Hap as <-. exists s. split; constructor.
  - injection Hap as <-. exists s. split; constructor.
  - destruct (forallb _ members) eqn:Hm; [|done]. injection Hap as <-.
    exists s. split; constructor.
    apply Forall_forall. intros m Hin. apply list_elem_of_In in Hin.
    apply (proj1 (forallb_forall _ _) Hm) in Hin. by apply bool_decide_eq_true in Hin.
  - destruct (refers_to _ chat) eqn:Hc; [|done]. cbn [andb] in Hap.
    destruct (refers_to _ author) eqn:Ha; [|done]. injection Hap as <-.
    exists s. split; by constructor.
Qed.

Lemma store_change_wf now s s' : store_change now s s' → wf_store s → wf_store s'.
Proof.
  intros Hc Hwf. destruct Hc as [|u e p|user key Hin| p Hid|p p' Hin Hid| | | | |]; try done.
  - by apply wf_store_with_account.
  - apply wf_insert_token; [|done]. cbn.
    apply list_elem_of_fmap in Hin as (x & -> & Hx).
    by apply (proj1 (Forall_forall _ _) (wf_users s Hwf)).
  - by apply wf_insert_post.
  - by apply (wf_Post_save p).
  - by apply wf_Post_delete.
  - by apply wf_User_delete.
  - by apply wf_Chat_delete.
  - by destruct Hwf.
  - by destruct Hwf.
Qed.

Lemma refers_to_weaken (ids ids' : list Z) ref :
  (∀ x, x ∈ ids → x ∈ ids') → refers_to ids ref = true → refers_to ids' ref = true.
Proof.
  intros Hsub. destruct ref as [n|]; [|done]. cbn.
  intros Hn%bool_decide_eq_true. apply bool_decide_eq_true. auto.
Qed.

Lemma refers_to_other (ids : list Z) (keep : Z → Prop) `{∀ x, Decision (keep x)} ref :
  (∀ n, ref = Some n → keep n) →
  refers_to ids ref = true → refers_to (filter keep ids) ref = true.
Proof.
  destruct ref as [n|]; [|done]. cbn. intros Hk Hn%bool_decide_eq_true.
  apply bool_decide_eq_true. apply list_elem_of_filter. auto.
Qed.

Lemma ids_filter {A : Type} (f : A → Z) (pk : Z) (l : list A) :
  f <$> filter (λ r, f r ≠ pk) l = filter (λ n, n ≠ pk) (f <$> l).
Proof.
  induction l as [|r l IH]; [done|]. rewrite fmap_cons.
  destruct (decide (f r = pk)) as [He|He].
  - by rewrite !filter_cons_False by (intros Hn; by apply Hn).
  - rewrite !filter_cons_True by done. by rewrite fmap_cons, IH.
Qed.

(** Referential integrity is kept by every change. *)
Lemma store_change_integrity now s s' :
  store_change now s s' → wf_store s → referential_integrity s → referential_integrity s'.
Proof.
  intros Hc Hwf [Hp Ht Hpa Hpc Hmc Hma Hcm].
  assert (∀ (ids : list Z) x n, n ∈ ids → n ∈ (ids ++ [x])%list) as Hsnoc.
  { intros ids x n Hn. apply elem_of_app. by left. }
  destruct Hc as [|u e p Hu Hs|user key Hin Hnew Hkey|p Hid Hau Hch
                  |p p' Hin Hid Hau Hch|pk|pk|pk|title members Hm|chat author text Hc Ha].
  - done.
  - split; cbn [users profiles tokens posts chats messages store_with_account
                insert_profile insert_user]; rewrite ?fmap_app; try done.
    + apply Forall_app. split.
      * eapply Forall_impl; [exact Hp|]. intros r. apply Hsnoc.
      * apply Forall_singleton. cbn. apply elem_of_app. right. by left.
    + eapply Forall_impl; [exact Ht|]. intros r. apply Hsnoc.
    + eapply Forall_impl; [exact Hpa|]. intros r. apply Hsnoc.
    + eapply Forall_impl; [exact Hma|]. intros r. apply refers_to_weaken, Hsnoc.
    + eapply Forall_impl; [exact Hcm|]. intros c Hc.
      eapply Forall_impl; [exact Hc|]. intros m. apply Hsnoc.
  - split; cbn [users profiles tokens posts chats messages insert_token]; try done.
    apply Forall_app. split; [done|]. by apply Forall_singleton.
  - split; cbn [users profiles tokens posts chats messages insert_post]; try done.
    + apply Forall_app. split; [done|]. by apply Forall_singleton.
    + apply Forall_app. split; [done|]. by apply Forall_singleton.
  - split; try done.
    + rewrite Post_save_posts. apply Forall_fmap.
      eapply Forall_impl; [exact Hpa|]. intros q Hq. cbn. case_decide; [|done].
      rewrite Hau. by apply (proj1 (Forall_forall _ _) Hpa).
    + rewrite Post_save_posts. apply Forall_fmap.
      eapply Forall_impl; [exact Hpc|]. intros q Hq. cbn. case_decide; [|done].
      destruct Hch as [-> | Hch]; [|done].
      by apply (proj1 (Forall_forall _ _) Hpc).
  - split; cbn [users profiles tokens posts chats messages Post_delete set_posts];
      try done; by apply Forall_filter_keep.
  - split; cbn [users profiles tokens posts chats messages User_delete Orm.collect
                Orm.fk_on_delete UserProfile_user Token_user Post_author Message_author].
    + rewrite (ids_filter User.id). apply Forall_forall.
      intros r [Hr Hin]%list_elem_of_filter. apply list_elem_of_filter. split.
      * congruence.
      * by apply (proj1 (Forall_forall _ _) Hp).
    + rewrite (ids_filter User.id). apply Forall_forall.
      intros r [Hr Hin]%list_elem_of_filter. apply list_elem_of_filter. split.
      * congruence.
      * by apply (proj1 (Forall_forall _ _) Ht).
    + rewrite (ids_filter User.id). apply Forall_forall.
      intros r [Hr Hin]%list_elem_of_filter. apply list_elem_of_filter. split.
      * congruence.
      * by apply (proj1 (Forall_forall _ _) Hpa).
    + rewrite <- list_fmap_compose.
      apply Forall_filter_keep. exact Hpc.
    + rewrite <- list_fmap_compose. apply Forall_fmap.
      eapply Forall_impl; [exact Hmc|]. intros m Hm. cbn. by case_decide.
    + rewrite (ids_filter User.id). apply Forall_fmap. apply Forall_forall.
      intros m Hin. cbn. case_decide as Hd; [done|].
      apply refers_to_other; [congruence|].
      by apply (proj1 (Forall_forall _ _) Hma).
    + rewrite (ids_filter User.id). apply Forall_fmap.
      eapply Forall_impl; [exact Hcm|]. intros c Hc. cbn.
      apply Forall_forall. intros m [Hne Hin]%list_elem_of_filter.
      apply list_elem_of_filter. split; [done|].
      by apply (proj1 (Forall_forall _ _) Hc).
  - split; cbn [users profiles tokens posts chats messages Chat_delete Orm.collect
                Orm.fk_on_delete Post_chat Message_chat]; try done.
    + by apply Forall_filter_keep.
    + rewrite (ids_filter Chat.id). apply Forall_forall.
      intros r [Hr Hin]%list_elem_of_filter.
      apply refers_to_other; [congruence|].
      by apply (proj1 (Forall_forall _ _) Hpc).
    + rewrite (ids_filter Chat.id). apply Forall_fmap. apply Forall_forall.
      intros m Hin. cbn. case_decide as Hd; [done|].
      apply refers_to_other; [congruence|].
      by apply (proj1 (Forall_forall _ _) Hmc).
    + apply Forall_fmap. eapply Forall_impl; [exact Hma|]. intros m Hm. cbn.
      by case_decide.
    + by apply Forall_filter_keep.
  - split; cbn [users profiles tokens posts chats messages insert_chat];
      rewrite ?fmap_app; try done.
    + eapply Forall_impl; [exact Hpc|]. intros r. apply refers_to_weaken, Hsnoc.
    + eapply Forall_impl; [exact Hmc|]. intros r. apply refers_to_weaken, Hsnoc.
    + apply Forall_app. split; [done|]. by apply Forall_singleton.
  - split; cbn [users profiles tokens posts chats messages insert_message]; try done.
    + apply Forall_app. split; [done|]. by apply Forall_singleton.
    + apply Forall_app. split; [done|]. by apply Forall_singleton.
Qed.

(** The one-to-one relations are kept by every change. *)
Lemma store_change_one_to_one now s s' :
  store_change now s s' → wf_store s → one_to_one s → one_to_one s'.
Proof.
  intros Hc Hwf [Hu Hp Hh Ht Hk].
  destruct Hc as [|u e p _ _|user key Hin Hnew Hkey|p Hid Hau Hch
                  |p p' Hin Hid Hau Hch|pk|pk|pk|title members Hm|chat author text Hc Ha];
    try done.
  - split; cbn [users profiles tokens store_with_account insert_profile insert_user];
      try done.
    + apply NoDup_fmap_snoc; [done|]. apply Forall_lt_ne. exact (wf_users s Hwf).
    + apply NoDup_fmap_snoc; [done|]. apply Forall_lt_ne. exact (wf_profiles s Hwf).
    + rewrite fmap_app. apply Forall_app. split.
      * eapply Forall_impl; [exact Hh|]. intros x Hx. apply elem_of_app. by left.
      * apply Forall_singleton. apply elem_of_app. right. by left.
  - split; cbn [users profiles tokens insert_token]; try done.
    + by apply NoDup_fmap_snoc.
    + by apply NoDup_fmap_snoc.
  - split; cbn [users profiles tokens User_delete Orm.collect Orm.fk_on_delete
                UserProfile_user Token_user]; try (by apply NoDup_fmap_filter).
    apply Forall_forall. intros x [Hx Hin]%list_elem_of_filter.
    apply (proj1 (Forall_forall _ _) Hh) in Hin.
    apply list_elem_of_fmap in Hin as (r & Hr & Hin).
    apply list_elem_of_fmap. exists r. split; [done|].
    apply list_elem_of_filter. split; [|done]. congruence.
Qed.

(** The users are those registration made. *)
Lemma store_change_users now s s' :
  store_change now s s' →
  Forall registered_user (users s) → Forall registered_user (users s').
Proof.
  intros Hc Hall.
  destruct Hc as [|u e p Hu Hs|user key Hin Hnew Hkey|p Hid Hau Hch
                  |p p' Hin Hid Hau Hch|pk|pk|pk|title members Hm|chat author text Hc Ha];
    try done.
  - cbn [users store_with_account insert_profile insert_user].
    apply Forall_app. split; [done|]. apply Forall_singleton.
    assert (Py.strip (Py.title u) = Py.title u) as Hst
      by by rewrite PyFacts.strip_title, Hs.
    assert (Py.strip (Py.title u) ≠ "") as Hne
      by (rewrite Hst; by rewrite PyFacts.title_empty).
    destruct (NameFacts.first_name_token (Py.title u) Hne) as [Hf Hsp].
    split; cbn [User.username User.first_name User.last_name User.is_active new_account];
      try done.
    by exists u.
  - cbn [users User_delete]. by apply Forall_filter_keep.
Qed.

(** An invariant of the elementary changes holds along every history. *)
Lemma run_keeps (I : Store → Prop) :
  (∀ now s s', store_change now s s' → wf_store s → I s → I s') →
  ∀ history s s',
    run is_email history s = Some s' → wf_store s → I s → wf_store s' ∧ I s'.
Proof.
  intros Hstep history. induction history as [|[ev now] rest IH]; intros s s'.
  - cbn. by intros [= <-].
  - cbn [run]. destruct (apply is_email ev now s) as [s1|] eqn:Hap; [|done].
    cbn [mbind option_bind]. intros Hrun Hwf HI.
    destruct (apply_changes ev now s s1 Hap Hwf) as (s0 & H0 & H1).
    pose proof (store_change_wf now s s0 H0 Hwf) as Hwf0.
    pose proof (store_change_wf now s0 s1 H1 Hwf0) as Hwf1.
    apply (IH s1 s' Hrun Hwf1). eauto.
Qed.

Lemma empty_store_integrity : referential_integrity empty_store.
Proof. split; constructor. Qed.

Lemma empty_store_one_to_one : one_to_one empty_store.
Proof. split; constructor. Qed.

Lemma reachable_integrity s : reachable is_email s → referential_integrity s.
Proof.
  intros [history Hrun].
  by apply (run_keeps referential_integrity store_change_integrity history empty_store s
              Hrun empty_store_wf empty_store_integrity).
Qed.

Lemma reachable_one_to_one s : reachable is_email s → one_to_one s.
Proof.
  intros [history Hrun].
  by apply (run_keeps one_to_one store_change_one_to_one history empty_store s
              Hrun empty_store_wf empty_store_one_to_one).
Qed.

Lemma reachable_users s : reachable is_email s → Forall registered_user (users s).
Proof.
  intros [history Hrun].
  apply (run_keeps (λ s, Forall registered_user (users s))
           (λ now s s' Hc _, store_change_users now s s' Hc) history empty_store s
           Hrun empty_store_wf). constructor.
Qed.

Lemma reachable_invariant s : reachable is_email s → store_invariant s.
Proof.
  intros [history Hrun].
  by apply (run_preserves is_email history empty_store s Hrun
              (conj empty_store_wf empty_store_invariant)).
Qed.

(** X21.  In every reachable store the references are intact: the user
    of every profile and of every token, the author of every post and the
    members of every chat are stored users, and the chat of a post and the
    chat and the author of a message are stored rows unless they are
    null. *)
Theorem reachable_stores_have_no_dangling_reference s :
  reachable is_email s → referential_integrity s.
Proof. apply reachable_integrity. Qed.

(** X22.  In every reachable store the one-to-one relations hold: the
    keys of the users are distinct, every user has a profile and no two
    profiles share a user, a user has at most one token, and no two tokens
    have the same key. *)
Theorem reachable_stores_are_one_to_one s : reachable is_email s → one_to_one s.
Proof. apply reachable_one_to_one. Qed.

(** X23.  Every user of a reachable store is as registration made it:
    the username is the title-cased form of a trimmed, non-empty name and is
    trimmed itself, the first and the last name are the ones computed from it, the first name is a non-empty token
    without whitespace, the account is active, and the name the views
    display for the user is the tokens of the username joined by single
    spaces. *)
Theorem reachable_users_are_as_registered s u :
  reachable is_email s → u ∈ users s →
  registered_user u
  ∧ ∀ token, response_field (mkResponse HTTP_200_OK (auth_data token u)) "username"
             = Some (VStr (Py.join " " (Py.split (User.username u)))).
Proof.
  intros Hr Hin.
  pose proof (proj1 (Forall_forall _ _) (reachable_users s Hr) u Hin) as Hu.
  split; [done|]. intros token. unfold response_field, auth_data. cbn [data].
  rewrite lookup_insert_ne, lookup_insert_eq by done.
  rewrite (ru_first u Hu), (ru_last u Hu).
  by rewrite (NameFacts.display_name _ (NameFacts.split_tokens _)).
Qed.

(** X24.  [UserProfile.__str__] is defined for every profile of a
    reachable store: the user of the profile is stored, and the result is
    that user's username, which is not empty. *)
Theorem profile_str_is_the_username s p :
  reachable is_email s → p ∈ profiles s →
  ∃ u, u ∈ users s ∧ User.id u = UserProfile.user p
       ∧ UserProfile_str p s = Some (User.username u) ∧ User.username u ≠ "".
Proof.
  intros Hr Hin.
  pose proof (reachable_integrity s Hr) as Hri.
  pose proof (reachable_one_to_one s Hr) as Hoo.
  pose proof (reachable_invariant s Hr) as Hinv.
  pose proof (proj1 (Forall_forall _ _) (ri_profiles s Hri) p Hin) as Hu.
  apply list_elem_of_fmap in Hu as (u & Hid & Hu).
  exists u. split; [done|]. split; [done|]. split.
  - unfold UserProfile_str. rewrite Hid.
    by rewrite (first_where_unique User.id (users s) u (oo_user_ids s Hoo) Hu).
  - by apply (proj1 (Forall_forall _ _) (inv_usernames s Hinv)).
Qed.

(** X25.  Deleting a user of a reachable store removes the account for
    good: the user, the profile and the token are gone, the token no longer
    authenticates a request and the username can no longer log in, whatever
    the password; the chats stay, without that member. *)
Theorem deleted_user_is_locked_out s account :
  reachable is_email s → account ∈ users s →
  let s' := User_delete (User.id account) s in
  (account ∉ users s')
  ∧ Forall (λ p, UserProfile.user p ≠ User.id account) (profiles s')
  ∧ Forall (λ t, Token.user t ≠ User.id account) (tokens s')
  ∧ Chat.id <$> chats s' = Chat.id <$> chats s
  ∧ Forall (λ c, User.id account ∉ Chat.members c) (chats s')
  ∧ (∀ token d, token ∈ tokens s → Token.user token = User.id account →
       perform_authentication (mkRequest (Some (Token.key token)) d) s'
       = Raise (AuthenticationFailed "Invalid token."))
  ∧ (∀ (d : gmap string json) key now raw,
       d !! "username" = Some (JStr raw) → Py.strip raw = User.username account →
       CustomLogInView_post d key now s'
       = (s', mkResponse HTTP_400_BAD_REQUEST
                (RDict {[ "error" := VStr "Invalid username or password" ]}))).
Proof.
  intros Hr Hin. cbn zeta.
  pose proof (reachable_one_to_one s Hr) as Hoo.
  pose proof (reachable_invariant s Hr) as Hinv.
  cbn [users profiles tokens chats User_delete Orm.collect Orm.fk_on_delete
       UserProfile_user Token_user].
  split; [|split; [|split; [|split; [|split; [|split]]]]].
  - intros [Hne _]%list_elem_of_filter. by apply Hne.
  - apply Forall_forall. intros p [Hne _]%list_elem_of_filter. congruence.
  - apply Forall_forall. intros t [Hne _]%list_elem_of_filter. congruence.
  - rewrite <- list_fmap_compose. by apply list_fmap_ext.
  - apply Forall_fmap. apply Forall_forall. intros c _. cbn.
    intros [Hne _]%list_elem_of_filter. by apply Hne.
  - intros token d Ht Hu. unfold perform_authentication.
    cbn [HTTP_AUTHORIZATION tokens User_delete Orm.collect Orm.fk_on_delete Token_user].
    rewrite (proj2 (OrmFacts.first_where_None _ _)); [done|].
    apply Forall_forall. intros t [Hne Hin']%list_elem_of_filter Hk.
    assert (t = token) as ->
      by by apply (NoDup_fmap_eq Token.key (tokens s) t token (oo_token_keys s Hoo)).
    congruence.
  - intros d key now raw Hd Hraw.
    apply login_rejected. right. right. left. exists raw. split; [done|].
    cbn [users User_delete]. apply Forall_forall.
    intros u [Hne Hin']%list_elem_of_filter Hname. apply Hne.
    rewrite Hraw in Hname.
    by rewrite (NoDup_fmap_eq User.username (users s) u account
                  (inv_unique_usernames s Hinv) Hin' Hin Hname).
Qed.

End StoreChanges.

Lemma no_dangling_reference_witness :
  reachable Examples.is_email Examples.store_post
  ∧ referential_integrity Examples.store_post.
Proof.
  split; [exact store_post_reachable|].
  exact (reachable_stores_have_no_dangling_reference Examples.is_email
           Examples.store_post store_post_reachable).
Defined.

Lemma one_to_one_witness :
  reachable Examples.is_email Examples.store_post ∧ one_to_one Examples.store_post.
Proof.
  split; [exact store_post_reachable|].
  exact (reachable_stores_are_one_to_one Examples.is_email Examples.store_post
           store_post_reachable).
Defined.

Lemma alice_stored : Examples.alice_account ∈ users Examples.store_post.
Proof. by left. Defined.

Lemma as_registered_witness :
  reachable Examples.is_email Examples.store_post
  ∧ Examples.alice_account ∈ users Examples.store_post
  ∧ registered_user Examples.alice_account
  ∧ ∀ token,
      response_field (mkResponse HTTP_200_OK (auth_data token Examples.alice_account))
        "username"
      = Some (VStr (Py.join " " (Py.split (User.username Examples.alice_account)))).
Proof.
  split; [exact store_post_reachable|]. split; [exact alice_stored|].
  exact (reachable_users_are_as_registered Examples.is_email Examples.store_post
           Examples.alice_account store_post_reachable alice_stored).
Defined.

Lemma alice_profile_stored :
  UserProfile.mk 1 1 "" None None 100 ∈ profiles Examples.store_post.
Proof. by left. Defined.

Lemma profile_str_witness :
  reachable Examples.is_email Examples.store_post
  ∧ UserProfile.mk 1 1 "" None None 100 ∈ profiles Examples.store_post
  ∧ ∃ u, u ∈ users Examples.store_post
         ∧ User.id u = UserProfile.user (UserProfile.mk 1 1 "" None None 100)
         ∧ UserProfile_str (UserProfile.mk 1 1 "" None None 100) Examples.store_post
           = Some (User.username u)
         ∧ User.username u ≠ "".
Proof.
  split; [exact store_post_reachable|]. split; [exact alice_profile_stored|].
  exact (profile_str_is_the_username Examples.is_email Examples.store_post _
           store_post_reachable alice_profile_stored).
Defined.

Lemma locked_out_witness :
  reachable Examples.is_email Examples.store_post
  ∧ Examples.alice_account ∈ users Examples.store_post
  ∧ let s' := User_delete (User.id Examples.alice_account) Examples.store_post in
    (Examples.alice_account ∉ users s')
    ∧ Forall (λ p, UserProfile.user p ≠ User.id Examples.alice_account) (profiles s')
    ∧ Forall (λ t, Token.user t ≠ User.id Examples.alice_account) (tokens s')
    ∧ Chat.id <$> chats s' = Chat.id <$> chats Examples.store_post
    ∧ Forall (λ c, User.id Examples.alice_account ∉ Chat.members c) (chats s')
    ∧ (∀ token d, token ∈ tokens Examples.store_post →
         Token.user token = User.id Examples.alice_account →
         perform_authentication (mkRequest (Some (Token.key token)) d) s'
         = Raise (AuthenticationFailed "Invalid token."))
    ∧ (∀ (d : gmap string json) key now raw,
         d !! "username" = Some (JStr raw) →
         Py.strip raw = User.username Examples.alice_account →
         CustomLogInView_post d key now s'
         = (s', mkResponse HTTP_400_BAD_REQUEST
                  (RDict {[ "error" := VStr "Invalid username or password" ]}))).
Proof.
  split; [exact store_post_reachable|]. split; [exact alice_stored|].
  exact (deleted_user_is_locked_out Examples.is_email Examples.store_post
           Examples.alice_account store_post_reachable alice_stored).
Defined.
